(** * Family finance dashboard: ledger loading, metrics and the append path

    A shallow embedding of [streamlit_app.py].  The script keeps its ledger in
    a pandas [DataFrame] built from the records of a Google Sheet, derives
    four bucket columns from it, sums them into the dashboard metrics, draws a
    cumulative cash-flow trend and appends rows typed into a form.

    Conventions of the embedding:
    - a cell is a dynamically typed [value]; a row is a Python dict, modelled
      as a finite map from column names to values;
    - a number cell holds the rational it denotes, and two numbers are the
      same amount when they are [Qeq]; a whole number is a Python int, any
      other number a float (gspread reads a cell as a float only when its
      text is no integer numeral).  The IEEE infinities are not modelled;
    - the arithmetic on numbers is the 64-bit arithmetic of numpy: int64
      wraps around and float64 rounds.  It is taken through the interface
      [Numpy], whose laws state only that results are exact while every
      number involved is exactly representable;
    - pandas and gspread are libraries outside the repository: what the
      script needs from them is collected in the interfaces [Pandas] and
      [Worksheet].  Each interface has an executable instance further
      down. *)

From Stdlib Require Import QArith ZArith Ascii String.
From Stdlib Require Import Qround Qabs Lqa.
From stdpp Require Import base gmap strings list fin_maps sorting pretty.

Local Open Scope Z_scope.

(** ** Cells, rows and frames *)

Inductive value :=
| VStr (s : string)   (* text cell *)
| VNum (q : Q)        (* int cell (q whole) or float cell *)
| VTime (t : Z)       (* pandas Timestamp, nanoseconds since the epoch *)
| VNaN.               (* NaN, NaT, or a key the record does not have *)

Abbreviation row := (gmap string value).

(** [r[c]] on a row of a frame: a record that lacks column [c] reads NaN. *)
Definition loc (r : row) (c : string) : value := default VNaN (r !! c).

Definition isna (v : value) : bool :=
  match v with VNaN => true | _ => false end.

(** [Series.fillna(d)] on one element. *)
Definition fillna (d : value) (v : value) : value :=
  if isna v then d else v.

(** Python's [v == 'label'] for a cell [v]: only a text cell can be equal. *)
Definition eq_str (v : value) (label : string) : bool :=
  match v with VStr s => String.eqb s label | _ => false end.

(** The number held by a numeric cell (0 for a cell that holds none, which is
    how [sum] and [cumsum] skip NaN). *)
Definition num (v : value) : Q :=
  match v with VNum q => q | _ => 0%Q end.

Record DataFrame := mkDataFrame {
  columns : gset string;
  rows : list row
}.

(** [pd.DataFrame(data)] for a list of dicts: the columns are the union of the
    keys, one row per dict. *)
Definition pd_DataFrame (data : list row) : DataFrame :=
  {| columns := ⋃ (dom <$> data); rows := data |}.

(** [pd.DataFrame()] *)
Definition pd_DataFrame_new : DataFrame :=
  {| columns := ∅; rows := [] |}.

(** [df.empty]: some axis has length 0. *)
Definition empty (df : DataFrame) : bool :=
  bool_decide (columns df = ∅) || bool_decide (length (rows df) = 0%nat).

(** [df[c]] *)
Definition col (df : DataFrame) (c : string) : list value :=
  (λ r, loc r c) <$> rows df.

(** [df[c] = vs]: assignment by position; a row with no partner in [vs]
    receives NaN, as index alignment does. *)
Definition set_col (c : string) (vs : list value) (df : DataFrame) : DataFrame :=
  {| columns := {[c]} ∪ columns df;
     rows := imap (λ i r, <[c := default VNaN (vs !! i)]> r) (rows df) |}.

(** [df.apply(f, axis=1)] *)
Definition apply_rows (f : row → value) (df : DataFrame) : list value :=
  f <$> rows df.

(** ** Numbers that 64-bit arithmetic handles exactly *)

Fixpoint pow2 (k : nat) : positive :=
  match k with O => 1%positive | S k' => ((pow2 k')~0)%positive end.

(** [m / 2^k] *)
Definition dyadic (k : nat) (m : Z) : Q := m # pow2 k.

(** [q] is a multiple of [2^-k]. *)
Definition on_grid (k : nat) (q : Q) : Prop := ∃ m : Z, (q == dyadic k m)%Q.

(** [q] is a float64 whose mantissa has at most 53 bits and whose exponent
    is far from the ends of the range; when it is whole it is also an int64
    far from the ends of its range. *)
Definition fits (q : Q) : Prop :=
  ∃ k : nat, (k ≤ 970)%nat ∧ on_grid k q ∧ (Qabs q <= dyadic k (2 ^ 53))%Q.

Definition abs_sum (xs : list Q) : Q := foldr Qplus 0%Q (Qabs <$> xs).

(** The numbers [xs] are multiples of one [2^-k] and their absolute values
    add up to at most [2^53 * 2^-k]: every sum of some of them, taken in any
    order, is exact in float64, and in int64 when they are whole. *)
Definition exact_sum (xs : list Q) : Prop :=
  ∃ k : nat, (k ≤ 970)%nat ∧ Forall (on_grid k) xs
             ∧ (abs_sum xs <= dyadic k (2 ^ 53))%Q.

(** [q] is a multiple of [2^-k] no further than [b] from 0. *)
Definition within (k : nat) (q b : Q) : Prop :=
  on_grid k q ∧ (- b <= q <= b)%Q.

(** Rounding of a non-negative number to a whole one, halves to the even
    neighbour. *)
Definition round_half_even (q : Q) : Z :=
  let f := Qfloor q in
  match (q - inject_Z f ?= 1 # 2)%Q with
  | Lt => f
  | Gt => f + 1
  | Eq => if Z.even f then f else f + 1
  end.

(** [q] is a whole number. *)
Definition is_whole (q : Q) : bool := Qeq_bool q (inject_Z (Qfloor q)).

(** ** The library interfaces *)

(** What the script uses from the arithmetic of numpy and of Python numbers.
    - [float64 q] is the float64 a number becomes when its column is cast
      ([astype]) or when Python converts an int for a float format;
    - [np_add], [np_sub], [np_mul] are [+], [-], [*] on numpy scalars and,
      elementwise, on columns;
    - [np_sum xs] is [Series.sum()] and [group_sum xs] the sum [groupby]
      takes over the rows of one group.
    What these return depends on the dtype: int64 wraps around at [2^63],
    float64 rounds to 53 bits, and the order in which a sum adds its
    elements is numpy's own. *)
Class Numpy := {
  float64 : Q → Q;
  np_add : Q → Q → Q;
  np_sub : Q → Q → Q;
  np_mul : Q → Q → Q;
  np_sum : list Q → Q;
  group_sum : list Q → Q
}.

(** What is known of them: a result is exact when the operands and the
    exact result are exactly representable, whatever the dtype; a sum is
    exact when its summands lie on one grid and are small enough for every
    partial sum, in any order, to be representable.  Nothing is said where
    int64 would wrap or float64 would round. *)
Class NumpyLaws (numpy : Numpy) : Prop := {
  float64_exact : ∀ q, fits q → float64 q = q;
  np_add_exact : ∀ a b,
    fits a → fits b → fits (a + b) → (np_add a b == a + b)%Q;
  np_sub_exact : ∀ a b,
    fits a → fits b → fits (a - b) → (np_sub a b == a - b)%Q;
  np_mul_exact : ∀ a b,
    fits a → fits b → fits (a * b) → (np_mul a b == a * b)%Q;
  np_sum_exact : ∀ xs, exact_sum xs → (np_sum xs == foldr Qplus 0 xs)%Q;
  group_sum_exact : ∀ xs, exact_sum xs → (group_sum xs == foldr Qplus 0 xs)%Q
}.

(** Order of [sort_values] on a datetime column: ascending, NaT last. *)
Definition na_last_le (a b : option Z) : Prop :=
  match a, b with
  | Some x, Some y => x ≤ y
  | _, None => True
  | None, Some _ => False
  end.

(** What the script uses from pandas.
    - [to_datetime vs] is [pd.to_datetime(vs, errors='coerce')] on a column:
      one entry per cell, [None] standing for NaT.
    - [str_to_float s] is the number [pd.to_numeric] reads from a text cell,
      [None] when the text is no number.
    - [sort_by key l] orders rows the way [sort_values] does with its default
      arguments ([kind='quicksort'], [na_position='last']). *)
Class Pandas := {
  to_datetime : list value → list (option Z);
  str_to_float : string → option Q;
  sort_by : ∀ {A : Type}, (A → option Z) → list A → list A
}.

(** What is known of [sort_values]: the result is a rearrangement of the
    rows, ascending in the key with missing keys last.  Line 257 passes no
    [kind], and of the sort kinds pandas offers only 'mergesort' and 'stable'
    keep rows with equal keys in their order; the default 'quicksort' does
    not promise it, so nothing is said here about rows with equal keys. *)
Class PandasLaws (pandas : Pandas) : Prop := {
  sort_by_perm : ∀ (A : Type) (key : A → option Z) (l : list A),
    sort_by key l ≡ₚ l;
  sort_by_sorted : ∀ (A : Type) (key : A → option Z) (l : list A),
    StronglySorted (λ a b, na_last_le (key a) (key b)) (sort_by key l)
}.

(** Exceptions carry their text. *)
Abbreviation exn := string (only parsing).

(** What the script uses from a gspread worksheet: both calls may raise. *)
Class Worksheet (Sheet : Type) := {
  get_all_records : Sheet → exn + list row;
  append_row : list value → Sheet → exn + Sheet
}.

(** ** Messages shown to the user *)

Inductive message :=
| FetchFailed (e : exn)                 (* st.error, line 100 *)
| ColumnMissing (c : string)            (* st.error, line 111 *)
| NothingEntered                        (* st.warning, line 205 *)
| Saved (transaction_type : string) (jumlah_rp : Z)  (* st.success, line 219 *)
| SaveFailed (e : exn).                 (* st.error, line 225 *)

(** ** load_data *)

Definition required_cols : list string :=
  ["Tanggal"; "Tipe Transaksi"; "Keterangan"; "Jumlah (Rp)"; "Gram Emas"].

Section Loader.
Context `{Pandas} `{Numpy}.

Definition of_time (o : option Z) : value :=
  match o with Some t => VTime t | None => VNaN end.

(** What [pd.to_numeric(_, errors='coerce')] reads from one cell: a number
    is a number, a text is read as a number if it is one, everything else is
    NaN. *)
Definition read_cell (v : value) : value :=
  match v with
  | VNum q => VNum q
  | VStr s => from_option VNum VNaN (str_to_float s)
  | _ => VNaN
  end.

(** An int: a column of ints only has dtype int64. *)
Definition int_cell (v : value) : bool :=
  match v with VNum q => is_whole q | _ => false end.

(** The cell as an element of a float64 column. *)
Definition astype_float (v : value) : value :=
  match v with VNum q => VNum (float64 q) | _ => v end.

(** The column is float64 once it is numeric: some cell is a float, or
    cannot be read and becomes NaN. *)
Definition is_float (vs : list value) : bool :=
  negb (forallb int_cell (read_cell <$> vs)).

(** [pd.to_numeric(vs, errors='coerce')] on a column: the cells as they are
    read when all of them are ints, and all of them cast to float64
    otherwise. *)
Definition to_numeric (vs : list value) : list value :=
  if is_float vs then astype_float <$> (read_cell <$> vs)
  else read_cell <$> vs.

(** The lambdas of lines 120-123. *)
Definition bucket (label : string) (row : row) : value :=
  if eq_str (loc row "Tipe Transaksi") label
  then loc row "Jumlah (Rp)" else VNum 0.

(** Lines 115-123. *)
Definition clean (df : DataFrame) : DataFrame :=
  let df := set_col "Tanggal" (of_time <$> to_datetime (col df "Tanggal")) df in
  let df := set_col "Jumlah (Rp)"
              (fillna (VNum 0) <$> to_numeric (col df "Jumlah (Rp)")) df in
  let df := set_col "Gram Emas"
              (fillna (VNum 0) <$> to_numeric (col df "Gram Emas")) df in
  let df := set_col "Pemasukan" (apply_rows (bucket "Pemasukan") df) df in
  let df := set_col "Pengeluaran" (apply_rows (bucket "Pengeluaran Harian") df) df in
  let df := set_col "Investasi Saham" (apply_rows (bucket "Tabungan Saham") df) df in
  let df := set_col "Beli Emas (Rp)" (apply_rows (bucket "Beli Emas") df) df in
  df.

(** An amount or gram cell after coercion, in a column that is float64
    ([float = true]) or int64. *)
Definition coerce (float : bool) (v : value) : value :=
  fillna (VNum 0) (if float then astype_float (read_cell v) else read_cell v).

(** Lines 116-123 on one row, given the dtypes of the two numeric columns. *)
Definition finish_row (float_rp float_gram : bool) (r : row) : row :=
  let r := <["Jumlah (Rp)" := coerce float_rp (loc r "Jumlah (Rp)")]> r in
  let r := <["Gram Emas" := coerce float_gram (loc r "Gram Emas")]> r in
  let r := <["Pemasukan" := bucket "Pemasukan" r]> r in
  let r := <["Pengeluaran" := bucket "Pengeluaran Harian" r]> r in
  let r := <["Investasi Saham" := bucket "Tabungan Saham" r]> r in
  <["Beli Emas (Rp)" := bucket "Beli Emas" r]> r.

(** Line 115 on the row at position [i]. *)
Definition date_row (dates : list (option Z)) (i : nat) (r : row) : row :=
  <["Tanggal" := default VNaN ((of_time <$> dates) !! i)]> r.

(** [load_data(sheet)]: the frame returned and the messages it shows. *)
Definition load_data `{Worksheet Sheet} (sheet : Sheet)
  : DataFrame * list message :=
  match get_all_records sheet with
  | inl e => (pd_DataFrame_new, [FetchFailed e])
  | inr data =>
      let df := pd_DataFrame data in
      if empty df then (df, [])
      else
        match List.find (λ c, negb (bool_decide (c ∈ columns df))) required_cols with
        | Some c => (pd_DataFrame_new, [ColumnMissing c])
        | None => (clean df, [])
        end
  end.
End Loader.

(** ** Core metrics (lines 132-140) *)

Section CoreMetrics.
Context `{Numpy}.

(** [Series.sum()]: NaN cells count as 0. *)
Definition series_sum (vs : list value) : Q := np_sum (num <$> vs).

Definition total_pemasukan (df : DataFrame) : Q := series_sum (col df "Pemasukan").
Definition total_pengeluaran (df : DataFrame) : Q := series_sum (col df "Pengeluaran").
Definition total_tabungan_saham (df : DataFrame) : Q := series_sum (col df "Investasi Saham").
Definition total_gram_emas (df : DataFrame) : Q := series_sum (col df "Gram Emas").

Definition saldo_cashflow (df : DataFrame) : Q :=
  np_sub (total_pemasukan df) (total_pengeluaran df).

Definition total_kekayaan (df : DataFrame) : Q :=
  np_add (np_add (saldo_cashflow df) (total_tabungan_saham df))
         (np_mul (total_gram_emas df) 900000).
End CoreMetrics.

(** ** Cumulative trend (lines 256-262) *)

Section Cumsum.
Context `{Numpy}.

(** Elementwise [a - b] of two numeric cells; NaN where either is missing. *)
Definition sub_value (a b : value) : value :=
  if isna a || isna b then VNaN else VNum (np_sub (num a) (num b)).

(** [np.cumsum]: the first element, then each element added to the sum
    before it. *)
Fixpoint accumulate_from (acc : Q) (qs : list Q) : list Q :=
  match qs with
  | [] => []
  | q :: qs' => np_add acc q :: accumulate_from (np_add acc q) qs'
  end.

Definition accumulate (qs : list Q) : list Q :=
  match qs with
  | [] => []
  | q :: qs' => q :: accumulate_from q qs'
  end.

(** [Series.cumsum()]: NaN cells count as 0 in the running sum and stay
    NaN. *)
Definition cumsum (vs : list value) : list value :=
  zip_with (λ v s, if isna v then VNaN else VNum s)
           vs (accumulate (num <$> vs)).
End Cumsum.

(** Sort key of a cell of a datetime column. *)
Definition time_key (v : value) : option Z :=
  match v with VTime t => Some t | _ => None end.

(** [df.dropna(subset=[c])] *)
Definition dropna (c : string) (df : DataFrame) : DataFrame :=
  {| columns := columns df;
     rows := filter (λ r, isna (loc r c) = false) (rows df) |}.

Section Trend.
Context `{Pandas} `{Numpy}.

(** [df.sort_values(c)] for a datetime column [c]. *)
Definition sort_values (c : string) (df : DataFrame) : DataFrame :=
  {| columns := columns df;
     rows := sort_by (λ r, time_key (loc r c)) (rows df) |}.

Definition df_trend (df : DataFrame) : DataFrame :=
  let df_trend := sort_values "Tanggal" df in
  let df_trend := set_col "Cashflow Harian"
        (zip_with sub_value (col df_trend "Pemasukan") (col df_trend "Pengeluaran"))
        df_trend in
  let df_trend := set_col "Kekayaan Kumulatif"
        (cumsum (col df_trend "Cashflow Harian")) df_trend in
  df_trend.

(** The points handed to [px.line]: x = Tanggal, y = Kekayaan Kumulatif, over
    the rows that have a date. *)
Definition trend_points (df : DataFrame) : list (value * value) :=
  (λ r, (loc r "Tanggal", loc r "Kekayaan Kumulatif"))
    <$> rows (dropna "Tanggal" (df_trend df)).
End Trend.

(** ** The input form (lines 184-201) *)

(** The options of the select box. *)
Inductive TransactionType :=
| Pemasukan | PengeluaranHarian | TabunganSaham | BeliEmas.

#[export] Instance TransactionType_eq_dec : EqDecision TransactionType.
Proof. solve_decision. Defined.

Definition label (t : TransactionType) : string :=
  match t with
  | Pemasukan => "Pemasukan"
  | PengeluaranHarian => "Pengeluaran Harian"
  | TabunganSaham => "Tabungan Saham"
  | BeliEmas => "Beli Emas"
  end.

Record date := mkDate { year : N; month : N; day : N }.

(** Decimal digits of [n], zero-padded on the left to [width]. *)
Definition zfill (width : nat) (n : N) : string :=
  let s := pretty n in
  String.concat "" (replicate (width - String.length s) "0") +:+ s.

(** [d.strftime("%Y-%m-%d")] *)
Definition strftime (d : date) : string :=
  zfill 4 (year d) +:+ "-" +:+ zfill 2 (month d) +:+ "-" +:+ zfill 2 (day d).

(** What the user has entered in the widgets when the script runs. *)
Record Widgets := mkWidgets {
  date_input : date;
  selectbox : TransactionType;
  number_input_rp : Z;          (* int widget, min_value=0, step=1000 *)
  number_input_gram : Q;        (* float widget, shown for "Beli Emas" only *)
  text_input : string;
  form_submit_button : bool
}.

(** The variables the form leaves behind. *)
Record Draft := mkDraft {
  tanggal : date;
  transaction_type : string;
  jumlah_rp : Z;
  gram_emas : Q;
  keterangan : string;
  submit : bool
}.

Definition input_form (w : Widgets) : Draft :=
  let tanggal := date_input w in
  let transaction_type := label (selectbox w) in
  let jumlah_rp := number_input_rp w in
  let gram_emas := 0%Q in
  let gram_emas :=
    if String.eqb transaction_type "Beli Emas" then number_input_gram w
    else gram_emas in
  let keterangan := text_input w in
  mkDraft tanggal transaction_type jumlah_rp gram_emas keterangan
          (form_submit_button w).

(** ** The script as a state transformer *)

(** Effects of a run that the claims speak about, in the order they happen. *)
Inductive event :=
| Show (m : message)                 (* st.error / st.warning / st.success *)
| AppendRow (row_data : list value)  (* sheet.append_row was called *)
| CacheClear.                        (* load_data.clear() *)

(** The state a run works on: the worksheet, the slot of [st.cache_data] that
    memoises [load_data], and the effects so far. *)
Record Session (Sheet : Type) := mkSession {
  sheet : Sheet;
  cache : option (DataFrame * list message);
  trace : list event
}.
Arguments mkSession {Sheet}.
Arguments sheet {Sheet}.
Arguments cache {Sheet}.
Arguments trace {Sheet}.

(** How a piece of script ends: normally, by an [Exception], or by the rerun
    signal of [st.experimental_rerun], which is no [Exception] and so passes
    through [except Exception]. *)
Inductive outcome (A : Type) :=
| Done (a : A)
| Raised (e : exn)
| Rerun.
Arguments Done {A}.
Arguments Raised {A}.
Arguments Rerun {A}.

Definition script (Sheet A : Type) : Type :=
  Session Sheet → outcome A * Session Sheet.

#[export] Instance script_ret {Sheet} : MRet (script Sheet) :=
  λ A a s, (Done a, s).

#[export] Instance script_bind {Sheet} : MBind (script Sheet) :=
  λ A B k m s,
    match m s with
    | (Done a, s') => k a s'
    | (Raised e, s') => (Raised e, s')
    | (Rerun, s') => (Rerun, s')
    end.

(** [try: body  except Exception as e: handler(e)] *)
Definition try_except {Sheet A} (body : script Sheet A) (handler : exn → script Sheet A)
  : script Sheet A :=
  λ s, match body s with
       | (Raised e, s') => handler e s'
       | r => r
       end.

Definition emit {Sheet} (ev : event) : script Sheet unit :=
  λ s, (Done (), mkSession (sheet s) (cache s) (trace s ++ [ev])).

Definition st_error {Sheet} (m : message) : script Sheet unit := emit (Show m).
Definition st_warning {Sheet} (m : message) : script Sheet unit := emit (Show m).
Definition st_success {Sheet} (m : message) : script Sheet unit := emit (Show m).

(** [load_data.clear()] *)
Definition load_data_clear {Sheet} : script Sheet unit :=
  λ s, (Done (), mkSession (sheet s) None (trace s ++ [CacheClear])).

(** [st.experimental_rerun()] *)
Definition st_experimental_rerun {Sheet} : script Sheet unit :=
  λ s, (Rerun, s).

Section Script.
Context `{Pandas} `{Numpy} `{Worksheet Sheet}.

(** [sheet.append_row(row_data)] *)
Definition sheet_append_row (row_data : list value) : script Sheet unit :=
  λ s, let tr := trace s ++ [AppendRow row_data] in
       match append_row row_data (sheet s) with
       | inl e => (Raised e, mkSession (sheet s) (cache s) tr)
       | inr sheet' => (Done (), mkSession sheet' (cache s) tr)
       end.

(** [load_data(sheet)] through [st.cache_data]: a filled slot answers, an
    empty one is filled by running the function. *)
Definition load_data_cached : script Sheet DataFrame :=
  λ s, match cache s with
       | Some (df, msgs) => (Done df, s)
       | None =>
           let r := load_data (sheet s) in
           (Done r.1, mkSession (sheet s) (Some r) (trace s ++ (Show <$> r.2)))
       end.

Definition row_data (d : Draft) : list value :=
  [ VStr (strftime (tanggal d));
    VStr (transaction_type d);
    VStr (keterangan d);
    VNum (inject_Z (jumlah_rp d));
    VNum (gram_emas d) ].

(** Lines 203-225. *)
Definition submit_handler (d : Draft) : script Sheet unit :=
  if submit d then
    if (jumlah_rp d =? 0) && Qeq_bool (gram_emas d) 0 then
      st_warning NothingEntered
    else
      try_except
        (sheet_append_row (row_data d) ;;
         st_success (Saved (transaction_type d) (jumlah_rp d)) ;;
         load_data_clear ;;
         st_experimental_rerun)
        (λ e, st_error (SaveFailed e))
  else mret ().
End Script.

(** ** Views of a ledger row used by the statements *)

Definition type_of (r : row) : value := loc r "Tipe Transaksi".
Definition date_of (r : row) : value := loc r "Tanggal".
Definition amount (r : row) : Q := num (loc r "Jumlah (Rp)").
Definition goldGrams (r : row) : Q := num (loc r "Gram Emas").
Definition incomeAmount (r : row) : Q := num (loc r "Pemasukan").
Definition expenseAmount (r : row) : Q := num (loc r "Pengeluaran").
Definition stockInvestmentAmount (r : row) : Q := num (loc r "Investasi Saham").
Definition goldPurchaseAmount (r : row) : Q := num (loc r "Beli Emas (Rp)").

(** The bucket that belongs to a transaction type. *)
Definition bucket_of (t : TransactionType) (r : row) : Q :=
  match t with
  | Pemasukan => incomeAmount r
  | PengeluaranHarian => expenseAmount r
  | TabunganSaham => stockInvestmentAmount r
  | BeliEmas => goldPurchaseAmount r
  end.

Definition all_types : list TransactionType :=
  [Pemasukan; PengeluaranHarian; TabunganSaham; BeliEmas].

(** The type cell holds one of the four labels. *)
Definition canonical (v : value) : Prop :=
  ∃ t : TransactionType, v = VStr (label t).

(** How many of the four buckets of a row are non-zero. *)
Definition nonzero_buckets (r : row) : nat :=
  length (filter (λ t, Qeq_bool (bucket_of t r) 0 = false) all_types).

(** Net cash flow of one row: income minus expense. *)
Definition cashflow (r : row) : Q := (incomeAmount r - expenseAmount r)%Q.

(** Income and expense of the row are multiples of [2^-k] that share out its
    amount. *)
Definition shares (k : nat) (r : row) : Prop :=
  on_grid k (incomeAmount r) ∧ on_grid k (expenseAmount r)
  ∧ (Qabs (incomeAmount r) + Qabs (expenseAmount r) <= Qabs (amount r))%Q.

(** Running sums of a list of numbers. *)
Fixpoint prefix_sums_from (acc : Q) (qs : list Q) : list Q :=
  match qs with
  | [] => []
  | q :: qs' => (acc + q)%Q :: prefix_sums_from (acc + q)%Q qs'
  end.

Definition prefix_sums (qs : list Q) : list Q := prefix_sums_from 0%Q qs.

(** The rows of a frame that have a date. *)
Definition dated (l : list row) : list row :=
  filter (λ r, isna (date_of r) = false) l.

Section TrendViews.
Context `{Numpy}.

(** The cell "Cashflow Harian" of a row, as line 258 computes it. *)
Definition cashflow_harian (r : row) : Q :=
  np_sub (incomeAmount r) (expenseAmount r).

(** The points of a trend drawn over the rows [l] in that order, as lines
    258 and 259 compute them. *)
Definition points_over (l : list row) : list (value * value) :=
  zip_with (λ r q, (date_of r, VNum q)) l (accumulate (cashflow_harian <$> l)).

(** A row of [df_trend]: the sorted row with its two new cells. *)
Definition trend_row (r : row) (kumulatif : value) : row :=
  <["Kekayaan Kumulatif" := kumulatif]>
    (<["Cashflow Harian" := sub_value (loc r "Pemasukan") (loc r "Pengeluaran")]> r).
End TrendViews.

(** The y value of the last point, 0 for an empty trend. *)
Definition final_value (pts : list (value * value)) : Q :=
  from_option (λ p, num p.2) 0%Q (last pts).

(** What [clean] leaves in the columns the trend reads: a timestamp or NaT
    as date, numbers as income and expense. *)
Definition cleaned (r : row) : Prop :=
  (∃ o, date_of r = of_time o)
  ∧ (∃ q, loc r "Pemasukan" = VNum q)
  ∧ (∃ q, loc r "Pengeluaran" = VNum q).

(** Both rows have a timestamp, the first no later than the second. *)
Definition date_le (a b : row) : Prop :=
  match date_of a, date_of b with
  | VTime x, VTime y => x ≤ y
  | _, _ => False
  end.

(** The reading of [sort_values('Tanggal')] on a row. *)
Definition date_key (r : row) : option Z := time_key (loc r "Tanggal").

(** The effects a piece of script added to the trace. *)
Definition new_events {Sheet} (s s' : Session Sheet) : list event :=
  drop (length (trace s)) (trace s').

(** The records gspread makes of a sheet are keyed by the cells of its
    header row: every record has the same keys, and there is at least one. *)
Definition header_keyed (hdr : list string) (data : list row) : Prop :=
  hdr ≠ [] ∧ Forall (λ r, dom r = list_to_set hdr) data.

(** The amounts of the rows, and 900000 times their grams, lie on one grid
    with absolute values adding up to at most [2^53] steps of it, and the
    grams lie on a grid of their own: the range in which the totals and the
    estimate of line 140 involve no wrap-around and no rounding. *)
Definition exact_ledger (l : list row) : Prop :=
  exact_sum ((amount <$> l) ++ ((λ r, goldGrams r * 900000)%Q <$> l))
  ∧ exact_sum (goldGrams <$> l).

(** The draft would be turned away by the check of line 204. *)
Definition nothing_entered (d : Draft) : Prop :=
  jumlah_rp d = 0 ∧ (gram_emas d == 0)%Q.

(** ** Executable instances of the library interfaces *)

(** Decision of [na_last_le]. *)
Definition key_leb (a b : option Z) : bool :=
  match a, b with
  | Some x, Some y => x <=? y
  | _, None => true
  | None, Some _ => false
  end.

Section Insertion.
Context {A : Type} (stop : option Z → option Z → bool) (key : A → option Z).

(** Insert [x] in front of the first element at which [stop] fires. *)
Fixpoint insert_by (x : A) (l : list A) : list A :=
  match l with
  | [] => [x]
  | y :: l' => if stop (key x) (key y) then x :: l else y :: insert_by x l'
  end.

Definition insertion_sort (l : list A) : list A := foldr insert_by [] l.
End Insertion.

(** An insertion sort, ascending with NaT last, that keeps rows with equal
    keys in their order. *)
Definition stable_sort {A} (key : A → option Z) : list A → list A :=
  insertion_sort key_leb key.

(** A reader of plain decimal numbers such as "12", "-3" or "0.25". *)
Definition digit (a : ascii) : option N :=
  let n := N_of_ascii a in
  if ((48 <=? n) && (n <=? 57))%N then Some (n - 48)%N else None.

Fixpoint digits_from (acc : N) (s : string) : option N :=
  match s with
  | EmptyString => Some acc
  | String a s' => d ← digit a; digits_from (10 * acc + d)%N s'
  end.

Definition read_digits (s : string) : option N :=
  match s with EmptyString => None | _ => digits_from 0 s end.

Fixpoint split_at_dot (s : string) : string * option string :=
  match s with
  | EmptyString => (EmptyString, None)
  | String a s' =>
      if Ascii.eqb a "." then (EmptyString, Some s')
      else let p := split_at_dot s' in (String a p.1, p.2)
  end.

Definition read_unsigned (s : string) : option Q :=
  match split_at_dot s with
  | (i, None) => n ← read_digits i; Some (inject_Z (Z.of_N n))
  | (i, Some f) =>
      n ← read_digits i; m ← read_digits f;
      Some (inject_Z (Z.of_N n)
            + (Z.of_N m # Pos.pow 10 (Pos.of_nat (String.length f))))%Q
  end.

Definition read_decimal (s : string) : option Q :=
  match s with
  | String "-" s' => Qopp <$> read_unsigned s'
  | _ => read_unsigned s
  end.

(** A reader of ISO dates "YYYY-MM-DD". *)
Definition is_leap (y : Z) : bool :=
  ((y mod 4 =? 0) && negb (y mod 100 =? 0)) || (y mod 400 =? 0).

Definition days_in_month (y m : Z) : Z :=
  if m =? 2 then (if is_leap y then 29 else 28)
  else if (m =? 4) || (m =? 6) || (m =? 9) || (m =? 11) then 30 else 31.

(** Days from 1970-01-01 to the given civil date. *)
Definition days_from_civil (y m d : Z) : Z :=
  let y := if m <=? 2 then y - 1 else y in
  let era := y / 400 in
  let yoe := y - era * 400 in
  let doy := (153 * (if 2 <? m then m - 3 else m + 9) + 2) / 5 + d - 1 in
  let doe := yoe * 365 + yoe / 4 - yoe / 100 + doy in
  era * 146097 + doe - 719468.

Definition read_iso_date (s : string) : option Z :=
  if bool_decide (String.length s = 10%nat ∧ String.get 4 s = Some "-"%char
                  ∧ String.get 7 s = Some "-"%char) then
    y ← read_digits (String.substring 0 4 s);
    m ← read_digits (String.substring 5 2 s);
    d ← read_digits (String.substring 8 2 s);
    let '(y, m, d) := (Z.of_N y, Z.of_N m, Z.of_N d) in
    if (1 <=? m) && (m <=? 12) && (1 <=? d) && (d <=? days_in_month y m)
    then Some (days_from_civil y m d * 86400000000000)
    else None
  else None.

Definition read_datetime (v : value) : option Z :=
  match v with VStr s => read_iso_date s | _ => None end.

(** A worksheet held in memory: a header row, the rows below it, and
    whether the service can be reached. *)
Record MemSheet := mkMemSheet {
  header : list string;
  body : list (list value);
  reachable : bool
}.

Definition mem_get_all_records (s : MemSheet) : exn + list row :=
  if reachable s
  then inr ((λ cells, list_to_map (zip (header s) cells)) <$> body s)
  else inl "APIError".

Definition mem_append_row (row_data : list value) (s : MemSheet) : exn + MemSheet :=
  if reachable s
  then inr (mkMemSheet (header s) (body s ++ [row_data]) (reachable s))
  else inl "APIError".

#[export] Instance mem_worksheet : Worksheet MemSheet :=
  {| get_all_records := mem_get_all_records; append_row := mem_append_row |}.

(** pandas with a stable sort and the two readers above. *)
Definition pandas_stable : Pandas := {|
  to_datetime := fmap read_datetime;
  str_to_float := read_decimal;
  sort_by := @stable_sort
|}.

(** *** The sort behind [kind='quicksort']

    [sort_values] hands the timestamps that are not NaT to numpy's argsort
    of kind 'quicksort' and puts the rows without a timestamp behind them
    (pandas [nargsort]).  For datetime64 that argsort is the routine
    [aquicksort_] of numpy's npysort/quicksort.cpp: median-of-three
    partitioning on ranges of more than 17 elements, the larger part pushed
    on a stack, insertion sort on the shorter ranges, and heapsort for a
    range reached after more than [2 * log2 n] partitions.  It is written
    out here on the array [a] of positions (numpy's [tosort]) and the keys
    [v]. *)

Section Argsort.
Context (v : list Z).

Definition at_pos (a : list nat) (i : nat) : nat := default 0%nat (a !! i).

(** [v[a[i]]] *)
Definition val (a : list nat) (i : nat) : Z :=
  default 0 (v !! at_pos a i).

Definition INTP_SWAP (a : list nat) (i j : nat) : list nat :=
  <[j := at_pos a i]> (<[i := at_pos a j]> a).

(** [do { ++pi; } while (v[*pi] < vp)] *)
Fixpoint scan_up (fuel : nat) (a : list nat) (vp : Z) (pi : nat) : nat :=
  match fuel with
  | O => pi
  | S fuel' =>
      let pi := S pi in
      if val a pi <? vp then scan_up fuel' a vp pi else pi
  end.

(** [do { --pj; } while (vp < v[*pj])] *)
Fixpoint scan_down (fuel : nat) (a : list nat) (vp : Z) (pj : nat) : nat :=
  match fuel with
  | O => pj
  | S fuel' =>
      let pj := pred pj in
      if vp <? val a pj then scan_down fuel' a vp pj else pj
  end.

(** The partition loop: the array and the place where the scans met. *)
Fixpoint partition (fuel : nat) (a : list nat) (vp : Z) (pi pj : nat)
  : list nat * nat :=
  match fuel with
  | O => (a, pi)
  | S fuel' =>
      let pi := scan_up (length a) a vp pi in
      let pj := scan_down (length a) a vp pj in
      if (pj <=? pi)%nat then (a, pi)
      else partition fuel' (INTP_SWAP a pi pj) vp pi pj
  end.

(** The inner loop of the insertion sort: cells move up while the key of the
    cell below is larger. *)
Fixpoint shift_up (fuel : nat) (a : list nat) (vp : Z) (pl pj : nat)
  : list nat * nat :=
  match fuel with
  | O => (a, pj)
  | S fuel' =>
      if (pl <? pj)%nat && (vp <? val a (pj - 1))
      then shift_up fuel' (<[pj := at_pos a (pj - 1)]> a) vp pl (pj - 1)
      else (a, pj)
  end.

Definition insert_at (pl : nat) (a : list nat) (pi : nat) : list nat :=
  let vi := at_pos a pi in
  let '(a, pj) := shift_up pi a (default 0 (v !! vi)) pl pi in
  <[pj := vi]> a.

(** Insertion sort of the cells [pl..pr]. *)
Definition insertion_range (a : list nat) (pl pr : nat) : list nat :=
  foldl (insert_at pl) a (seq (S pl) (pr - pl)).

(** One sift of the heapsort, on the [n] cells that start at [base]; cell
    [k] of the heap is [a[base + k - 1]]. *)
Fixpoint sift (fuel : nat) (a : list nat) (base n tmp i j : nat) : list nat :=
  match fuel with
  | O => <[(base + i - 1)%nat := tmp]> a
  | S fuel' =>
      if (j <=? n)%nat then
        let j := if (j <? n)%nat
                    && (val a (base + j - 1) <? val a (base + j))
                 then S j else j in
        if default 0 (v !! tmp) <? val a (base + j - 1)
        then sift fuel' (<[(base + i - 1)%nat := at_pos a (base + j - 1)]> a)
                  base n tmp j (j + j)
        else <[(base + i - 1)%nat := tmp]> a
      else <[(base + i - 1)%nat := tmp]> a
  end.

Definition aheapsort (a : list nat) (base n : nat) : list nat :=
  let a := foldl (λ a l, sift n a base n (at_pos a (base + l - 1)) l (l + l))
                 a (reverse (seq 1 (n / 2))) in
  foldl (λ a m,
           let tmp := at_pos a (base + m - 1) in
           let a := <[(base + m - 1)%nat := at_pos a base]> a in
           sift n a base (m - 1) tmp 1 2)
        a (reverse (seq 2 (n - 1))).

(** The main loop.  [top] tells that a range has just been taken from the
    stack (or is the whole array), which is where the depth is examined. *)
Fixpoint aquicksort_loop (fuel : nat) (top : bool) (a : list nat)
    (pl pr : nat) (cdepth : Z) (stack : list (nat * nat * Z)) : list nat :=
  match fuel with
  | O => a
  | S fuel' =>
      let stack_pop (a : list nat) :=
        match stack with
        | [] => a
        | (pl', pr', depth) :: stack' =>
            aquicksort_loop fuel' true a pl' pr' depth stack'
        end in
      if top && (cdepth <? 0) then stack_pop (aheapsort a pl (pr - pl + 1))
      else if (16 <? pr - pl)%nat then
        let pm := (pl + (pr - pl) / 2)%nat in
        let a := if val a pm <? val a pl then INTP_SWAP a pm pl else a in
        let a := if val a pr <? val a pm then INTP_SWAP a pr pm else a in
        let a := if val a pm <? val a pl then INTP_SWAP a pm pl else a in
        let vp := val a pm in
        let a := INTP_SWAP a pm (pr - 1) in
        let '(a, pi) := partition (length a) a vp pl (pr - 1) in
        let a := INTP_SWAP a pi (pr - 1) in
        let cdepth := cdepth - 1 in
        if (pi - pl <? pr - pi)%nat
        then aquicksort_loop fuel' false a pl (pi - 1) cdepth
               ((S pi, pr, cdepth) :: stack)
        else aquicksort_loop fuel' false a (S pi) pr cdepth
               ((pl, (pi - 1)%nat, cdepth) :: stack)
      else stack_pop (insertion_range a pl pr)
  end.

(** The positions of the keys in sorted order. *)
Definition aquicksort : list nat :=
  let num := length v in
  match num with
  | O => []
  | S _ =>
      aquicksort_loop (2 * num + 2) true (seq 0 num) 0 (num - 1)
        (2 * Z.log2 (Z.of_nat num)) []
  end.
End Argsort.

(** [nargsort] with the defaults of [sort_values]. *)
Definition nargsort {A} (key : A → option Z) (l : list A) : list A :=
  let non_nans := filter (λ x, is_Some (key x)) l in
  omap (λ i, non_nans !! i) (aquicksort (omap key l))
  ++ filter (λ x, key x = None) l.

(** pandas with that sort and the two readers above. *)
Definition pandas_quicksort : Pandas := {|
  to_datetime := fmap read_datetime;
  str_to_float := read_decimal;
  sort_by := @nargsort
|}.

(** Two's complement wrap-around of int64. *)
Definition wrap_int64 (z : Z) : Z := (z + 2 ^ 63) mod 2 ^ 64 - 2 ^ 63.

(** [2^e] for any integer [e]. *)
Definition pow2Q (e : Z) : Q :=
  if 0 <=? e then inject_Z (2 ^ e) else 1 # Z.to_pos (2 ^ (- e)).

(** The exponent of the leading bit of a positive number. *)
Definition ilog2 (q : Q) : Z :=
  let e := Z.log2 (Qnum q) - Z.log2 (Z.pos (Qden q)) in
  if Qle_bool (pow2Q e) q then e else e - 1.

(** The float64 nearest to [q], ties to the even mantissa (finite also
    where float64 overflows to infinity). *)
Definition nearest_double (q : Q) : Q :=
  if Qeq_bool q 0 then 0%Q
  else
    let a := Qabs q in
    let ulp := pow2Q (Z.max (ilog2 a) (-1022) - 52) in
    let r := (inject_Z (round_half_even (a / ulp)) * ulp)%Q in
    if Qlt_le_dec q 0 then (- r)%Q else r.

(** Decision of [fits]. *)
Definition fits_b (q : Q) : bool :=
  existsb (λ k, let s := (q * inject_Z (Z.pos (pow2 k)))%Q in
                is_whole s && (Z.abs (Qfloor s) <=? 2 ^ 53))
          (seq 0 971).

(** Decision of [exact_sum] for a given grid. *)
Definition on_grid_b (k : nat) (q : Q) : bool :=
  is_whole (q * inject_Z (Z.pos (pow2 k))).

Definition exact_sum_b (k : nat) (xs : list Q) : bool :=
  forallb (on_grid_b k) xs && Qle_bool (abs_sum xs) (dyadic k (2 ^ 53)).

(** A number that fits is returned as it is, any other is rounded. *)
Definition to_double (q : Q) : Q := if fits_b q then q else nearest_double q.

(** The result of an operation whose exact value is [exact]: an int64 when
    the operands are ints, a float64 otherwise. *)
Definition int_or_float (ints : bool) (exact : Q) : Q :=
  if ints then inject_Z (wrap_int64 (Qfloor exact)) else to_double exact.

(** The sum of a column: int64 addition is exact modulo [2^64] in any
    order; the elements of a float64 column are added from left to right
    (the order numpy takes is not modelled: on columns that are not
    [exact_sum] the last bits of a float64 sum may differ from numpy's). *)
Definition sum_list (xs : list Q) : Q :=
  if forallb is_whole xs
  then inject_Z (wrap_int64 (Qfloor (foldr Qplus 0%Q xs)))
  else foldl (λ acc x, to_double (acc + x)) 0%Q xs.

(** numpy on int64 and float64, a whole number being taken for an int. *)
Definition numpy64 : Numpy := {|
  float64 := to_double;
  np_add a b := int_or_float (is_whole a && is_whole b) (a + b);
  np_sub a b := int_or_float (is_whole a && is_whole b) (a - b);
  np_mul a b := int_or_float (is_whole a && is_whole b) (a * b);
  np_sum := sum_list;
  group_sum := sum_list
|}.

(** ** Concrete sheets, widgets and sessions *)

(** The single record of scenario A. *)
Definition salary_record : row :=
  list_to_map [("Tanggal", VStr "2024-01-01");
               ("Tipe Transaksi", VStr (label Pemasukan));
               ("Keterangan", VStr "Salary");
               ("Jumlah (Rp)", VNum 5000000);
               ("Gram Emas", VNum 0)].

(** A sheet with four records: an expense, an earlier income, a record whose
    date and amount cannot be read, and a gold purchase entered with its
    grams only (the form accepts amount 0 together with grams). *)
Definition ledger_sheet : MemSheet :=
  mkMemSheet required_cols
    [ [VStr "2024-02-01"; VStr "Pengeluaran Harian"; VStr "Belanja"; VNum 100; VNum 0];
      [VStr "2024-01-01"; VStr "Pemasukan"; VStr "Gaji"; VNum 500; VNum 0];
      [VStr "kemarin"; VStr "Pemasukan"; VStr "Bonus"; VStr "abc"; VStr ""];
      [VStr "2024-01-15"; VStr "Beli Emas"; VStr "Emas"; VNum 0; VNum 2.5] ]
    true.

(** Scenario A: one income record. *)
Definition salary_sheet : MemSheet :=
  mkMemSheet required_cols
    [ [VStr "2024-01-01"; VStr "Pemasukan"; VStr "Salary"; VNum 5000000; VNum 0] ]
    true.

(** Headers but no record below them. *)
Definition blank_sheet : MemSheet := mkMemSheet required_cols [] true.

(** Scenario B: the "Gram Emas" column is not there. *)
Definition no_gram_sheet : MemSheet :=
  mkMemSheet ["Tanggal"; "Tipe Transaksi"; "Keterangan"; "Jumlah (Rp)"]
    [ [VStr "2024-01-01"; VStr "Pemasukan"; VStr "Salary"; VNum 5000000] ]
    true.

(** The records [no_gram_sheet] yields. *)
Definition no_gram_records : list row :=
  [list_to_map [("Tanggal", VStr "2024-01-01");
                ("Tipe Transaksi", VStr "Pemasukan");
                ("Keterangan", VStr "Salary");
                ("Jumlah (Rp)", VNum 5000000)]].

(** Two records of the same day: an income, then an expense. *)
Definition same_day_sheet : MemSheet :=
  mkMemSheet required_cols
    [ [VStr "2024-01-01"; VStr "Pemasukan"; VStr "Gaji"; VNum 500; VNum 0];
      [VStr "2024-01-01"; VStr "Pengeluaran Harian"; VStr "Belanja"; VNum 100; VNum 0] ]
    true.

(** Eighteen incomes of one day, of 1 to 18 rupiah in ledger order. *)
Definition busy_day_sheet : MemSheet :=
  mkMemSheet required_cols
    [ [VStr "2024-02-01"; VStr "Pemasukan"; VStr "Setoran"; VNum 1; VNum 0];
      [VStr "2024-02-01"; VStr "Pemasukan"; VStr "Setoran"; VNum 2; VNum 0];
      [VStr "2024-02-01"; VStr "Pemasukan"; VStr "Setoran"; VNum 3; VNum 0];
      [VStr "2024-02-01"; VStr "Pemasukan"; VStr "Setoran"; VNum 4; VNum 0];
      [VStr "2024-02-01"; VStr "Pemasukan"; VStr "Setoran"; VNum 5; VNum 0];
      [VStr "2024-02-01"; VStr "Pemasukan"; VStr "Setoran"; VNum 6; VNum 0];
      [VStr "2024-02-01"; VStr "Pemasukan"; VStr "Setoran"; VNum 7; VNum 0];
      [VStr "2024-02-01"; VStr "Pemasukan"; VStr "Setoran"; VNum 8; VNum 0];
      [VStr "2024-02-01"; VStr "Pemasukan"; VStr "Setoran"; VNum 9; VNum 0];
      [VStr "2024-02-01"; VStr "Pemasukan"; VStr "Setoran"; VNum 10; VNum 0];
      [VStr "2024-02-01"; VStr "Pemasukan"; VStr "Setoran"; VNum 11; VNum 0];
      [VStr "2024-02-01"; VStr "Pemasukan"; VStr "Setoran"; VNum 12; VNum 0];
      [VStr "2024-02-01"; VStr "Pemasukan"; VStr "Setoran"; VNum 13; VNum 0];
      [VStr "2024-02-01"; VStr "Pemasukan"; VStr "Setoran"; VNum 14; VNum 0];
      [VStr "2024-02-01"; VStr "Pemasukan"; VStr "Setoran"; VNum 15; VNum 0];
      [VStr "2024-02-01"; VStr "Pemasukan"; VStr "Setoran"; VNum 16; VNum 0];
      [VStr "2024-02-01"; VStr "Pemasukan"; VStr "Setoran"; VNum 17; VNum 0];
      [VStr "2024-02-01"; VStr "Pemasukan"; VStr "Setoran"; VNum 18; VNum 0] ]
    true.

(** A sheet whose service cannot be reached. *)
Definition offline_sheet : MemSheet := mkMemSheet required_cols [] false.

(** The trend as the specification constructs it: drop the rows without
    date, sort the rest by date with a stable sort, take running sums (here
    with the arithmetic of the script). *)
Definition spec_cumulativeTrend `{Numpy} (df : DataFrame)
  : list (value * value) :=
  points_over (stable_sort date_key (dated (rows df))).

(** A household with a record of each type. *)
Definition household_sheet : MemSheet :=
  mkMemSheet required_cols
    [ [VStr "2024-01-01"; VStr "Pemasukan"; VStr "Gaji"; VNum 5000000; VNum 0];
      [VStr "2024-01-03"; VStr "Pengeluaran Harian"; VStr "Listrik"; VNum 1250000; VNum 0];
      [VStr "2024-01-05"; VStr "Tabungan Saham"; VStr "BBCA"; VNum 2000000; VNum 0];
      [VStr "2024-01-09"; VStr "Beli Emas"; VStr "Emas"; VNum 2700000; VNum 2.5] ]
    true.

(** Two incomes of [2^62] rupiah, all cells ints. *)
Definition overflow_sheet : MemSheet :=
  mkMemSheet required_cols
    [ [VStr "2024-01-01"; VStr "Pemasukan"; VStr "A"; VNum (inject_Z (2 ^ 62)); VNum 0];
      [VStr "2024-01-02"; VStr "Pemasukan"; VStr "B"; VNum (inject_Z (2 ^ 62)); VNum 0] ]
    true.

(** A gold purchase of 20000000000000 grams, all cells ints. *)
Definition bullion_sheet : MemSheet :=
  mkMemSheet required_cols
    [ [VStr "2024-01-01"; VStr "Beli Emas"; VStr "Emas"; VNum 0; VNum 20000000000000] ]
    true.

(** An int above [2^53] next to an amount that cannot be read. *)
Definition mixed_sheet : MemSheet :=
  mkMemSheet required_cols
    [ [VStr "2024-01-01"; VStr "Pemasukan"; VStr "A"; VNum 9007199254740993; VNum 0];
      [VStr "2024-01-02"; VStr "Pemasukan"; VStr "B"; VStr "abc"; VNum 0] ]
    true.

(** The records [ledger_sheet] yields. *)
Definition ledger_records : list row :=
  (λ cells, list_to_map (zip required_cols cells)) <$> body ledger_sheet.

(** Widgets of an income of 7500000; the gram widget still holds a number. *)
Definition income_widgets : Widgets :=
  mkWidgets (mkDate 2024 3 1) Pemasukan 7500000 2.5 "Gaji" true.

(** Widgets left at their defaults. *)
Definition default_widgets : Widgets :=
  mkWidgets (mkDate 2024 3 1) Pemasukan 0 0 "" true.

(** [ledger_sheet] after the row of [income_widgets] has been appended. *)
Definition ledger_sheet_saved : MemSheet :=
  mkMemSheet required_cols
    (body ledger_sheet ++ [row_data (input_form income_widgets)]) true.

Section ExampleData.
#[local] Existing Instance pandas_stable.
#[local] Existing Instance numpy64.

(** The third and fourth rows of the loaded [ledger_sheet]. *)
Definition bonus_row : row := default ∅ (rows (load_data ledger_sheet).1 !! 2%nat).
Definition gold_row : row := default ∅ (rows (load_data ledger_sheet).1 !! 3%nat).

(** A session on [ledger_sheet] with a filled cache slot, and one on the
    unreachable sheet. *)
Definition ledger_session : Session MemSheet :=
  mkSession ledger_sheet (Some (load_data ledger_sheet)) [].
Definition offline_session : Session MemSheet :=
  mkSession offline_sheet (Some (load_data ledger_sheet)) [].

End ExampleData.

(** ** Further parts of the script *)

(** *** [format_rp] (lines 64-69) *)

(** Python's [s.replace(old, new)] where [old] and [new] are one character. *)
Fixpoint replace_char (old new : ascii) (s : string) : string :=
  match s with
  | EmptyString => EmptyString
  | String a s' =>
      String (if Ascii.eqb a old then new else a) (replace_char old new s')
  end.

(** A separator after every third character, counted from the front of the
    (reversed) digit list. *)
Fixpoint group3_rev (sep : ascii) (l : list ascii) : list ascii :=
  match l with
  | a :: b :: c :: ((_ :: _) as rest) => a :: b :: c :: sep :: group3_rev sep rest
  | _ => l
  end.

(** The thousands grouping of the format option [,]. *)
Definition group3 (sep : ascii) (digits : string) : string :=
  string_of_list_ascii
    (reverse (group3_rev sep (reverse (list_ascii_of_string digits)))).

(** [f"{x:,.0f}"] for a float [x]: sign, then the whole number nearest to
    [|x|] (halves to the even neighbour) with a comma between groups of
    three digits. *)
Definition format_comma_0f (q : Q) : string :=
  (if Qlt_le_dec q 0 then "-" else "")
  +:+ group3 "," (pretty (Z.to_N (round_half_even (Qabs q)))).

(** What [format_rp] is given: a number, or an object whose [__format__]
    rejects the spec [,.0f] (a text, None) with the exception it raises. *)
Inductive rupiah_arg :=
| Number (q : Q)
| Unformattable (e : exn).

(** From here on an int is too large to be converted to a float:
    [2^1024 - 2^970], the first number that rounds to [2^1024]. *)
Definition float_overflow : Q := inject_Z (2 ^ 1024 - 2 ^ 970).

Section FormatRp.
Context `{Numpy}.

(** The float the format code [f] formats: a float as it is, an int
    converted, which raises [OverflowError] when the int is too large. *)
Definition py_float (q : Q) : exn + Q :=
  if Qle_bool float_overflow (Qabs q)
  then inl "int too large to convert to float"
  else inr (float64 q).

(** [f"Rp {amount:,.0f}"] *)
Definition f_string_rp (amount : rupiah_arg) : exn + string :=
  match amount with
  | Number q =>
      match py_float q with
      | inr x => inr ("Rp " +:+ format_comma_0f x)
      | inl e => inl e
      end
  | Unformattable e => inl e
  end.

Definition format_rp (amount : rupiah_arg) : string :=
  match f_string_rp amount with
  | inr s => replace_char "X" "." (replace_char "." "," (replace_char "," "X" s))
  | inl _ => "Rp 0"
  end.
End FormatRp.

(** The character a character becomes under the three replacements. *)
Definition dots_for_commas (a : ascii) : ascii :=
  let a := if Ascii.eqb a "," then "X"%char else a in
  let a := if Ascii.eqb a "." then ","%char else a in
  if Ascii.eqb a "X" then "."%char else a.

(** A character that the replacements leave alone. *)
Definition plain (a : ascii) : Prop := dots_for_commas a = a.

(** The ten digits. *)
Definition is_digit (a : ascii) : Prop :=
  a ∈ list_ascii_of_string "0123456789".

(** The sign the format code prints. *)
Definition sign_of (q : Q) : string := if Qlt_le_dec q 0 then "-" else "".

(** The whole rupiah printed for [q]. *)
Definition whole_of (q : Q) : N := Z.to_N (round_half_even (Qabs q)).

(** *** The saved draft, totals by type and the rows without date *)

(** The cells of the row the handler appends, under the five headers: the
    record a later read yields for that row when the sheet hands the cells
    back as they were written. *)
Definition record_of (d : Draft) : row :=
  list_to_map (zip required_cols (row_data d)).

(** What a saved draft adds to the net cash flow and to the stock savings. *)
Definition cash_effect (d : Draft) : Q :=
  if String.eqb (transaction_type d) "Pemasukan" then inject_Z (jumlah_rp d)
  else if String.eqb (transaction_type d) "Pengeluaran Harian"
       then (- inject_Z (jumlah_rp d))%Q
       else 0%Q.

Definition stock_effect (d : Draft) : Q :=
  if String.eqb (transaction_type d) "Tabungan Saham" then inject_Z (jumlah_rp d)
  else 0%Q.

(** Sum of [f] over a list of records. *)
Definition total_of (f : row → Q) (l : list row) : Q := foldr Qplus 0%Q (f <$> l).

(** The records whose type cell is the given label. *)
Definition of_type (label : string) (l : list row) : list row :=
  filter (λ r, eq_str (type_of r) label = true) l.

(** The rows of a frame that have no date. *)
Definition undated (l : list row) : list row :=
  filter (λ r, isna (date_of r) = true) l.

(** *** The pie chart (lines 238-253) *)

(** Two cells are the same group key; a missing cell is no key. *)
Definition same_key (a b : value) : bool :=
  match a, b with
  | VStr s, VStr t => String.eqb s t
  | VNum p, VNum q => Qeq_bool p q
  | VTime s, VTime t => s =? t
  | _, _ => false
  end.

(** The distinct keys of a column, missing cells dropped. *)
Fixpoint unique_keys (vs : list value) : list value :=
  match vs with
  | [] => []
  | v :: vs' =>
      if isna v then unique_keys vs'
      else v :: filter (λ k, same_key k v = false) (unique_keys vs')
  end.

(** The order in which groupby lists its keys: numbers by value, then texts
    by code point.  (Cells of a sheet are numbers and texts; the remaining
    cases only make the order total.) *)
Definition key_before (a b : value) : bool :=
  match a, b with
  | VNum p, VNum q => Qle_bool p q
  | VNum _, _ => true
  | VStr _, VNum _ => false
  | VStr s, VStr t => String.leb s t
  | VStr _, _ => true
  | VTime s, VTime t => s <=? t
  | VTime _, VNaN => true
  | VTime _, _ => false
  | VNaN, VNaN => true
  | VNaN, _ => false
  end.

Fixpoint insert_key (k : value) (l : list value) : list value :=
  match l with
  | [] => [k]
  | y :: l' => if key_before k y then k :: l else y :: insert_key k l'
  end.

Definition sort_keys (l : list value) : list value := foldr insert_key [] l.

Section PieChart.
Context `{Numpy}.

(** [df.groupby(by)[c].sum().reset_index()]: one row per key with the sum of
    column [c] over the rows of that key. *)
Definition groupby_sum (by_ c : string) (df : DataFrame) : DataFrame :=
  {| columns := {[by_; c]};
     rows :=
       (λ k, <[c := VNum (group_sum
                    (num <$> ((λ r, loc r c)
                       <$> filter (λ r, same_key (loc r by_) k = true) (rows df))))]>
               ({[by_ := k]} : row))
         <$> sort_keys (unique_keys (col df by_)) |}.

(** [v in labels] for [Series.isin]. *)
Definition isin (labels : list string) (v : value) : bool :=
  existsb (eq_str v) labels.

(** Lines 238-239. *)
Definition flow_df (df : DataFrame) : DataFrame :=
  let flow_df := groupby_sum "Tipe Transaksi" "Jumlah (Rp)" df in
  {| columns := columns flow_df;
     rows := filter (λ r, isin ["Pengeluaran Harian"; "Tabungan Saham"; "Beli Emas"]
                            (loc r "Tipe Transaksi") = true)
                    (rows flow_df) |}.

(** Lines 241-253: the slices (name, value) of the pie, or [None] when the
    note "Belum ada Pengeluaran atau Tabungan" is shown instead. *)
Definition pie_chart (df : DataFrame) : option (list (value * value)) :=
  let flow_df := flow_df df in
  if negb (empty flow_df)
     && negb (Qle_bool (series_sum (col flow_df "Jumlah (Rp)")) 0)
  then Some ((λ r, (loc r "Tipe Transaksi", loc r "Jumlah (Rp)")) <$> rows flow_df)
  else None.

(** The sum [groupby_sum] takes over the rows of one key. *)
Definition key_total (df : DataFrame) (k : value) : Q :=
  group_sum (num <$> ((λ r, loc r "Jumlah (Rp)")
                <$> filter (λ r, same_key (loc r "Tipe Transaksi") k = true) (rows df))).

(** The row of [groupby_sum] for key [k]. *)
Definition group_row (df : DataFrame) (k : value) : row :=
  <["Jumlah (Rp)" := VNum (key_total df k)]> ({["Tipe Transaksi" := k]} : row).

(** The total of the bucket column of a type. *)
Definition bucket_total (df : DataFrame) (t : TransactionType) : Q :=
  match t with
  | Pemasukan => total_pemasukan df
  | PengeluaranHarian => total_pengeluaran df
  | TabunganSaham => total_tabungan_saham df
  | BeliEmas => series_sum (col df "Beli Emas (Rp)")
  end.
End PieChart.

(** The exact sum of [f] over the rows of one key. *)
Definition group_total (f : row → Q) (df : DataFrame) (k : value) : Q :=
  total_of f (filter (λ r, same_key (loc r "Tipe Transaksi") k = true) (rows df)).

(** The slices of the pie of [ledger_sheet]. *)
Definition ledger_slices : list (value * value) :=
  [(VStr "Beli Emas", VNum 0); (VStr "Pengeluaran Harian", VNum 100)].

(** * Properties *)

(** ** Exactly representable numbers *)

Lemma dyadic_add (k : nat) (a b : Z) :
  (dyadic k a + dyadic k b == dyadic k (a + b))%Q.
Proof. unfold dyadic, Qeq, Qplus. cbn. nia. Qed.

Lemma dyadic_opp (k : nat) (a : Z) : (- dyadic k a == dyadic k (- a))%Q.
Proof. reflexivity. Qed.

Lemma dyadic_abs (k : nat) (m : Z) : Qabs (dyadic k m) = dyadic k (Z.abs m).
Proof. reflexivity. Qed.

Lemma dyadic_le (k : nat) (a b : Z) : (dyadic k a <= dyadic k b)%Q ↔ a ≤ b.
Proof. unfold dyadic, Qle. cbn. nia. Qed.

#[export] Instance on_grid_proper (k : nat) : Proper (Qeq ==> iff) (on_grid k).
Proof.
  intros a b Hab. unfold on_grid. split; intros [m Hm]; exists m.
  - by rewrite <- Hab.
  - by rewrite Hab.
Qed.

Lemma on_grid_add (k : nat) (a b : Q) :
  on_grid k a → on_grid k b → on_grid k (a + b).
Proof. intros [m ->] [n ->]. exists (m + n). apply dyadic_add. Qed.

Lemma on_grid_opp (k : nat) (a : Q) : on_grid k a → on_grid k (- a).
Proof. intros [m ->]. exists (- m). apply dyadic_opp. Qed.

Lemma on_grid_0 (k : nat) : on_grid k 0.
Proof. by exists 0. Qed.

Lemma on_grid_sum (k : nat) (xs : list Q) :
  Forall (on_grid k) xs → on_grid k (foldr Qplus 0%Q xs).
Proof.
  induction 1 as [|x xs Hx _ IH]; cbn; [apply on_grid_0|].
  by apply on_grid_add.
Qed.

Lemma abs_sum_nonneg (xs : list Q) : (0 <= abs_sum xs)%Q.
Proof.
  unfold abs_sum. induction xs as [|x xs IH]; cbn [fmap list_fmap foldr]; [lra|].
  pose proof (Qabs_nonneg x). lra.
Qed.

Lemma abs_sum_bound (xs : list Q) : (Qabs (foldr Qplus 0 xs) <= abs_sum xs)%Q.
Proof.
  unfold abs_sum. induction xs as [|x xs IH]; cbn [fmap list_fmap foldr];
    [discriminate|].
  pose proof (Qabs_triangle x (foldr Qplus 0%Q xs)). lra.
Qed.

Lemma abs_sum_app (xs ys : list Q) :
  (abs_sum (xs ++ ys) == abs_sum xs + abs_sum ys)%Q.
Proof.
  unfold abs_sum. induction xs as [|x xs IH]; cbn [app fmap list_fmap foldr]; [lra|].
  rewrite IH. lra.
Qed.

Lemma abs_sum_perm (xs ys : list Q) :
  xs ≡ₚ ys → (abs_sum xs == abs_sum ys)%Q.
Proof.
  unfold abs_sum.
  induction 1 as [|x l l' _ IH|x y l|l l' l'' _ IH1 _ IH2];
    cbn [fmap list_fmap foldr].
  - reflexivity.
  - by rewrite IH.
  - lra.
  - by rewrite IH1.
Qed.

(** Replacing summands by numbers that are no larger keeps the bound. *)
Lemma abs_sum_mono {A} (f g : A → Q) (l : list A) :
  (∀ a, a ∈ l → (Qabs (g a) <= Qabs (f a))%Q) →
  (abs_sum (g <$> l) <= abs_sum (f <$> l))%Q.
Proof.
  unfold abs_sum. induction l as [|a l IH]; intros Hl;
    cbn [fmap list_fmap foldr]; [lra|].
  assert (Ha := Hl a (list_elem_of_here _ _)).
  assert (IH' := IH (λ b Hb, Hl b (list_elem_of_further _ _ _ Hb))). lra.
Qed.

Lemma abs_sum_filter {A} (f : A → Q) (P : A → Prop) `{∀ a, Decision (P a)}
    (l : list A) :
  (abs_sum (f <$> filter P l) <= abs_sum (f <$> l))%Q.
Proof.
  unfold abs_sum. induction l as [|a l IH]; [cbn; lra|].
  rewrite filter_cons. pose proof (Qabs_nonneg (f a)).
  case_decide; cbn [fmap list_fmap foldr] in *; lra.
Qed.

Lemma abs_sum_take (n : nat) (xs : list Q) :
  (abs_sum (take n xs) <= abs_sum xs)%Q.
Proof.
  unfold abs_sum. revert n. induction xs as [|x xs IH]; intros [|n];
    cbn [take fmap list_fmap foldr]; try lra.
  - pose proof (abs_sum_nonneg xs). pose proof (Qabs_nonneg x).
    unfold abs_sum in *. lra.
  - specialize (IH n). lra.
Qed.

Lemma exact_sum_fits (xs : list Q) :
  exact_sum xs → fits (foldr Qplus 0%Q xs).
Proof.
  intros (k & Hk & Hg & Hb). exists k. split; [done|]. split.
  - by apply on_grid_sum.
  - pose proof (abs_sum_bound xs). lra.
Qed.

#[export] Instance fits_proper : Proper (Qeq ==> iff) fits.
Proof.
  assert (H : ∀ a b, (a == b)%Q → fits a → fits b).
  { intros a b Hab (k & Hk & Hg & Hb). exists k. split; [done|]. split.
    - by apply (on_grid_proper k a b Hab).
    - by rewrite <- Hab. }
  intros a b Hab. split; apply H; [done|by symmetry].
Qed.

Lemma exact_sum_perm (xs ys : list Q) :
  xs ≡ₚ ys → exact_sum xs → exact_sum ys.
Proof.
  intros Hp (k & Hk & Hg & Hb). exists k. split; [done|]. split.
  - by rewrite <- Hp.
  - by rewrite <- (abs_sum_perm _ _ Hp).
Qed.

Lemma exact_sum_filter {A} (f : A → Q) (P : A → Prop) `{∀ a, Decision (P a)}
    (l : list A) :
  exact_sum (f <$> l) → exact_sum (f <$> filter P l).
Proof.
  intros (k & Hk & Hg & Hb). exists k. split; [done|]. split.
  - rewrite Forall_fmap in *. apply Forall_forall.
    intros a [_ Ha]%list_elem_of_filter. by eapply Forall_forall in Hg.
  - eapply Qle_trans; [apply abs_sum_filter|done].
Qed.

Lemma exact_sum_take (n : nat) (xs : list Q) :
  exact_sum xs → exact_sum (take n xs).
Proof.
  intros (k & Hk & Hg & Hb). exists k. split; [done|]. split.
  - by apply Forall_take.
  - eapply Qle_trans; [apply abs_sum_take|done].
Qed.

Lemma exact_sum_elem (xs : list Q) (x : Q) :
  exact_sum xs → x ∈ xs → fits x.
Proof.
  intros (k & Hk & Hg & Hb) Hx. exists k. split; [done|]. split.
  - by eapply Forall_forall in Hg.
  - apply elem_of_Permutation in Hx as [xs' Hx].
    rewrite (abs_sum_perm _ _ Hx) in Hb.
    pose proof (abs_sum_nonneg xs').
    unfold abs_sum in *. cbn [fmap list_fmap foldr] in *. lra.
Qed.

Lemma fits_Z (n : Z) : Z.abs n ≤ 2 ^ 53 → fits (inject_Z n).
Proof.
  intros Hn. exists 0%nat. split; [lia|]. split; [by exists n|].
  change (Qabs (inject_Z n)) with (dyadic 0 (Z.abs n)). by apply dyadic_le.
Qed.

(** ** [numpy64] meets the laws *)

Lemma is_whole_spec (q : Q) : is_whole q = true ↔ (q == inject_Z (Qfloor q))%Q.
Proof. apply Qeq_bool_iff. Qed.

Lemma is_whole_Z (q : Q) (z : Z) : (q == inject_Z z)%Q → is_whole q = true.
Proof.
  intros Hq. apply is_whole_spec. by rewrite Hq, Qfloor_Z.
Qed.

Lemma wrap_int64_small (z : Z) : Z.abs z ≤ 2 ^ 53 → wrap_int64 z = z.
Proof.
  intros Hz. unfold wrap_int64.
  rewrite Z.mod_small; [lia|].
  assert (2 ^ 53 < 2 ^ 63) by (by vm_compute).
  assert (2 ^ 64 = 2 * 2 ^ 63) by (by vm_compute). lia.
Qed.

Lemma dyadic_scale (k : nat) (m : Z) :
  (dyadic k m * inject_Z (Z.pos (pow2 k)) == inject_Z m)%Q.
Proof. unfold dyadic, Qeq, Qmult, inject_Z. cbn. nia. Qed.

Lemma dyadic_le_whole (k : nat) (m : Z) : 0 ≤ m → (dyadic k m <= inject_Z m)%Q.
Proof. intros Hm. unfold dyadic, Qle, inject_Z. cbn. nia. Qed.

Lemma fits_bound (q : Q) : fits q → (Qabs q <= inject_Z (2 ^ 53))%Q.
Proof.
  intros (k & _ & _ & Hb). eapply Qle_trans; [exact Hb|].
  apply dyadic_le_whole. by vm_compute.
Qed.

Lemma fits_fits_b (q : Q) : fits q → fits_b q = true.
Proof.
  intros (k & Hk & [m Hm] & Hb). unfold fits_b.
  apply existsb_exists. exists k. split; [apply in_seq; lia|].
  cbn zeta.
  assert (Hs : (q * inject_Z (Z.pos (pow2 k)) == inject_Z m)%Q).
  { rewrite Hm. apply dyadic_scale. }
  apply andb_true_iff. split.
  - by eapply is_whole_Z.
  - rewrite Hs, Qfloor_Z. apply Z.leb_le.
    rewrite Hm, dyadic_abs in Hb. by apply dyadic_le in Hb.
Qed.

Lemma to_double_fits (q : Q) : fits q → to_double q = q.
Proof. intros Hq. unfold to_double. by rewrite fits_fits_b. Qed.

Lemma whole_fits (q : Q) :
  is_whole q = true → fits q → Z.abs (Qfloor q) ≤ 2 ^ 53.
Proof.
  intros Hw%is_whole_spec Hq%fits_bound.
  rewrite Hw in Hq.
  change (Qabs (inject_Z (Qfloor q))) with (inject_Z (Z.abs (Qfloor q))) in Hq.
  by rewrite <- Zle_Qle in Hq.
Qed.

Lemma int_or_float_exact (ints : bool) (q : Q) :
  (ints = true → is_whole q = true) → fits q → (int_or_float ints q == q)%Q.
Proof.
  intros Hw Hq. destruct ints; cbn.
  - rewrite wrap_int64_small by (apply whole_fits; auto).
    symmetry. by apply is_whole_spec, Hw.
  - by rewrite to_double_fits.
Qed.

Lemma is_whole_op (op : Q → Q → Q) (opz : Z → Z → Z) (a b : Q) :
  (∀ x y, (op (inject_Z x) (inject_Z y) == inject_Z (opz x y))%Q) →
  Proper (Qeq ==> Qeq ==> Qeq) op →
  is_whole a && is_whole b = true → is_whole (op a b) = true.
Proof.
  intros Hop Hp [Ha%is_whole_spec Hb%is_whole_spec]%andb_true_iff.
  apply (is_whole_Z _ (opz (Qfloor a) (Qfloor b))).
  by rewrite <- Hop, <- Ha, <- Hb.
Qed.

Lemma foldl_to_double (xs : list Q) (acc : Q) :
  (∀ n, fits (acc + foldr Qplus 0%Q (take n xs))) →
  (foldl (λ acc x, to_double (acc + x)) acc xs == acc + foldr Qplus 0 xs)%Q.
Proof.
  revert acc. induction xs as [|x xs IH]; intros acc Hfit;
    cbn [foldl foldr]; [lra|].
  rewrite to_double_fits.
  - rewrite IH; [lra|]. intros n. specialize (Hfit (S n)).
    cbn [take foldr] in Hfit. eapply fits_proper; [|exact Hfit]. lra.
  - specialize (Hfit 1%nat). cbn [take foldr] in Hfit. rewrite take_0 in Hfit.
    cbn [foldr] in Hfit. eapply fits_proper; [|exact Hfit]. lra.
Qed.

Lemma forallb_whole_sum (xs : list Q) :
  forallb is_whole xs = true → is_whole (foldr Qplus 0%Q xs) = true.
Proof.
  induction xs as [|x xs IH]; cbn [forallb foldr]; [done|].
  intros [Hx Hxs]%andb_true_iff.
  apply (is_whole_op Qplus Z.add); [|apply Qplus_comp|].
  - intros a b. by rewrite inject_Z_plus.
  - by rewrite Hx, IH.
Qed.

Lemma sum_list_exact (xs : list Q) :
  exact_sum xs → (sum_list xs == foldr Qplus 0 xs)%Q.
Proof.
  intros Hxs. unfold sum_list. destruct (forallb is_whole xs) eqn:Hw.
  - apply (int_or_float_exact true).
    + intros _. by apply forallb_whole_sum.
    + by apply exact_sum_fits.
  - rewrite foldl_to_double; [lra|]. intros n.
    eapply fits_proper; [|apply exact_sum_fits, (exact_sum_take n), Hxs]. lra.
Qed.

Lemma numpy64_laws : NumpyLaws numpy64.
Proof.
  split; cbn.
  - apply to_double_fits.
  - intros a b _ _ Hab. apply int_or_float_exact; [|done].
    apply (is_whole_op Qplus Z.add); [|apply Qplus_comp].
    intros x y. by rewrite inject_Z_plus.
  - intros a b _ _ Hab. apply int_or_float_exact; [|done].
    apply (is_whole_op Qminus Z.sub); [|apply Qminus_comp].
    intros x y. unfold Z.sub, Qminus. by rewrite inject_Z_plus, inject_Z_opp.
  - intros a b _ _ Hab. apply int_or_float_exact; [|done].
    apply (is_whole_op Qmult Z.mul); [|apply Qmult_comp].
    intros x y. by rewrite inject_Z_mult.
  - apply sum_list_exact.
  - apply sum_list_exact.
Qed.

Lemma on_grid_b_true (k : nat) (q : Q) : on_grid_b k q = true → on_grid k q.
Proof.
  intros Hw%is_whole_spec.
  set (m := Qfloor (q * inject_Z (Z.pos (pow2 k)))) in *.
  exists m. pose proof (dyadic_scale k m) as Hm. rewrite <- Hw in Hm.
  apply Qmult_inj_r in Hm; [by symmetry|]. by intros Hz.
Qed.


Lemma exact_sum_b_true (k : nat) (xs : list Q) :
  (k ≤ 970)%nat → exact_sum_b k xs = true → exact_sum xs.
Proof.
  intros Hk [Hg Hb]%andb_true_iff. exists k. split; [done|]. split.
  - apply Forall_forall. intros x Hx. apply on_grid_b_true.
    rewrite forallb_forall in Hg. by apply Hg, list_elem_of_In.
  - by apply Qle_bool_iff.
Qed.


(** ** Column assignment *)

Lemma set_col_fmap (c : string) (f : row → value) (df : DataFrame) :
  rows (set_col c (f <$> rows df) df) = (λ r : row, <[c := f r]> r) <$> rows df.
Proof.
  apply list_eq; intros i. cbn [rows set_col].
  rewrite list_lookup_imap, !list_lookup_fmap.
  destruct (rows df !! i); reflexivity.
Qed.

Lemma set_col_length (c : string) (vs : list value) (df : DataFrame) :
  length (rows (set_col c vs df)) = length (rows df).
Proof. cbn [rows set_col]. apply length_imap. Qed.

Lemma set_col_lookup (c : string) (vs : list value) (df : DataFrame) (i : nat) :
  rows (set_col c vs df) !! i
  = (λ r : row, <[c := default VNaN (vs !! i)]> r) <$> rows df !! i.
Proof. cbn [rows set_col]. by rewrite list_lookup_imap. Qed.

Lemma default_lookup_elem {A} (l : list A) (i : nat) (d : A) :
  (i < length l)%nat → default d (l !! i) ∈ l.
Proof.
  intros [x Hx]%lookup_lt_is_Some. rewrite Hx. cbn.
  by eapply list_elem_of_lookup_2.
Qed.

Lemma loc_insert_eq (r : row) (c : string) (v : value) :
  loc (<[c := v]> r) c = v.
Proof. unfold loc. by rewrite lookup_insert_eq. Qed.

Lemma loc_insert_ne (r : row) (c c' : string) (v : value) :
  c ≠ c' → loc (<[c := v]> r) c' = loc r c'.
Proof. intros Hne. unfold loc. by rewrite lookup_insert_ne. Qed.

(** Rewriting a lookup through the assignments of [clean] and [df_trend];
    the column names are literals, so their disequalities compute. *)
Ltac loc_simpl :=
  repeat first
    [ rewrite loc_insert_eq
    | rewrite loc_insert_ne by (intros ?; discriminate) ].

(** Membership of a literal column name in a literal list. *)
Ltac listed := repeat first [ apply list_elem_of_here | apply list_elem_of_further ].
Ltac not_listed :=
  let Hin := fresh in
  intros Hin;
  repeat (apply elem_of_cons in Hin as [Hin|Hin]; [discriminate Hin|]);
  by apply elem_of_nil in Hin.

(** ** The rows of a loaded frame *)

Section LoaderFacts.
Context `{Pandas} `{Numpy}.

Lemma col_set_col_ne (c c' : string) (vs : list value) (df : DataFrame) :
  c ≠ c' → col (set_col c vs df) c' = col df c'.
Proof.
  intros Hne. unfold col. apply list_eq; intros i.
  rewrite !list_lookup_fmap, set_col_lookup.
  destruct (rows df !! i); cbn; [|done]. by rewrite loc_insert_ne.
Qed.

(** A numeric column after [to_numeric] and [fillna(0)], cell by cell. *)
Lemma to_numeric_coerce (vs : list value) :
  fillna (VNum 0) <$> to_numeric vs = coerce (is_float vs) <$> vs.
Proof.
  unfold to_numeric, coerce. destruct (is_float vs);
    by rewrite <- !list_fmap_compose.
Qed.

Lemma set_col_coerce (c : string) (df : DataFrame) :
  rows (set_col c (fillna (VNum 0) <$> to_numeric (col df c)) df)
  = (λ r : row, <[c := coerce (is_float (col df c)) (loc r c)]> r) <$> rows df.
Proof.
  rewrite to_numeric_coerce. unfold col. rewrite <- list_fmap_compose.
  apply set_col_fmap.
Qed.

Lemma clean_rows (df : DataFrame) :
  rows (clean df)
  = finish_row (is_float (col df "Jumlah (Rp)")) (is_float (col df "Gram Emas"))
      <$> imap (date_row (to_datetime (col df "Tanggal"))) (rows df).
Proof.
  unfold clean, apply_rows.
  rewrite !set_col_fmap, !set_col_coerce, !col_set_col_ne by done.
  rewrite <- !list_fmap_compose.
  reflexivity.
Qed.

Lemma coerce_numeric (float : bool) (v : value) : ∃ q, coerce float v = VNum q.
Proof.
  unfold coerce, read_cell.
  destruct float, v as [s|q| |]; try destruct (str_to_float s); cbn; eauto.
Qed.

Lemma finish_row_amount (fa fg : bool) (r : row) :
  loc (finish_row fa fg r) "Jumlah (Rp)" = coerce fa (loc r "Jumlah (Rp)").
Proof. unfold finish_row. by loc_simpl. Qed.

Lemma finish_row_gram (fa fg : bool) (r : row) :
  loc (finish_row fa fg r) "Gram Emas" = coerce fg (loc r "Gram Emas").
Proof. unfold finish_row. by loc_simpl. Qed.

Lemma finish_row_other (fa fg : bool) (r : row) (c : string) :
  c ∉ ["Jumlah (Rp)"; "Gram Emas"; "Pemasukan"; "Pengeluaran";
       "Investasi Saham"; "Beli Emas (Rp)"] →
  finish_row fa fg r !! c = r !! c.
Proof.
  intros Hc. unfold finish_row.
  rewrite !lookup_insert_ne; [done|intros <-; apply Hc; listed..].
Qed.

Lemma finish_row_loc_other (fa fg : bool) (r : row) (c : string) :
  c ∉ ["Jumlah (Rp)"; "Gram Emas"; "Pemasukan"; "Pengeluaran";
       "Investasi Saham"; "Beli Emas (Rp)"] →
  loc (finish_row fa fg r) c = loc r c.
Proof. intros Hc. unfold loc. by rewrite finish_row_other. Qed.

Lemma finish_row_type (fa fg : bool) (r : row) :
  type_of (finish_row fa fg r) = type_of r.
Proof. unfold type_of, loc. rewrite finish_row_other; [done|not_listed]. Qed.

Lemma finish_row_date (fa fg : bool) (r : row) :
  date_of (finish_row fa fg r) = date_of r.
Proof. unfold date_of, loc. rewrite finish_row_other; [done|not_listed]. Qed.

(** Each bucket column holds the amount when the type cell is its label and
    the literal 0 when it is not. *)
Lemma finish_row_bucket (fa fg : bool) (r : row) (t : TransactionType) :
  bucket_of t (finish_row fa fg r)
  = if eq_str (type_of r) (label t) then amount (finish_row fa fg r) else 0%Q.
Proof.
  unfold amount. rewrite finish_row_amount.
  destruct t; cbn [bucket_of label];
    unfold incomeAmount, expenseAmount, stockInvestmentAmount,
      goldPurchaseAmount, finish_row, bucket, type_of;
    loc_simpl; by destruct (eq_str _ _).
Qed.
End LoaderFacts.

(** ** The four ways [load_data] returns *)

Section LoadData.
Context `{Pandas} `{Numpy} `{Worksheet Sheet}.

Lemma find_missing_None (cols : gset string) (l : list string) :
  List.find (λ c, negb (bool_decide (c ∈ cols))) l = None ↔ ∀ c, c ∈ l → c ∈ cols.
Proof.
  induction l as [|a l IH]; cbn.
  - split; [intros _ c Hc; by apply elem_of_nil in Hc|done].
  - case_bool_decide as Ha; cbn.
    + rewrite IH. split.
      * intros Hl c [->|Hc]%elem_of_cons; auto.
      * intros Hl c Hc. apply Hl. by apply list_elem_of_further.
    + split; [done|]. intros Hl. destruct Ha. apply Hl, list_elem_of_here.
Qed.

Lemma find_missing_Some (cols : gset string) (l : list string) (c : string) :
  List.find (λ c, negb (bool_decide (c ∈ cols))) l = Some c → c ∈ l ∧ c ∉ cols.
Proof.
  induction l as [|a l IH]; cbn; [done|].
  case_bool_decide as Ha; cbn.
  - intros [? ?]%IH. split; [by apply list_elem_of_further|done].
  - intros [= <-]. split; [apply list_elem_of_here|done].
Qed.

Lemma load_data_fetch_failed (sheet : Sheet) (e : exn) :
  get_all_records sheet = inl e →
  load_data sheet = (pd_DataFrame_new, [FetchFailed e]).
Proof. intros Hget. unfold load_data. by rewrite Hget. Qed.

Lemma load_data_empty (sheet : Sheet) (data : list row) :
  get_all_records sheet = inr data →
  empty (pd_DataFrame data) = true →
  load_data sheet = (pd_DataFrame data, []).
Proof. intros Hget He. unfold load_data. by rewrite Hget, He. Qed.

Lemma load_data_missing (sheet : Sheet) (data : list row) (c0 : string) :
  get_all_records sheet = inr data →
  empty (pd_DataFrame data) = false →
  c0 ∈ required_cols → c0 ∉ columns (pd_DataFrame data) →
  ∃ c, c ∈ required_cols ∧ (c ∉ columns (pd_DataFrame data))
       ∧ load_data sheet = (pd_DataFrame_new, [ColumnMissing c]).
Proof.
  intros Hget He Hreq Hmiss. unfold load_data. rewrite Hget, He.
  destruct (List.find _ required_cols) as [c|] eqn:Hfind.
  - apply find_missing_Some in Hfind as [? ?]. eauto.
  - destruct Hmiss. revert c0 Hreq. by apply find_missing_None.
Qed.

Lemma load_data_clean (sheet : Sheet) (data : list row) :
  get_all_records sheet = inr data →
  empty (pd_DataFrame data) = false →
  (∀ c, c ∈ required_cols → c ∈ columns (pd_DataFrame data)) →
  load_data sheet = (clean (pd_DataFrame data), []).
Proof.
  intros Hget He Hall. unfold load_data. rewrite Hget, He.
  apply find_missing_None in Hall. by rewrite Hall.
Qed.

(** Whatever the sheet, the frame is one of: nothing, the records as they
    came (and then empty), or the cleaned records. *)
Lemma load_data_frame (sheet : Sheet) :
  (load_data sheet).1 = pd_DataFrame_new
  ∨ (∃ data, (load_data sheet).1 = pd_DataFrame data
             ∧ empty (pd_DataFrame data) = true)
  ∨ (∃ data, (load_data sheet).1 = clean (pd_DataFrame data)
             ∧ empty (pd_DataFrame data) = false).
Proof.
  unfold load_data. destruct (get_all_records sheet) as [e|data]; [by left|].
  destruct (empty (pd_DataFrame data)) eqn:He; [right; left; eauto|].
  destruct (List.find _ _); [by left|right; right; eauto].
Qed.

(** A row of an empty frame of records has no cell. *)
Lemma empty_frame_row (data : list row) (r : row) :
  empty (pd_DataFrame data) = true → r ∈ data → r = ∅.
Proof.
  unfold empty. cbn [columns rows pd_DataFrame].
  intros [Hc|Hl]%orb_true_iff Hr.
  - apply bool_decide_eq_true in Hc. apply dom_empty_iff_L.
    apply set_eq; intros c. split; [|by intros ?%not_elem_of_empty].
    intros Hin. rewrite <- Hc. apply elem_of_union_list.
    exists (dom r). split; [|done]. apply list_elem_of_fmap. eauto.
  - apply bool_decide_eq_true in Hl. apply nil_length_inv in Hl.
    subst. by apply elem_of_nil in Hr.
Qed.

Lemma loaded_row (sheet : Sheet) (r : row) :
  r ∈ rows (load_data sheet).1 → r = ∅ ∨ ∃ fa fg r0, r = finish_row fa fg r0.
Proof.
  destruct (load_data_frame sheet) as [->|[(data & -> & He)|(data & -> & _)]].
  - by intros ?%elem_of_nil.
  - left. by eapply empty_frame_row.
  - rewrite clean_rows. intros (r0 & -> & _)%list_elem_of_fmap. eauto.
Qed.
End LoadData.

(** ** Buckets *)

Section Buckets.
Context `{Pandas} `{Numpy} `{Worksheet Sheet}.

Lemma eq_str_label (t t' : TransactionType) :
  eq_str (VStr (label t)) (label t') = bool_decide (t = t').
Proof. by destruct t, t'. Qed.

Lemma eq_str_not_canonical (v : value) (t : TransactionType) :
  ¬ canonical v → eq_str v (label t) = false.
Proof.
  intros Hv. destruct v as [s| | |]; try done. cbn.
  apply String.eqb_neq. intros ->. apply Hv. by exists t.
Qed.

Lemma empty_row_bucket (t : TransactionType) : bucket_of t ∅ = 0%Q.
Proof. by destruct t. Qed.

Lemma nonzero_buckets_one (r : row) (t : TransactionType) (a : Q) :
  bucket_of t r = a → (∀ t', t' ≠ t → bucket_of t' r = 0%Q) →
  nonzero_buckets r = (if Qeq_bool a 0 then 0 else 1)%nat.
Proof.
  intros Ht Hother. unfold nonzero_buckets, all_types.
  rewrite !filter_cons, filter_nil.
  destruct t; rewrite Ht, ?Hother by done;
    destruct (Qeq_bool a 0); repeat case_decide; done.
Qed.

(** C9.  Each bucket of a loaded row is zero or is the row's coerced amount,
    no two buckets are non-zero together, and a row of a canonical type whose
    amount is zero has four zero buckets. *)
Theorem bucket_zero_or_amount (sheet : Sheet) (r : row) :
  r ∈ rows (load_data sheet).1 →
  (∀ t, bucket_of t r = 0%Q ∨ bucket_of t r = amount r)
  ∧ (∀ t t', t ≠ t' → bucket_of t r = 0%Q ∨ bucket_of t' r = 0%Q)
  ∧ (canonical (type_of r) → (amount r == 0)%Q →
     ∀ t, (bucket_of t r == 0)%Q).
Proof.
  intros [->|(fa & fg & r0 & ->)]%loaded_row.
  - repeat split; intros; rewrite ?empty_row_bucket; auto; reflexivity.
  - repeat split.
    + intros t. rewrite finish_row_bucket. destruct (eq_str _ _); auto.
    + intros t t' Hne. rewrite !finish_row_bucket.
      destruct (type_of r0) as [s| | |]; cbn; auto.
      destruct (String.eqb_spec s (label t)) as [->|]; [|auto].
      right. change (String.eqb (label t) (label t'))
        with (eq_str (VStr (label t)) (label t')).
      rewrite eq_str_label. by case_bool_decide.
    + intros _ Ha t. rewrite finish_row_bucket.
      destruct (eq_str _ _); [done|reflexivity].
Qed.

(** C1, as the code has it.  The bucket of a loaded row's type holds the
    row's coerced amount and the other three hold 0, so exactly one bucket is
    non-zero precisely when that amount is non-zero; a row whose type is none
    of the four labels has four zero buckets. *)
Theorem bucket_follows_type (sheet : Sheet) (r : row) :
  r ∈ rows (load_data sheet).1 →
  (∀ t, type_of r = VStr (label t) →
        bucket_of t r = amount r
        ∧ (∀ t', t' ≠ t → bucket_of t' r = 0%Q)
        ∧ (nonzero_buckets r = 1%nat ↔ ¬ (amount r == 0)%Q))
  ∧ (¬ canonical (type_of r) →
     (∀ t, bucket_of t r = 0%Q) ∧ nonzero_buckets r = 0%nat).
Proof.
  intros [->|(fa & fg & r0 & ->)]%loaded_row.
  - split; [done|]. intros _. split; [apply empty_row_bucket|done].
  - split.
    + intros t. rewrite finish_row_type. intros Ht.
      assert (Hb : ∀ t', bucket_of t' (finish_row fa fg r0)
                = if bool_decide (t = t') then amount (finish_row fa fg r0)
                  else 0%Q).
      { intros t'. by rewrite finish_row_bucket, Ht, eq_str_label. }
      assert (Hsame : bucket_of t (finish_row fa fg r0)
                      = amount (finish_row fa fg r0)).
      { rewrite Hb. by rewrite bool_decide_eq_true_2. }
      assert (Hother : ∀ t', t' ≠ t → bucket_of t' (finish_row fa fg r0) = 0%Q).
      { intros t' Hne. rewrite Hb. by rewrite bool_decide_eq_false_2. }
      split; [done|]. split; [done|].
      rewrite (nonzero_buckets_one _ t _ Hsame Hother).
      destruct (Qeq_bool _ 0) eqn:Hz.
      * apply Qeq_bool_iff in Hz. split; [done|]. by intros [].
      * apply Qeq_bool_neq in Hz. done.
    + rewrite finish_row_type. intros Hnc.
      assert (Hz : ∀ t, bucket_of t (finish_row fa fg r0) = 0%Q).
      { intros t. by rewrite finish_row_bucket, eq_str_not_canonical. }
      split; [done|]. unfold nonzero_buckets, all_types.
      rewrite !filter_cons, filter_nil, !Hz. repeat case_decide; done.
Qed.
End Buckets.

(** ** Schema check and coercion *)

Section Schema.
Context `{Pandas} `{Numpy} `{Worksheet Sheet}.

(** C8.  When the sheet yields no records, [load_data] returns an empty frame
    and shows no message: neither the message of a missing column nor that of
    a failed fetch. *)
Theorem no_records_no_error (sheet : Sheet) :
  get_all_records sheet = inr [] →
  empty (load_data sheet).1 = true
  ∧ rows (load_data sheet).1 = []
  ∧ (load_data sheet).2 = []
  ∧ (∀ c, ColumnMissing c ∉ (load_data sheet).2)
  ∧ (∀ e, FetchFailed e ∉ (load_data sheet).2).
Proof.
  intros Hget. rewrite (load_data_empty sheet []) by done. cbn.
  repeat split; intros ? ?%elem_of_nil; done.
Qed.

(** The first element [find] meets comes after elements that fail the
    test. *)
Lemma find_first {A} (P : A → bool) (l : list A) (x : A) :
  List.find P l = Some x →
  ∃ l1 l2, l = l1 ++ x :: l2 ∧ P x = true ∧ ∀ y, y ∈ l1 → P y = false.
Proof.
  induction l as [|a l IH]; cbn; [done|].
  destruct (P a) eqn:Ha.
  - intros [= <-]. exists [], l. split; [done|]. split; [done|].
    by intros y ?%elem_of_nil.
  - intros (l1 & l2 & -> & Hx & Hl1)%IH. exists (a :: l1), l2.
    split; [done|]. split; [done|].
    intros y [->|Hy]%elem_of_cons; auto.
Qed.

(** The columns of a frame of header-keyed records are the header cells. *)
Lemma header_keyed_columns (hdr : list string) (data : list row) :
  data ≠ [] → header_keyed hdr data →
  columns (pd_DataFrame data) = list_to_set hdr.
Proof.
  intros Hne [_ Hdom]. cbn [columns pd_DataFrame]. apply set_eq. intros c.
  rewrite elem_of_union_list. split.
  - intros (X & (r & -> & Hr)%list_elem_of_fmap & Hc).
    eapply Forall_forall in Hdom; [|done]. by rewrite <- Hdom.
  - intros Hc. destruct data as [|r data]; [done|].
    apply Forall_cons in Hdom as [Hr _]. exists (dom r). split.
    + apply list_elem_of_fmap. exists r. split; [done|apply list_elem_of_here].
    + by rewrite Hr.
Qed.

Lemma header_keyed_nonempty (hdr : list string) (data : list row) :
  data ≠ [] → header_keyed hdr data → empty (pd_DataFrame data) = false.
Proof.
  intros Hne Hk. unfold empty.
  rewrite (header_keyed_columns hdr data Hne Hk).
  destruct Hk as [Hhdr _].
  apply orb_false_iff. split; apply bool_decide_eq_false.
  - destruct hdr as [|c hdr]; [done|]. intros Hc.
    assert (Hin : c ∈@{gset string} ∅) by (rewrite <- Hc; set_solver).
    by apply not_elem_of_empty in Hin.
  - cbn [rows pd_DataFrame]. by destruct data.
Qed.

(** C4.  When the sheet yields at least one record and the header that keys
    its records lacks a required column, [load_data] cleans nothing: it
    returns a fresh empty frame and shows one message, which names the
    first of the required columns, in their fixed order, that the header
    lacks. *)
Theorem missing_column_reported (sheet : Sheet) (data : list row)
    (hdr : list string) (c0 : string) :
  get_all_records sheet = inr data →
  data ≠ [] → header_keyed hdr data →
  c0 ∈ required_cols → c0 ∉ hdr →
  ∃ present c rest,
    required_cols = present ++ c :: rest
    ∧ (∀ c', c' ∈ present → c' ∈ hdr)
    ∧ (c ∉ hdr)
    ∧ load_data sheet = (pd_DataFrame_new, [ColumnMissing c])
    ∧ rows (load_data sheet).1 = []
    ∧ empty (load_data sheet).1 = true.
Proof.
  intros Hget Hne Hk Hreq Hmiss.
  pose proof (header_keyed_columns hdr data Hne Hk) as Hcols.
  unfold load_data. rewrite Hget, (header_keyed_nonempty hdr data Hne Hk).
  rewrite Hcols.
  destruct (List.find _ required_cols) as [c|] eqn:Hfind.
  - apply find_first in Hfind as (present & rest & Heq & Hc & Hpre).
    exists present, c, rest. split; [done|]. split; [|split; [|done]].
    + intros c' Hc'. specialize (Hpre c' Hc').
      apply negb_false_iff, bool_decide_eq_true in Hpre.
      by apply (proj1 (elem_of_list_to_set (C:=gset string) c' hdr)).
    + apply negb_true_iff, bool_decide_eq_false in Hc.
      by rewrite elem_of_list_to_set in Hc.
  - destruct Hmiss.
    apply (proj1 (elem_of_list_to_set (C:=gset string) c0 hdr)).
    revert c0 Hreq. by apply find_missing_None.
Qed.

End Schema.

(** ** Metrics *)

(** Sums of exact numbers. *)
Lemma sum_perm (l l' : list Q) :
  l ≡ₚ l' → (foldr Qplus 0 l == foldr Qplus 0 l')%Q.
Proof.
  induction 1 as [|x l l' _ IH|x y l|l l' l'' _ IH1 _ IH2]; cbn.
  - reflexivity.
  - by rewrite IH.
  - ring.
  - by rewrite IH1.
Qed.

Lemma sum_minus {A} (f g : A → Q) (l : list A) :
  (foldr Qplus 0 ((λ a, f a - g a) <$> l)
   == foldr Qplus 0 (f <$> l) - foldr Qplus 0 (g <$> l))%Q.
Proof. induction l as [|a l IH]; cbn; [ring|]. rewrite IH. ring. Qed.

Lemma sum_ext {A} (f g : A → Q) (l : list A) :
  (∀ a, a ∈ l → (f a == g a)%Q) →
  (foldr Qplus 0 (f <$> l) == foldr Qplus 0 (g <$> l))%Q.
Proof.
  induction l as [|a l IH]; intros Hl; cbn [fmap list_fmap foldr]; [reflexivity|].
  rewrite (Hl a) by apply list_elem_of_here.
  rewrite IH; [reflexivity|]. intros b Hb. by apply Hl, list_elem_of_further.
Qed.

Lemma sum_scale {A} (f : A → Q) (c : Q) (l : list A) :
  (foldr Qplus 0 ((λ a, f a * c) <$> l) == foldr Qplus 0 (f <$> l) * c)%Q.
Proof.
  induction l as [|a l IH]; cbn [fmap list_fmap foldr]; [ring|].
  rewrite IH. ring.
Qed.

Lemma total_of_app (f : row → Q) (l1 l2 : list row) :
  (total_of f (l1 ++ l2) == total_of f l1 + total_of f l2)%Q.
Proof.
  unfold total_of. induction l1 as [|r l1 IH]; cbn; [ring|].
  rewrite IH. ring.
Qed.

Lemma total_of_filter (f : row → Q) (P : row → bool) (l : list row) :
  (total_of (λ r, if P r then f r else 0) l
   == total_of f (filter (λ r, P r = true) l))%Q.
Proof.
  unfold total_of. induction l as [|r l IH]; [reflexivity|].
  rewrite filter_cons, fmap_cons. cbn [foldr].
  destruct (P r); case_decide; try done.
  - rewrite fmap_cons. cbn [foldr]. by rewrite IH.
  - rewrite IH. ring.
Qed.

Lemma total_of_perm (f : row → Q) (l l' : list row) :
  l ≡ₚ l' → (total_of f l == total_of f l')%Q.
Proof. intros Hl. apply sum_perm. by rewrite Hl. Qed.

Lemma within_proper (k : nat) (q q' b : Q) :
  (q == q')%Q → within k q b → within k q' b.
Proof.
  intros Hq [Hg Hb]. split; [by apply (on_grid_proper k q q' Hq)|].
  rewrite <- Hq. done.
Qed.

Lemma within_add (k : nat) (p q a b : Q) :
  within k p a → within k q b → within k (p + q) (a + b).
Proof.
  intros [Hp [? ?]] [Hq [? ?]]. split; [by apply on_grid_add|]. split; lra.
Qed.

Lemma within_sub (k : nat) (p q a b : Q) :
  within k p a → within k q b → within k (p - q) (a + b).
Proof.
  intros [Hp [? ?]] [Hq [? ?]]. split.
  - apply on_grid_add; [done|by apply on_grid_opp].
  - split; lra.
Qed.

Lemma within_abs (k : nat) (q : Q) : on_grid k q → within k q (Qabs q).
Proof. intros Hq. split; [done|]. by apply Qabs_Qle_condition, Qle_refl. Qed.

Lemma within_sum (k : nat) (xs : list Q) :
  Forall (on_grid k) xs → within k (foldr Qplus 0%Q xs) (abs_sum xs).
Proof.
  intros Hxs. split; [by apply on_grid_sum|].
  apply Qabs_Qle_condition, abs_sum_bound.
Qed.

Lemma within_fits (k : nat) (q b : Q) :
  (k ≤ 970)%nat → (b <= dyadic k (2 ^ 53))%Q → within k q b → fits q.
Proof.
  intros Hk Hb [Hg [? ?]]. exists k. split; [done|]. split; [done|].
  apply Qabs_Qle_condition. split; lra.
Qed.

(** Columns that share out the numbers of a column among them. *)
Lemma abs_sum_shares {A} (f f1 f2 f3 : A → Q) (l : list A) :
  (∀ a, a ∈ l →
     (Qabs (f1 a) + Qabs (f2 a) + Qabs (f3 a) <= Qabs (f a))%Q) →
  (abs_sum (f1 <$> l) + abs_sum (f2 <$> l) + abs_sum (f3 <$> l)
   <= abs_sum (f <$> l))%Q.
Proof.
  unfold abs_sum. induction l as [|a l IH]; intros Hl;
    cbn [fmap list_fmap foldr]; [lra|].
  assert (Ha := Hl a (list_elem_of_here _ _)).
  assert (IH' := IH (λ b Hb, Hl b (list_elem_of_further _ _ _ Hb))). lra.
Qed.

Lemma Forall_on_grid_mono {A} (k : nat) (f g : A → Q) (l : list A) :
  (∀ a, a ∈ l → (g a == f a ∨ g a == 0 ∨ g a == - f a)%Q) →
  Forall (on_grid k) (f <$> l) → Forall (on_grid k) (g <$> l).
Proof.
  intros Hl Hf. rewrite Forall_fmap, Forall_forall in *. intros a Ha. cbn.
  specialize (Hf a Ha). cbn in Hf.
  destruct (Hl a Ha) as [Hg|[Hg|Hg]];
    apply (on_grid_proper k _ _ Hg);
    [done|apply on_grid_0|by apply on_grid_opp].
Qed.

Section Metrics.
Context `{Pandas} {numpy : Numpy} {laws : NumpyLaws numpy} `{Worksheet Sheet}.

(** The bucket columns of a loaded frame, row by row. *)
Lemma loaded_bucket (sheet : Sheet) (r : row) (t : TransactionType) :
  r ∈ rows (load_data sheet).1 →
  bucket_of t r = if eq_str (type_of r) (label t) then amount r else 0%Q.
Proof.
  intros [->|(fa & fg & r0 & ->)]%loaded_row.
  - by destruct t.
  - by rewrite finish_row_bucket, finish_row_type.
Qed.

Lemma loaded_bucket_cases (sheet : Sheet) (r : row) (t : TransactionType) :
  r ∈ rows (load_data sheet).1 →
  (bucket_of t r == amount r ∨ bucket_of t r == 0 ∨ bucket_of t r == - amount r)%Q.
Proof.
  intros Hr. rewrite (loaded_bucket sheet r t Hr).
  destruct (eq_str _ _); [by left|by right; left].
Qed.

(** The three buckets the cards add up share out the amount of a row. *)
Lemma loaded_bucket_shares (sheet : Sheet) (r : row) :
  r ∈ rows (load_data sheet).1 →
  (Qabs (incomeAmount r) + Qabs (expenseAmount r)
   + Qabs (stockInvestmentAmount r) <= Qabs (amount r))%Q.
Proof.
  intros Hr.
  pose proof (loaded_bucket sheet r Pemasukan Hr) as Hi.
  pose proof (loaded_bucket sheet r PengeluaranHarian Hr) as He.
  pose proof (loaded_bucket sheet r TabunganSaham Hr) as Hs.
  cbn [bucket_of label] in Hi, He, Hs. rewrite Hi, He, Hs.
  pose proof (Qabs_nonneg (amount r)).
  destruct (type_of r) as [s| | |]; cbn [eq_str];
    try (change (Qabs 0) with 0%Q; lra).
  destruct (String.eqb_spec s "Pemasukan"),
    (String.eqb_spec s "Pengeluaran Harian"),
    (String.eqb_spec s "Tabungan Saham");
    try congruence; cbv iota; change (Qabs 0) with 0%Q; lra.
Qed.

Lemma bucket_column_total (sheet : Sheet) (t : TransactionType) :
  (total_of (bucket_of t) (rows (load_data sheet).1)
   == total_of amount (of_type (label t) (rows (load_data sheet).1)))%Q.
Proof.
  unfold of_type. rewrite <- total_of_filter. apply sum_ext.
  intros r Hr. by rewrite (loaded_bucket sheet r t Hr).
Qed.

(** The sum of a bucket column of a frame of loaded rows, given the grid and
    the bound of its amounts. *)
Lemma bucket_column_sum (sheet : Sheet) (df : DataFrame) (t : TransactionType)
    (k : nat) :
  rows df ⊆ rows (load_data sheet).1 →
  (k ≤ 970)%nat →
  Forall (on_grid k) (amount <$> rows df) →
  (abs_sum (amount <$> rows df) <= dyadic k (2 ^ 53))%Q →
  (series_sum (col df
                 (match t with
                  | Pemasukan => "Pemasukan"
                  | PengeluaranHarian => "Pengeluaran"
                  | TabunganSaham => "Investasi Saham"
                  | BeliEmas => "Beli Emas (Rp)"
                  end))
   == total_of (bucket_of t) (rows df))%Q
  ∧ within k (total_of (bucket_of t) (rows df))
             (abs_sum (bucket_of t <$> rows df)).
Proof.
  intros Hsub Hk Hg Hb.
  assert (Hgt : Forall (on_grid k) (bucket_of t <$> rows df)).
  { eapply Forall_on_grid_mono; [|exact Hg].
    intros r Hr. by apply (loaded_bucket_cases sheet), Hsub. }
  split; [|by apply within_sum].
  unfold series_sum, col. rewrite <- list_fmap_compose.
  assert (Hcol : (num ∘ (λ r : row, loc r match t with
                  | Pemasukan => "Pemasukan"
                  | PengeluaranHarian => "Pengeluaran"
                  | TabunganSaham => "Investasi Saham"
                  | BeliEmas => "Beli Emas (Rp)"
                  end)) = bucket_of t) by by destruct t.
  rewrite Hcol. apply np_sum_exact. exists k. split; [done|]. split; [done|].
  eapply Qle_trans; [|exact Hb]. apply abs_sum_mono. intros r Hr.
  destruct (loaded_bucket_cases sheet r t (Hsub r Hr)) as [->|[->| ->]].
  - lra.
  - apply Qabs_nonneg.
  - rewrite Qabs_opp. lra.
Qed.

(** The three rupiah totals and the net cash flow of a frame of loaded rows
    whose amounts are on the grid of [2^-k] with absolute values adding up
    to at most [2^53] steps. *)
Lemma cash_totals_exact (sheet : Sheet) (df : DataFrame) (k : nat) :
  rows df ⊆ rows (load_data sheet).1 →
  (k ≤ 970)%nat →
  Forall (on_grid k) (amount <$> rows df) →
  (abs_sum (amount <$> rows df) <= dyadic k (2 ^ 53))%Q →
  ∃ I E S : Q,
    (0 <= I)%Q ∧ (0 <= E)%Q ∧ (0 <= S)%Q
    ∧ (I + E + S <= abs_sum (amount <$> rows df))%Q
    ∧ (total_pemasukan df == total_of incomeAmount (rows df))%Q
    ∧ within k (total_pemasukan df) I
    ∧ (total_pengeluaran df == total_of expenseAmount (rows df))%Q
    ∧ within k (total_pengeluaran df) E
    ∧ (total_tabungan_saham df == total_of stockInvestmentAmount (rows df))%Q
    ∧ within k (total_tabungan_saham df) S
    ∧ (saldo_cashflow df == total_pemasukan df - total_pengeluaran df)%Q.
Proof.
  intros Hsub Hk Hga HAB.
  set (B := dyadic k (2 ^ 53)) in *.
  destruct (bucket_column_sum sheet df Pemasukan k Hsub Hk Hga HAB)
    as [Hin Win].
  destruct (bucket_column_sum sheet df PengeluaranHarian k Hsub Hk Hga HAB)
    as [Hout Wout].
  destruct (bucket_column_sum sheet df TabunganSaham k Hsub Hk Hga HAB)
    as [Hst Wst].
  cbn [bucket_of] in Hin, Win, Hout, Wout, Hst, Wst.
  fold (total_pemasukan df) in Hin. fold (total_pengeluaran df) in Hout.
  fold (total_tabungan_saham df) in Hst.
  pose proof (abs_sum_shares amount incomeAmount expenseAmount
                stockInvestmentAmount (rows df)
                (λ r Hr, loaded_bucket_shares sheet r (Hsub r Hr))) as Hshare.
  set (A := abs_sum (amount <$> rows df)) in *.
  set (I := abs_sum (incomeAmount <$> rows df)) in *.
  set (E := abs_sum (expenseAmount <$> rows df)) in *.
  set (S := abs_sum (stockInvestmentAmount <$> rows df)) in *.
  pose proof (abs_sum_nonneg (incomeAmount <$> rows df)) as HI0. fold I in HI0.
  pose proof (abs_sum_nonneg (expenseAmount <$> rows df)) as HE0. fold E in HE0.
  pose proof (abs_sum_nonneg (stockInvestmentAmount <$> rows df)) as HS0.
  fold S in HS0.
  assert (Wtp : within k (total_pemasukan df) I)
    by (eapply within_proper; [symmetry; exact Hin|exact Win]).
  assert (Wte : within k (total_pengeluaran df) E)
    by (eapply within_proper; [symmetry; exact Hout|exact Wout]).
  assert (Wts : within k (total_tabungan_saham df) S)
    by (eapply within_proper; [symmetry; exact Hst|exact Wst]).
  exists I, E, S. do 10 (split; [done|]).
  unfold saldo_cashflow. apply np_sub_exact.
  - apply (within_fits k _ I); [done|fold B; lra|done].
  - apply (within_fits k _ E); [done|fold B; lra|done].
  - apply (within_fits k _ (I + E)); [done|fold B; lra|by apply within_sub].
Qed.

(** The record of scenario A makes a frame of one row that holds an income of
    5000000 and no gold. *)
Lemma salary_frame (sheet : Sheet) :
  get_all_records sheet = inr [salary_record] →
  empty (load_data sheet).1 = false
  ∧ ∃ r, rows (load_data sheet).1 = [r]
     ∧ type_of r = VStr "Pemasukan"
     ∧ amount r = 5000000%Q ∧ goldGrams r = 0%Q.
Proof.
  intros Hget.
  assert (He : empty (pd_DataFrame [salary_record]) = false) by by vm_compute.
  rewrite (load_data_clean sheet [salary_record]); [|done|done|].
  2:{ intros c Hc. apply (bool_decide_unpack _).
      repeat (apply elem_of_cons in Hc as [->|Hc]; [by vm_compute|]).
      by apply elem_of_nil in Hc. }
  cbn [fst]. split.
  { unfold empty. rewrite clean_rows. cbn [rows pd_DataFrame imap fmap list_fmap length].
    apply orb_false_iff. split; apply bool_decide_eq_false; [|done].
    cbn. intros Hc.
    assert (Hin : "Tanggal" ∈@{gset string} ∅)
      by (rewrite <- Hc; set_unfold; tauto).
    by apply not_elem_of_empty in Hin. }
  rewrite clean_rows. cbn [rows pd_DataFrame imap fmap list_fmap].
  eexists. split; [done|].
  rewrite finish_row_type. unfold amount, goldGrams.
  rewrite finish_row_amount, finish_row_gram.
  unfold type_of, date_row. loc_simpl.
  assert (Hfa : is_float (col (pd_DataFrame [salary_record]) "Jumlah (Rp)")
                = false) by by vm_compute.
  assert (Hfg : is_float (col (pd_DataFrame [salary_record]) "Gram Emas")
                = false) by by vm_compute.
  rewrite Hfa, Hfg. by vm_compute.
Qed.

(** The totals and the estimate of a loaded frame in the exact range. *)
Lemma exact_metrics (sheet : Sheet) :
  exact_ledger (rows (load_data sheet).1) →
  let df := (load_data sheet).1 in
  (total_pemasukan df == total_of incomeAmount (rows df))%Q
  ∧ (total_pengeluaran df == total_of expenseAmount (rows df))%Q
  ∧ (total_tabungan_saham df == total_of stockInvestmentAmount (rows df))%Q
  ∧ (total_gram_emas df == total_of goldGrams (rows df))%Q
  ∧ (saldo_cashflow df == total_pemasukan df - total_pengeluaran df)%Q
  ∧ (total_kekayaan df
     == (total_pemasukan df - total_pengeluaran df)
        + total_tabungan_saham df + total_gram_emas df * 900000)%Q.
Proof.
  intros [(k & Hk & Hgrid & Hbound) Hgram]. cbn zeta.
  set (df := (load_data sheet).1) in *.
  apply Forall_app in Hgrid as [Hga Hgw].
  rewrite abs_sum_app in Hbound.
  set (B := dyadic k (2 ^ 53)) in *.
  set (A := abs_sum (amount <$> rows df)) in *.
  set (W := abs_sum ((λ r, goldGrams r * 900000)%Q <$> rows df)) in *.
  pose proof (abs_sum_nonneg (amount <$> rows df)) as HA0. fold A in HA0.
  pose proof (abs_sum_nonneg ((λ r, goldGrams r * 900000)%Q <$> rows df)) as HW0.
  fold W in HW0.
  assert (HAB : (A <= B)%Q) by lra.
  destruct (cash_totals_exact sheet df k)
    as (I & E & S & HI0 & HE0 & HS0 & Hshare
        & Hin & Wtp & Hout & Wte & Hst & Wts & Hsaldo); [done..|].
  fold A in Hshare.
  assert (Hg : (total_gram_emas df == total_of goldGrams (rows df))%Q).
  { unfold total_gram_emas, series_sum, col.
    rewrite <- list_fmap_compose. by apply np_sum_exact. }
  assert (Wsaldo : within k (saldo_cashflow df) (I + E)).
  { eapply within_proper; [symmetry; exact Hsaldo|by apply within_sub]. }
  assert (Hprod : (total_gram_emas df * 900000
                   == foldr Qplus 0 ((λ r, goldGrams r * 900000) <$> rows df))%Q).
  { rewrite Hg. symmetry. apply (sum_scale goldGrams). }
  assert (Wprod : within k (total_gram_emas df * 900000) W).
  { eapply within_proper; [symmetry; exact Hprod|by apply within_sum]. }
  assert (Hmul : (np_mul (total_gram_emas df) 900000
                  == total_gram_emas df * 900000)%Q).
  { apply np_mul_exact.
    - eapply fits_proper; [exact Hg|]. by apply exact_sum_fits.
    - apply (fits_Z 900000). by vm_compute.
    - apply (within_fits k _ W); [done|fold B; lra|done]. }
  assert (Hsum : (np_add (saldo_cashflow df) (total_tabungan_saham df)
                  == saldo_cashflow df + total_tabungan_saham df)%Q).
  { apply np_add_exact.
    - apply (within_fits k _ (I + E)); [done|fold B; lra|done].
    - apply (within_fits k _ S); [done|fold B; lra|done].
    - apply (within_fits k _ (I + E + S)); [done|fold B; lra|by apply within_add]. }
  do 4 (split; [done|]). split; [done|].
  unfold total_kekayaan. rewrite np_add_exact.
  - rewrite Hsum, Hmul, Hsaldo. reflexivity.
  - eapply fits_proper; [exact Hsum|].
    apply (within_fits k _ (I + E + S)); [done|fold B; lra|by apply within_add].
  - eapply fits_proper; [exact Hmul|].
    apply (within_fits k _ W); [done|fold B; lra|done].
  - eapply fits_proper; [rewrite Hsum, Hmul; reflexivity|].
    apply (within_fits k _ ((I + E + S) + W)); [done|fold B; lra|].
    apply within_add; [by apply within_add|done].
Qed.

(** C7, as the code has it.  For a loaded frame whose amounts and grams are
    in the range where 64-bit arithmetic is exact, the three rupiah totals
    are the sums of the amounts of the rows of their type, the gold total is
    the sum of the grams of all rows, the net cash flow is income minus
    expense, and the estimated wealth is net cash flow + stock savings + gold
    grams * 900000.  A sheet whose only record is an income of 5000000 with
    no gold gives income, net cash flow and wealth 5000000. *)
Theorem total_kekayaan_formula :
  (∀ sheet : Sheet,
     empty (load_data sheet).1 = false →
     exact_ledger (rows (load_data sheet).1) →
     let df := (load_data sheet).1 in
     (total_pemasukan df == total_of amount (of_type "Pemasukan" (rows df)))%Q
     ∧ (total_pengeluaran df
        == total_of amount (of_type "Pengeluaran Harian" (rows df)))%Q
     ∧ (total_tabungan_saham df
        == total_of amount (of_type "Tabungan Saham" (rows df)))%Q
     ∧ (total_gram_emas df == total_of goldGrams (rows df))%Q
     ∧ (saldo_cashflow df == total_pemasukan df - total_pengeluaran df)%Q
     ∧ (total_kekayaan df
        == (total_pemasukan df - total_pengeluaran df)
           + total_tabungan_saham df + total_gram_emas df * 900000)%Q)
  ∧ (∀ sheet : Sheet,
       get_all_records sheet = inr [salary_record] →
       let df := (load_data sheet).1 in
       empty df = false
       ∧ (total_pemasukan df == 5000000)%Q
       ∧ (saldo_cashflow df == 5000000)%Q
       ∧ (total_kekayaan df == 5000000)%Q).
Proof.
  split.
  - intros sheet _ Hex. cbn zeta.
    destruct (exact_metrics sheet Hex) as (Hin & Hout & Hst & Hg & Hsaldo & Hw).
    rewrite <- (bucket_column_total sheet Pemasukan),
      <- (bucket_column_total sheet PengeluaranHarian),
      <- (bucket_column_total sheet TabunganSaham).
    done.
  - intros sheet Hget. cbn zeta.
    destruct (salary_frame sheet Hget) as (He & r & Hrows & Hty & Ha & Hgr).
    split; [done|].
    assert (Hex : exact_ledger (rows (load_data sheet).1)).
    { rewrite Hrows. split; exists 0%nat; (split; [lia|]);
        cbn [fmap list_fmap app]; rewrite ?Ha, ?Hgr.
      - split; [|by vm_compute].
        repeat constructor; [by exists 5000000|by exists 0].
      - split; [|by vm_compute]. repeat constructor. by exists 0. }
    destruct (exact_metrics sheet Hex) as (Hin & Hout & Hst & Hg & Hsaldo & Hw).
    assert (Hi : (total_pemasukan (load_data sheet).1 == 5000000)%Q).
    { rewrite Hin, Hrows. unfold total_of. cbn [fmap list_fmap foldr].
      pose proof (loaded_bucket sheet r Pemasukan) as Hb.
      rewrite Hrows in Hb. cbn [bucket_of label] in Hb.
      rewrite Hb by apply list_elem_of_here. rewrite Hty, Ha. by vm_compute. }
    assert (Hbucket0 : ∀ t, t ≠ Pemasukan → bucket_of t r = 0%Q).
    { intros t Ht. pose proof (loaded_bucket sheet r t) as Hb.
      rewrite Hrows in Hb. rewrite Hb by apply list_elem_of_here.
      rewrite Hty. by destruct t. }
    assert (Ho : (total_pengeluaran (load_data sheet).1 == 0)%Q).
    { rewrite Hout, Hrows. unfold total_of. cbn [fmap list_fmap foldr].
      pose proof (Hbucket0 PengeluaranHarian ltac:(done)) as Hb.
      cbn [bucket_of] in Hb. rewrite Hb. reflexivity. }
    assert (Hs : (total_tabungan_saham (load_data sheet).1 == 0)%Q).
    { rewrite Hst, Hrows. unfold total_of. cbn [fmap list_fmap foldr].
      pose proof (Hbucket0 TabunganSaham ltac:(done)) as Hb.
      cbn [bucket_of] in Hb. rewrite Hb. reflexivity. }
    assert (Hgz : (total_gram_emas (load_data sheet).1 == 0)%Q).
    { rewrite Hg, Hrows. unfold total_of. cbn [fmap list_fmap foldr].
      rewrite Hgr. reflexivity. }
    split; [done|]. split.
    + rewrite Hsaldo, Hi, Ho. reflexivity.
    + rewrite Hw, Hi, Ho, Hs, Hgz. reflexivity.
Qed.
End Metrics.

(** ** The append path *)

Section AppendPath.
Context `{Pandas} `{Numpy} `{Worksheet Sheet}.

Lemma nothing_entered_check (d : Draft) :
  (jumlah_rp d =? 0) && Qeq_bool (gram_emas d) 0 = true ↔ nothing_entered d.
Proof.
  unfold nothing_entered.
  rewrite andb_true_iff, Z.eqb_eq, Qeq_bool_iff. done.
Qed.

Lemma submit_handler_rejects (d : Draft) (s : Session Sheet) :
  submit d = true → nothing_entered d →
  submit_handler d s
  = (Done (), mkSession (sheet s) (cache s) (trace s ++ [Show NothingEntered])).
Proof.
  intros Hs Hd. apply nothing_entered_check in Hd.
  unfold submit_handler. by rewrite Hs, Hd.
Qed.

Lemma submit_handler_saved (d : Draft) (s : Session Sheet) (sheet' : Sheet) :
  submit d = true → ¬ nothing_entered d →
  append_row (row_data d) (sheet s) = inr sheet' →
  submit_handler d s
  = (Rerun, mkSession sheet' None
              (trace s ++ [AppendRow (row_data d);
                           Show (Saved (transaction_type d) (jumlah_rp d));
                           CacheClear])).
Proof.
  intros Hs Hd Happ. rewrite <- nothing_entered_check in Hd.
  apply not_true_is_false in Hd.
  unfold submit_handler. rewrite Hs, Hd.
  unfold try_except, mbind, script_bind, sheet_append_row, st_success, emit,
    load_data_clear, st_experimental_rerun.
  rewrite Happ. cbn. by rewrite <- !app_assoc.
Qed.

Lemma submit_handler_failed (d : Draft) (s : Session Sheet) (e : exn) :
  submit d = true → ¬ nothing_entered d →
  append_row (row_data d) (sheet s) = inl e →
  submit_handler d s
  = (Done (), mkSession (sheet s) (cache s)
                (trace s ++ [AppendRow (row_data d); Show (SaveFailed e)])).
Proof.
  intros Hs Hd Happ. rewrite <- nothing_entered_check in Hd.
  apply not_true_is_false in Hd.
  unfold submit_handler. rewrite Hs, Hd.
  unfold try_except, mbind, script_bind, sheet_append_row, st_error, emit.
  rewrite Happ. cbn. by rewrite <- !app_assoc.
Qed.

Lemma new_events_app (s s' : Session Sheet) (evs : list event) :
  trace s' = trace s ++ evs → new_events s s' = evs.
Proof. intros Htr. unfold new_events. by rewrite Htr, drop_app_length. Qed.

(** C5.  A submitted draft with amount 0 and gold grams 0 is turned away with
    a warning: [append_row] is not called, and the sheet and the cache slot
    are as before.  Any other submitted draft gets past the check: the first
    thing that happens is the call of [append_row] with its row, and the
    warning is not shown. *)
Theorem zero_draft_rejected (d : Draft) (s : Session Sheet) :
  submit d = true →
  (nothing_entered d →
     sheet (submit_handler d s).2 = sheet s
     ∧ cache (submit_handler d s).2 = cache s
     ∧ new_events s (submit_handler d s).2 = [Show NothingEntered]
     ∧ ∀ cells, AppendRow cells ∉ new_events s (submit_handler d s).2)
  ∧ (¬ nothing_entered d →
     ∃ evs, new_events s (submit_handler d s).2 = AppendRow (row_data d) :: evs
            ∧ Show NothingEntered ∉ evs).
Proof.
  intros Hs. split; intros Hd.
  - rewrite submit_handler_rejects by done. cbn [snd sheet cache].
    rewrite (new_events_app _ _ [Show NothingEntered]) by done.
    repeat split. intros cells [?|?%elem_of_nil]%elem_of_cons; done.
  - destruct (append_row (row_data d) (sheet s)) as [e|sheet'] eqn:Happ.
    + rewrite (submit_handler_failed _ _ e) by done. eexists. split.
      * by apply new_events_app.
      * intros [?|?%elem_of_nil]%elem_of_cons; done.
    + rewrite (submit_handler_saved _ _ sheet') by done. eexists. split.
      * by apply new_events_app.
      * intros [?|[?|?%elem_of_nil]%elem_of_cons]%elem_of_cons; done.
Qed.

(** C6.  For a submitted draft, the cache slot is cleared exactly when
    [append_row] was called and returned.  After a successful call the slot
    is empty and the next cached read loads from the sheet as the call left
    it; after a failed call the failure is shown, sheet and slot are as
    before, and [append_row] was called that once. *)
Theorem cache_cleared_iff_saved (d : Draft) (s : Session Sheet) :
  submit d = true →
  (CacheClear ∈ new_events s (submit_handler d s).2
   ↔ AppendRow (row_data d) ∈ new_events s (submit_handler d s).2
     ∧ ∃ sheet', append_row (row_data d) (sheet s) = inr sheet')
  ∧ (∀ sheet', ¬ nothing_entered d →
       append_row (row_data d) (sheet s) = inr sheet' →
       submit_handler d s
       = (Rerun, mkSession sheet' None
                   (trace s ++ [AppendRow (row_data d);
                                Show (Saved (transaction_type d) (jumlah_rp d));
                                CacheClear]))
       ∧ (load_data_cached (submit_handler d s).2).1
         = Done (load_data sheet').1)
  ∧ (∀ e, ¬ nothing_entered d →
       append_row (row_data d) (sheet s) = inl e →
       submit_handler d s
       = (Done (), mkSession (sheet s) (cache s)
                     (trace s ++ [AppendRow (row_data d); Show (SaveFailed e)]))).
Proof.
  intros Hs. split; [|split].
  - destruct (decide ((jumlah_rp d =? 0) && Qeq_bool (gram_emas d) 0 = true))
      as [Hd|Hd]; rewrite nothing_entered_check in Hd.
    + rewrite submit_handler_rejects by done.
      rewrite (new_events_app _ _ [Show NothingEntered]) by done.
      split.
      * intros [?|?%elem_of_nil]%elem_of_cons; done.
      * intros [[?|?%elem_of_nil]%elem_of_cons _]; done.
    + destruct (append_row (row_data d) (sheet s)) as [e|sheet'] eqn:Happ.
      * rewrite (submit_handler_failed _ _ e) by done.
        erewrite new_events_app by done. split.
        -- intros [?|[?|?%elem_of_nil]%elem_of_cons]%elem_of_cons; done.
        -- intros [_ [? ?]]; done.
      * rewrite (submit_handler_saved _ _ sheet') by done.
        erewrite new_events_app by done. split.
        -- intros _. split; [apply list_elem_of_here|eauto].
        -- intros _. listed.
  - intros sheet' Hd Happ. rewrite (submit_handler_saved _ _ sheet') by done.
    done.
  - intros e Hd Happ. by apply submit_handler_failed.
Qed.

(** The only row the handler ever appends is the row of its draft. *)
Lemma submit_handler_appends (d : Draft) (s : Session Sheet) (cells : list value) :
  AppendRow cells ∈ new_events s (submit_handler d s).2 → cells = row_data d.
Proof.
  destruct (submit d) eqn:Hs.
  2:{ unfold submit_handler, new_events. rewrite Hs. cbn.
      rewrite drop_all. by intros ?%elem_of_nil. }
  destruct (decide ((jumlah_rp d =? 0) && Qeq_bool (gram_emas d) 0 = true))
    as [Hd|Hd]; rewrite nothing_entered_check in Hd.
  - rewrite submit_handler_rejects by done.
    erewrite new_events_app by done.
    intros [?|?%elem_of_nil]%elem_of_cons; done.
  - destruct (append_row (row_data d) (sheet s)) as [e|sheet'] eqn:Happ.
    + rewrite (submit_handler_failed _ _ e) by done.
      erewrite new_events_app by done.
      intros [?|[?|?%elem_of_nil]%elem_of_cons]%elem_of_cons; by simplify_eq.
    + rewrite (submit_handler_saved _ _ sheet') by done.
      erewrite new_events_app by done.
      intros [?|[?|[?|?%elem_of_nil]%elem_of_cons]%elem_of_cons]%elem_of_cons;
        by simplify_eq.
Qed.

(** C10.  A draft whose type is not "Beli Emas" leaves the form with gold
    grams 0, and a row the handler appends for it carries that type in its
    second cell and the number 0 in its fifth: only a "Beli Emas" row can
    carry a non-zero amount of gold. *)
Theorem gram_only_with_beli_emas (w : Widgets) (s : Session Sheet) :
  transaction_type (input_form w) ≠ "Beli Emas" →
  gram_emas (input_form w) = 0%Q
  ∧ ∀ cells, AppendRow cells ∈ new_events s (submit_handler (input_form w) s).2 →
      cells !! 1%nat = Some (VStr (transaction_type (input_form w)))
      ∧ cells !! 4%nat = Some (VNum 0).
Proof.
  intros Hty.
  assert (Hg : gram_emas (input_form w) = 0%Q).
  { revert Hty. unfold input_form. cbn.
    destruct (String.eqb_spec (label (selectbox w)) "Beli Emas"); done. }
  split; [done|]. intros cells ->%submit_handler_appends.
  unfold row_data. by rewrite Hg.
Qed.
End AppendPath.

(** ** The stable sort meets the contract of [sort_by] *)

Lemma key_leb_le (a b : option Z) : key_leb a b = true ↔ na_last_le a b.
Proof. destruct a, b; cbn; [apply Z.leb_le|split; done..]. Qed.

Lemma na_last_le_total (a b : option Z) : na_last_le a b ∨ na_last_le b a.
Proof. destruct a, b; cbn; auto. lia. Qed.

Lemma na_last_le_trans (a b c : option Z) :
  na_last_le a b → na_last_le b c → na_last_le a c.
Proof. destruct a, b, c; cbn; auto; try done. lia. Qed.

Section InsertionFacts.
Context {A : Type} (stop : option Z → option Z → bool) (key : A → option Z).
Hypothesis stop_le : ∀ a b, stop a b = true → na_last_le a b.
Hypothesis go_on_le : ∀ a b, stop a b = false → na_last_le b a.

Let before (a b : A) : Prop := na_last_le (key a) (key b).

Lemma insert_by_perm (x : A) (l : list A) : insert_by stop key x l ≡ₚ x :: l.
Proof.
  induction l as [|y l IH]; cbn; [done|].
  destruct (stop _ _); [done|]. rewrite IH. apply Permutation_swap.
Qed.

Lemma insertion_sort_perm (l : list A) : insertion_sort stop key l ≡ₚ l.
Proof.
  induction l as [|x l IH]; cbn; [done|].
  rewrite insert_by_perm. by rewrite IH.
Qed.

Lemma insert_by_sorted (x : A) (l : list A) :
  StronglySorted before l → StronglySorted before (insert_by stop key x l).
Proof.
  induction 1 as [|y l Hl IH Hy]; cbn.
  - by repeat constructor.
  - destruct (stop _ _) eqn:Hstop.
    + apply stop_le in Hstop. constructor; [by constructor|].
      constructor; [done|]. eapply Forall_impl; [exact Hy|].
      intros z Hz. by eapply na_last_le_trans.
    + apply go_on_le in Hstop. constructor; [done|].
      rewrite insert_by_perm. by constructor.
Qed.

Lemma insertion_sort_sorted (l : list A) :
  StronglySorted before (insertion_sort stop key l).
Proof.
  induction l as [|x l IH]; cbn; [constructor|]. by apply insert_by_sorted.
Qed.
End InsertionFacts.

Lemma pandas_stable_laws : PandasLaws pandas_stable.
Proof.
  split; intros; cbn.
  - apply insertion_sort_perm.
  - apply insertion_sort_sorted.
    + intros a b. apply key_leb_le.
    + intros a b Hab. destruct (na_last_le_total a b) as [Hle|]; [|done].
      apply key_leb_le in Hle. congruence.
Qed.

(** ** Sums and running sums *)

Lemma prefix_sums_from_length (acc : Q) (qs : list Q) :
  length (prefix_sums_from acc qs) = length qs.
Proof. revert acc. induction qs; intros; cbn; auto. Qed.

(** The element at position [i] is the start value plus the first [i + 1]
    summands. *)
Lemma prefix_sums_from_lookup (acc : Q) (qs : list Q) (i : nat) (v : Q) :
  prefix_sums_from acc qs !! i = Some v →
  (v == acc + foldr Qplus 0 (take (S i) qs))%Q.
Proof.
  revert acc i. induction qs as [|q qs IH]; intros acc i; [done|].
  destruct i as [|i]; cbn.
  - intros [= <-]. rewrite take_0. cbn. ring.
  - intros Hv%IH. rewrite Hv. cbn. ring.
Qed.

Lemma prefix_sums_from_last (acc : Q) (qs : list Q) :
  (from_option id acc (last (prefix_sums_from acc qs))
   == acc + foldr Qplus 0 qs)%Q.
Proof.
  revert acc. induction qs as [|q qs IH]; intros acc; cbn; [ring|].
  destruct qs as [|q' qs].
  - cbn. ring.
  - change (prefix_sums_from acc (q :: q' :: qs))
      with ((acc + q)%Q :: prefix_sums_from (acc + q) (q' :: qs)).
    cbn [prefix_sums_from]. rewrite last_cons_cons.
    specialize (IH (acc + q)%Q). cbn [prefix_sums_from] in IH.
    destruct (last _) eqn:Hl.
    + cbn in *. rewrite IH. cbn. ring.
    + by apply last_None in Hl.
Qed.

Lemma accumulate_from_length `{Numpy} (acc : Q) (qs : list Q) :
  length (accumulate_from acc qs) = length qs.
Proof. revert acc. induction qs; intros; cbn; auto. Qed.

Lemma accumulate_length `{Numpy} (qs : list Q) :
  length (accumulate qs) = length qs.
Proof. destruct qs; cbn; [done|]. by rewrite accumulate_from_length. Qed.

Lemma cumsum_numbers `{Numpy} (qs : list Q) :
  cumsum (VNum <$> qs) = VNum <$> accumulate qs.
Proof.
  unfold cumsum. rewrite <- list_fmap_compose.
  rewrite (list_fmap_ext (num ∘ VNum) id qs) by done.
  rewrite list_fmap_id.
  pose proof (accumulate_length qs) as Hlen. revert Hlen.
  generalize (accumulate qs). induction qs as [|q qs IH]; intros [|s l];
    cbn; try done.
  intros [= Hlen]. by rewrite IH.
Qed.

(** Running sums of numbers that are equal one by one. *)
Lemma prefix_sums_from_proper (a b : Q) (xs ys : list Q) :
  (a == b)%Q → Forall2 Qeq xs ys →
  Forall2 Qeq (prefix_sums_from a xs) (prefix_sums_from b ys).
Proof.
  intros Hab Hxy. revert a b Hab.
  induction Hxy as [|x y xs ys Hx _ IH]; intros a b Hab; cbn; [constructor|].
  constructor; [by rewrite Hab, Hx|]. apply IH. by rewrite Hab, Hx.
Qed.

Section RunningSums.
Context {numpy : Numpy} {laws : NumpyLaws numpy}.

(** On one grid and within the bound, [np.cumsum] is the exact running
    sum. *)
Lemma accumulate_from_exact (k : nat) (acc e b : Q) (xs : list Q) :
  (k ≤ 970)%nat → within k acc b → (acc == e)%Q → Forall (on_grid k) xs →
  (b + abs_sum xs <= dyadic k (2 ^ 53))%Q →
  Forall2 Qeq (accumulate_from acc xs) (prefix_sums_from e xs).
Proof.
  intros Hk Hacc He Hxs. revert acc e b Hacc He.
  induction Hxs as [|x xs Hx _ IH]; intros acc e b Hacc He Hb; cbn;
    [constructor|].
  unfold abs_sum in Hb. cbn [fmap list_fmap foldr] in Hb.
  fold (abs_sum xs) in Hb.
  pose proof (abs_sum_nonneg xs) as Hxs0.
  pose proof (Qabs_nonneg x) as Hx0.
  assert (Hbb : (0 <= b)%Q) by (destruct Hacc as [_ [? ?]]; lra).
  assert (Hadd : (np_add acc x == acc + x)%Q).
  { apply np_add_exact.
    - apply (within_fits k _ b); [done|lra|done].
    - apply (within_fits k _ (Qabs x)); [done|lra|by apply within_abs].
    - apply (within_fits k _ (b + Qabs x)); [done|lra|].
      apply within_add; [done|by apply within_abs]. }
  constructor; [by rewrite Hadd, He|].
  apply (IH _ _ (b + Qabs x)%Q).
  - eapply within_proper; [symmetry; exact Hadd|].
    apply within_add; [done|by apply within_abs].
  - by rewrite Hadd, He.
  - lra.
Qed.

Lemma accumulate_exact (xs : list Q) :
  exact_sum xs → Forall2 Qeq (accumulate xs) (prefix_sums xs).
Proof.
  intros (k & Hk & Hg & Hb). destruct xs as [|x xs]; cbn; [constructor|].
  apply Forall_cons in Hg as [Hx Hg].
  unfold abs_sum in Hb. cbn [fmap list_fmap foldr] in Hb.
  fold (abs_sum xs) in Hb.
  constructor; [lra|].
  apply (accumulate_from_exact k x _ (Qabs x)); [done| |lra|done|done].
  by apply within_abs.
Qed.
End RunningSums.

Lemma zip_with_fmap_same {A B C D} (h : B → C → D) (f : A → B) (g : A → C)
    (l : list A) :
  zip_with h (f <$> l) (g <$> l) = (λ a, h (f a) (g a)) <$> l.
Proof. induction l; cbn; congruence. Qed.

(** ** Cleaned rows *)

Section CleanedRows.
Context `{Pandas} `{Numpy}.

Lemma finish_row_cleaned (fa fg : bool) (dates : list (option Z)) (i : nat)
    (r : row) :
  cleaned (finish_row fa fg (date_row dates i r)).
Proof.
  split; [|split].
  - rewrite finish_row_date. unfold date_of, date_row. loc_simpl.
    rewrite list_lookup_fmap. destruct (dates !! i) as [o|]; cbn.
    + by exists o.
    + by exists None.
  - unfold finish_row, bucket. loc_simpl.
    destruct (eq_str _ _); [apply coerce_numeric|by eexists].
  - unfold finish_row, bucket. loc_simpl.
    destruct (eq_str _ _); [apply coerce_numeric|by eexists].
Qed.

Lemma clean_cleaned (df : DataFrame) : Forall cleaned (rows (clean df)).
Proof.
  rewrite clean_rows. apply Forall_forall. intros r Hr.
  apply list_elem_of_fmap in Hr as (r0 & -> & Hr0).
  apply list_elem_of_lookup in Hr0 as [i Hi].
  rewrite list_lookup_imap in Hi.
  destruct (rows df !! i) as [raw|]; [|done].
  injection Hi as <-. apply finish_row_cleaned.
Qed.

Lemma cleaned_cashflow (r : row) :
  cleaned r →
  sub_value (loc r "Pemasukan") (loc r "Pengeluaran") = VNum (cashflow_harian r).
Proof.
  intros (_ & [a Ha] & [b Hb]).
  unfold cashflow_harian, incomeAmount, expenseAmount. by rewrite Ha, Hb.
Qed.

Lemma cleaned_key_None (r : row) :
  cleaned r → (date_key r = None ↔ isna (date_of r) = true).
Proof.
  intros ([o Ho] & _). unfold date_key. fold (date_of r). rewrite Ho.
  by destruct o.
Qed.

Lemma cleaned_date_le (a b : row) :
  cleaned a → cleaned b →
  isna (date_of a) = false → isna (date_of b) = false →
  na_last_le (date_key a) (date_key b) → date_le a b.
Proof.
  intros ([oa Ha] & _) ([ob Hb] & _). unfold date_key, date_le.
  fold (date_of a) (date_of b). rewrite Ha, Hb.
  by destruct oa, ob.
Qed.
End CleanedRows.

(** ** The trend *)

Section TrendFacts.
Context {pandas : Pandas} {laws : PandasLaws pandas} `{Numpy}.

Lemma df_trend_rows (df : DataFrame) :
  Forall cleaned (rows df) →
  let sorted := sort_by date_key (rows df) in
  rows (df_trend df)
  = imap (λ i r, trend_row r
                   (default VNaN
                      ((VNum <$> accumulate (cashflow_harian <$> sorted)) !! i)))
         sorted.
Proof.
  intros Hdf sorted. unfold df_trend.
  set (X := sort_values "Tanggal" df).
  set (Y := set_col "Cashflow Harian" _ X).
  assert (HY : rows Y
               = (λ r : row, <["Cashflow Harian" :=
                    sub_value (loc r "Pemasukan") (loc r "Pengeluaran")]> r)
                 <$> sorted).
  { unfold Y, col. rewrite zip_with_fmap_same. apply set_col_fmap. }
  assert (Hs : Forall cleaned sorted).
  { unfold sorted. by rewrite sort_by_perm. }
  assert (Hcf : col Y "Cashflow Harian" = VNum <$> (cashflow_harian <$> sorted)).
  { unfold col. rewrite HY, <- !list_fmap_compose. apply Forall_fmap_ext.
    eapply Forall_impl; [exact Hs|]. intros r Hr. cbn.
    rewrite loc_insert_eq. by apply cleaned_cashflow. }
  rewrite Hcf. unfold set_col at 1. cbn [rows].
  rewrite HY, imap_fmap. by rewrite cumsum_numbers.
Qed.

Lemma trend_row_date (r : row) (v : value) :
  loc (trend_row r v) "Tanggal" = date_of r.
Proof. unfold date_of, trend_row. by loc_simpl. Qed.

Lemma trend_row_kumulatif (r : row) (v : value) :
  loc (trend_row r v) "Kekayaan Kumulatif" = v.
Proof. unfold trend_row. by loc_simpl. Qed.

(** Once a row without date is met in a sorted frame, no dated row follows. *)
Lemma undated_tail (r : row) (l : list row) :
  Forall cleaned l → isna (date_of r) = true → cleaned r →
  Forall (λ b, na_last_le (date_key r) (date_key b)) l →
  Forall (λ b, isna (date_of b) = true) l.
Proof.
  intros Hl Hr Hc Hle. apply cleaned_key_None in Hr; [|done].
  rewrite Hr in Hle. clear Hr Hc.
  induction Hl as [|b l Hb _ IH]; [constructor|].
  apply Forall_cons in Hle as [Hbk Hle]. constructor; [|auto].
  apply cleaned_key_None; [done|]. by destruct (date_key b).
Qed.

Lemma dated_none (l : list row) :
  Forall (λ b, isna (date_of b) = true) l → dated l = [].
Proof.
  unfold dated. induction 1 as [|b l Hb _ IH]; [done|].
  rewrite filter_cons_False; [done|]. by rewrite Hb.
Qed.

Lemma dropna_none (l : list row) (f : nat → value) :
  Forall (λ b, isna (date_of b) = true) l →
  filter (λ r, isna (loc r "Tanggal") = false) (imap (λ i r, trend_row r (f i)) l)
  = [].
Proof.
  intros Hl. revert f. induction Hl as [|b l Hb _ IH]; intros f; [done|].
  rewrite imap_cons, filter_cons_False.
  - apply (IH (f ∘ S)).
  - rewrite trend_row_date. by rewrite Hb.
Qed.

(** The points of the sorted frame after [dropna] are the points over its
    dated rows: the rows without date come last and do not enter the sums of
    the rows before them. *)
Lemma points_of_sorted_from (l : list row) (acc : Q) :
  Forall cleaned l →
  StronglySorted (λ a b, na_last_le (date_key a) (date_key b)) l →
  (λ r, (loc r "Tanggal", loc r "Kekayaan Kumulatif"))
    <$> filter (λ r, isna (loc r "Tanggal") = false)
          (imap (λ i r, trend_row r
                   (default VNaN
                      ((VNum <$> accumulate_from acc (cashflow_harian <$> l))
                       !! i))) l)
  = zip_with (λ r q, (date_of r, VNum q)) (dated l)
      (accumulate_from acc (cashflow_harian <$> dated l)).
Proof.
  intros Hc Hs. revert acc.
  induction Hs as [|r l Hs IH Hr]; intros acc; [done|].
  apply Forall_cons in Hc as [Hcr Hc].
  rewrite imap_cons.
  cbn [fmap list_fmap accumulate_from lookup list_lookup default].
  rewrite (imap_ext _ (λ i r0, trend_row r0
             (default VNaN
                ((VNum <$> accumulate_from (np_add acc (cashflow_harian r))
                             (cashflow_harian <$> l))
                 !! i))) l) by done.
  destruct (isna (date_of r)) eqn:Hna.
  - pose proof (undated_tail r l Hc Hna Hcr Hr) as Hun.
    rewrite filter_cons_False.
    2:{ rewrite trend_row_date. by rewrite Hna. }
    unfold dated at 1. rewrite filter_cons_False by (by rewrite Hna).
    fold (dated l). rewrite (dated_none l Hun). cbn.
    by rewrite (dropna_none l _ Hun).
  - rewrite filter_cons_True.
    2:{ by rewrite trend_row_date. }
    unfold dated. rewrite filter_cons_True by done. fold (dated l).
    cbn [fmap list_fmap accumulate_from zip_with].
    rewrite trend_row_date, trend_row_kumulatif. f_equal.
    apply (IH Hc (np_add acc (cashflow_harian r))).
Qed.

Lemma points_of_sorted (l : list row) :
  Forall cleaned l →
  StronglySorted (λ a b, na_last_le (date_key a) (date_key b)) l →
  (λ r, (loc r "Tanggal", loc r "Kekayaan Kumulatif"))
    <$> filter (λ r, isna (loc r "Tanggal") = false)
          (imap (λ i r, trend_row r
                   (default VNaN
                      ((VNum <$> accumulate (cashflow_harian <$> l)) !! i))) l)
  = points_over (dated l).
Proof.
  intros Hc Hs. unfold points_over. destruct l as [|r l]; [done|].
  apply Forall_cons in Hc as [Hcr Hc].
  apply StronglySorted_inv in Hs as [Hs Hr].
  rewrite imap_cons.
  cbn [fmap list_fmap accumulate lookup list_lookup default].
  rewrite (imap_ext _ (λ i r0, trend_row r0
             (default VNaN
                ((VNum <$> accumulate_from (cashflow_harian r)
                             (cashflow_harian <$> l))
                 !! i))) l) by done.
  destruct (isna (date_of r)) eqn:Hna.
  - pose proof (undated_tail r l Hc Hna Hcr Hr) as Hun.
    rewrite filter_cons_False.
    2:{ rewrite trend_row_date. by rewrite Hna. }
    unfold dated at 1 2. rewrite filter_cons_False by (by rewrite Hna).
    fold (dated l). rewrite (dated_none l Hun). cbn.
    by rewrite (dropna_none l _ Hun).
  - rewrite filter_cons_True.
    2:{ by rewrite trend_row_date. }
    unfold dated. rewrite filter_cons_True by done. fold (dated l).
    cbn [fmap list_fmap accumulate zip_with].
    rewrite trend_row_date, trend_row_kumulatif. f_equal.
    by apply points_of_sorted_from.
Qed.
End TrendFacts.

Lemma filter_StronglySorted {A} (R : relation A) (P : A → Prop)
    `{∀ x, Decision (P x)} (l : list A) :
  StronglySorted R l → StronglySorted R (filter P l).
Proof.
  induction 1 as [|x l Hl IH Hx]; [constructor|].
  rewrite filter_cons. case_decide; [|done]. constructor; [done|].
  apply Forall_forall. intros y [_ Hy]%list_elem_of_filter.
  by eapply Forall_forall in Hx.
Qed.

Lemma StronglySorted_impl {A} (R R' : relation A) (P : A → Prop) (l : list A) :
  (∀ a b, P a → P b → R a b → R' a b) →
  Forall P l → StronglySorted R l → StronglySorted R' l.
Proof.
  intros HR HP. induction 1 as [|x l Hl IH Hx]; [constructor|].
  apply Forall_cons in HP as [Hpx HP]. constructor; [auto|].
  apply Forall_forall. intros y Hy.
  apply HR; [done|by eapply Forall_forall in HP|by eapply Forall_forall in Hx].
Qed.

Lemma points_over_values `{Numpy} (l : list row) :
  (λ p : value * value, num p.2) <$> points_over l
  = accumulate (cashflow_harian <$> l).
Proof.
  unfold points_over.
  pose proof (accumulate_length (cashflow_harian <$> l)) as Hlen.
  rewrite length_fmap in Hlen. revert Hlen.
  generalize (accumulate (cashflow_harian <$> l)).
  induction l as [|r l IH]; intros [|q qs]; cbn; try done.
  intros [= Hlen]. by rewrite IH.
Qed.

Lemma points_over_length `{Numpy} (l : list row) :
  length (points_over l) = length l.
Proof.
  rewrite <- (length_fmap (λ p : value * value, num p.2)), points_over_values.
  by rewrite accumulate_length, length_fmap.
Qed.

Lemma final_value_last (pts : list (value * value)) :
  final_value pts
  = from_option id 0%Q (last ((λ p : value * value, num p.2) <$> pts)).
Proof. unfold final_value. rewrite fmap_last. by destruct (last pts). Qed.

Lemma Forall2_Qeq_last (xs ys : list Q) :
  Forall2 Qeq xs ys →
  (from_option id 0 (last xs) == from_option id 0 (last ys))%Q.
Proof.
  induction 1 as [|x y xs ys Hxy Hl IH]; [reflexivity|].
  destruct Hl as [|x' y' xs ys Hx' Hl]; [done|].
  by rewrite !last_cons_cons.
Qed.

Section ExactTrend.
Context {numpy : Numpy} {laws : NumpyLaws numpy}.

Lemma shares_cashflow (k : nat) (r : row) :
  (k ≤ 970)%nat → shares k r → (Qabs (amount r) <= dyadic k (2 ^ 53))%Q →
  (cashflow_harian r == cashflow r)%Q
  ∧ on_grid k (cashflow_harian r)
  ∧ (Qabs (cashflow_harian r) <= Qabs (amount r))%Q.
Proof.
  intros Hk (Hi & He & Hb) Ha.
  pose proof (Qabs_nonneg (incomeAmount r)).
  pose proof (Qabs_nonneg (expenseAmount r)).
  assert (Hw : within k (cashflow r)
                 (Qabs (incomeAmount r) + Qabs (expenseAmount r))).
  { apply within_sub; by apply within_abs. }
  assert (Hcf : (cashflow_harian r == cashflow r)%Q).
  { unfold cashflow_harian, cashflow. apply np_sub_exact.
    - apply (within_fits k _ (Qabs (incomeAmount r)));
        [done|lra|by apply within_abs].
    - apply (within_fits k _ (Qabs (expenseAmount r)));
        [done|lra|by apply within_abs].
    - eapply within_fits; [done| |exact Hw]. lra. }
  split; [done|]. destruct Hw as [Hg [? ?]]. split.
  - by apply (on_grid_proper k _ _ Hcf).
  - rewrite Hcf. apply Qabs_Qle_condition. split; lra.
Qed.

(** In the exact range the running sums of line 259 are the sums of income
    minus expense. *)
Lemma trend_values_exact (l : list row) (k : nat) :
  (k ≤ 970)%nat → Forall (shares k) l →
  (abs_sum (amount <$> l) <= dyadic k (2 ^ 53))%Q →
  Forall2 Qeq (accumulate (cashflow_harian <$> l)) (prefix_sums (cashflow <$> l)).
Proof.
  intros Hk Hl Hb.
  assert (Hrow : ∀ r, r ∈ l →
            (cashflow_harian r == cashflow r)%Q
            ∧ on_grid k (cashflow_harian r)
            ∧ (Qabs (cashflow_harian r) <= Qabs (amount r))%Q).
  { intros r Hr. apply shares_cashflow; [done|by eapply Forall_forall in Hl|].
    eapply Qle_trans; [|exact Hb].
    apply elem_of_Permutation in Hr as [l' Hr].
    rewrite (abs_sum_perm _ _ (fmap_Permutation amount _ _ Hr)).
    pose proof (abs_sum_nonneg (amount <$> l')).
    unfold abs_sum in *. cbn [fmap list_fmap foldr] in *. lra. }
  assert (Hex : exact_sum (cashflow_harian <$> l)).
  { exists k. split; [done|]. split.
    - apply Forall_fmap, Forall_forall. intros r Hr. by apply Hrow.
    - eapply Qle_trans; [|exact Hb]. apply abs_sum_mono.
      intros r Hr. by apply Hrow. }
  pose proof (accumulate_exact _ Hex) as Hacc.
  assert (Hcf : Forall2 Qeq (cashflow_harian <$> l) (cashflow <$> l)).
  { apply Forall2_fmap, Forall2_same_length_lookup. split; [done|].
    intros i x y Hx Hy. rewrite Hx in Hy. injection Hy as <-.
    apply Hrow. by eapply list_elem_of_lookup_2. }
  pose proof (prefix_sums_from_proper 0 0 _ _ (Qeq_refl 0) Hcf) as Hps.
  fold (prefix_sums (cashflow_harian <$> l)) in Hps.
  fold (prefix_sums (cashflow <$> l)) in Hps.
  clear -Hacc Hps. revert Hps.
  generalize (prefix_sums (cashflow <$> l)).
  induction Hacc as [|x y xs ys Hxy _ IH]; intros zs Hz.
  - apply Forall2_nil_inv_l in Hz as ->. constructor.
  - apply Forall2_cons_inv_l in Hz as (z & zs' & Hyz & Hz & ->).
    constructor; [by rewrite Hxy|]. by apply IH.
Qed.

Lemma points_over_lookup (l : list row) (k : nat) (i : nat) (p : value * value) :
  (k ≤ 970)%nat → Forall (shares k) l →
  (abs_sum (amount <$> l) <= dyadic k (2 ^ 53))%Q →
  points_over l !! i = Some p →
  ∃ r, l !! i = Some r ∧ p.1 = date_of r
       ∧ ∃ q, p.2 = VNum q
              ∧ (q == foldr Qplus 0 (cashflow <$> take (S i) l))%Q.
Proof.
  intros Hk Hl Hb.
  unfold points_over. intros (r & q & -> & Hr & Hq)%lookup_zip_with_Some.
  exists r. split; [done|]. split; [done|]. exists q. split; [done|].
  pose proof (trend_values_exact l k Hk Hl Hb) as Hv.
  destruct (Forall2_lookup_l _ _ _ _ _ Hv Hq) as (e & He & Hqe).
  apply prefix_sums_from_lookup in He. rewrite Hqe, He, fmap_take. ring.
Qed.

Lemma points_over_final (l : list row) (k : nat) :
  (k ≤ 970)%nat → Forall (shares k) l →
  (abs_sum (amount <$> l) <= dyadic k (2 ^ 53))%Q →
  (final_value (points_over l) == foldr Qplus 0 (cashflow <$> l))%Q.
Proof.
  intros Hk Hl Hb. rewrite final_value_last, points_over_values.
  rewrite (Forall2_Qeq_last _ _ (trend_values_exact l k Hk Hl Hb)).
  unfold prefix_sums.
  rewrite (prefix_sums_from_last 0 (cashflow <$> l)). ring.
Qed.
End ExactTrend.

Section TrendClaim.
Context {pandas : Pandas} {laws : PandasLaws pandas}
        {numpy : Numpy} {nlaws : NumpyLaws numpy} `{Worksheet Sheet}.

Lemma trend_points_cleaned (df : DataFrame) :
  Forall cleaned (rows df) →
  trend_points df = points_over (dated (sort_by date_key (rows df))).
Proof.
  intros Hdf. unfold trend_points, dropna. cbn [rows].
  rewrite df_trend_rows by done. cbn zeta.
  apply points_of_sorted.
  - by rewrite sort_by_perm.
  - apply sort_by_sorted.
Qed.

Lemma dated_sorted (l : list row) :
  Forall cleaned l → StronglySorted date_le (dated (sort_by date_key l)).
Proof.
  intros Hl.
  apply (StronglySorted_impl
           (λ a b, na_last_le (date_key a) (date_key b)) _
           (λ r, cleaned r ∧ isna (date_of r) = false)).
  - intros a b [? ?] [? ?]. by apply cleaned_date_le.
  - apply Forall_forall. intros r [Hr Hin]%list_elem_of_filter.
    split; [|done]. rewrite sort_by_perm in Hin.
    by eapply Forall_forall in Hl.
  - apply filter_StronglySorted, sort_by_sorted.
Qed.

Lemma loaded_shares (sheet : Sheet) (k : nat) (l : list row) :
  l ⊆ rows (load_data sheet).1 →
  Forall (on_grid k) (amount <$> l) → Forall (shares k) l.
Proof.
  intros Hsub Hg. rewrite Forall_fmap in Hg. apply Forall_forall.
  intros r Hr. pose proof (Hsub r Hr) as Hload.
  eapply Forall_forall in Hg; [|exact Hr]. cbn in Hg.
  pose proof (loaded_bucket_shares sheet r Hload) as Hsh.
  pose proof (Qabs_nonneg (stockInvestmentAmount r)).
  split; [|split; [|lra]].
  - destruct (loaded_bucket_cases sheet r Pemasukan Hload) as [Hc|[Hc|Hc]];
      cbn [bucket_of] in Hc; apply (on_grid_proper k _ _ Hc);
      [done|apply on_grid_0|by apply on_grid_opp].
  - destruct (loaded_bucket_cases sheet r PengeluaranHarian Hload)
      as [Hc|[Hc|Hc]];
      cbn [bucket_of] in Hc; apply (on_grid_proper k _ _ Hc);
      [done|apply on_grid_0|by apply on_grid_opp].
Qed.

(** The net cash flow of the dated rows, as the script would compute it, is
    their income minus their expense. *)
Lemma restricted_cashflow (sheet : Sheet) :
  exact_sum (amount <$> rows (load_data sheet).1) →
  (saldo_cashflow (dropna "Tanggal" (load_data sheet).1)
   == foldr Qplus 0 (cashflow <$> dated (rows (load_data sheet).1)))%Q.
Proof.
  intros Hex.
  apply (exact_sum_filter amount (λ r, isna (date_of r) = false)) in Hex.
  fold (dated (rows (load_data sheet).1)) in Hex.
  destruct Hex as (k & Hk & Hg & Hb).
  destruct (cash_totals_exact sheet (dropna "Tanggal" (load_data sheet).1) k)
    as (I & E & S & _ & _ & _ & _ & Hin & _ & Hout & _ & _ & _ & Hsaldo);
    [ |done|done|done|].
  { intros r [_ Hr]%list_elem_of_filter. done. }
  rewrite Hsaldo, Hin, Hout. symmetry.
  apply (sum_minus incomeAmount expenseAmount).
Qed.

Lemma loaded_cleaned (sheet : Sheet) :
  empty (load_data sheet).1 = false → Forall cleaned (rows (load_data sheet).1).
Proof.
  intros He.
  destruct (load_data_frame sheet)
    as [Hdf|[(data & Hdf & He')|(data & Hdf & _)]];
    rewrite Hdf in *; [done|congruence|]. apply clean_cleaned.
Qed.

(** The last point of the trend of a loaded frame, in the exact range. *)
Lemma trend_final (sheet : Sheet) :
  empty (load_data sheet).1 = false →
  exact_sum (amount <$> rows (load_data sheet).1) →
  (final_value (trend_points (load_data sheet).1)
   == foldr Qplus 0 (cashflow <$> dated (rows (load_data sheet).1)))%Q.
Proof.
  intros He Hex. pose proof (loaded_cleaned sheet He) as Hc.
  set (df := (load_data sheet).1) in *.
  set (l := dated (sort_by date_key (rows df))).
  assert (Hperm : l ≡ₚ dated (rows df)).
  { unfold l, dated. by rewrite sort_by_perm. }
  apply (exact_sum_filter amount (λ r, isna (date_of r) = false)) in Hex.
  fold (dated (rows df)) in Hex.
  apply (exact_sum_perm _ (amount <$> l)) in Hex;
    [|by apply fmap_Permutation].
  destruct Hex as (k & Hk & Hg & Hb).
  assert (Hsh : Forall (shares k) l).
  { apply (loaded_shares sheet); [|done].
    intros r Hr. rewrite Hperm in Hr.
    by apply list_elem_of_filter in Hr as [_ Hr]. }
  rewrite (trend_points_cleaned df Hc). fold l.
  rewrite (points_over_final l k Hk Hsh Hb).
  by apply sum_perm, fmap_Permutation.
Qed.

(** C2, as the code has it.  For a loaded, non-empty frame whose amounts are
    in the range where 64-bit arithmetic is exact, the trend is drawn over
    exactly the rows that have a date, taken in ascending order of date (the
    order among rows of equal date is whatever [sort_values] produced); each
    point carries its row's date and the running sum of income minus expense
    up to and including that row, and the last point carries the net cash
    flow of the dated rows, which is also what the script's own totals give
    on those rows. *)
Theorem trend_is_running_sum (sheet : Sheet) :
  empty (load_data sheet).1 = false →
  exact_sum (amount <$> rows (load_data sheet).1) →
  ∃ l, l ≡ₚ dated (rows (load_data sheet).1)
    ∧ StronglySorted date_le l
    ∧ trend_points (load_data sheet).1 = points_over l
    ∧ (∀ i p, trend_points (load_data sheet).1 !! i = Some p →
         ∃ r, l !! i = Some r ∧ p.1 = date_of r
              ∧ ∃ q, p.2 = VNum q
                     ∧ (q == foldr Qplus 0 (cashflow <$> take (S i) l))%Q)
    ∧ (final_value (trend_points (load_data sheet).1)
       == foldr Qplus 0 (cashflow <$> dated (rows (load_data sheet).1)))%Q
    ∧ (final_value (trend_points (load_data sheet).1)
       == saldo_cashflow (dropna "Tanggal" (load_data sheet).1))%Q.
Proof.
  intros He Hex.
  pose proof (restricted_cashflow sheet Hex) as Hsaldo.
  assert (Hc : Forall cleaned (rows (load_data sheet).1)).
  { destruct (load_data_frame sheet)
      as [Hdf|[(data & Hdf & He')|(data & Hdf & _)]];
      rewrite Hdf in *; [done|congruence|]. apply clean_cleaned. }
  set (df := (load_data sheet).1) in *.
  set (l := dated (sort_by date_key (rows df))).
  assert (Hperm : l ≡ₚ dated (rows df)).
  { unfold l, dated. by rewrite sort_by_perm. }
  apply (exact_sum_filter amount (λ r, isna (date_of r) = false)) in Hex.
  fold (dated (rows df)) in Hex.
  apply (exact_sum_perm _ (amount <$> l)) in Hex;
    [|by apply fmap_Permutation].
  destruct Hex as (k & Hk & Hg & Hb).
  assert (Hsh : Forall (shares k) l).
  { apply (loaded_shares sheet); [|done].
    intros r Hr. rewrite Hperm in Hr.
    by apply list_elem_of_filter in Hr as [_ Hr]. }
  assert (Hfinal : (final_value (points_over l)
                    == foldr Qplus 0 (cashflow <$> dated (rows df)))%Q).
  { rewrite (points_over_final l k Hk Hsh Hb).
    by apply sum_perm, fmap_Permutation. }
  exists l. rewrite (trend_points_cleaned df Hc). fold l.
  split; [done|]. split; [by apply dated_sorted|]. split; [done|].
  split; [|split].
  - intros i p. by apply (points_over_lookup l k).
  - done.
  - by rewrite Hfinal, Hsaldo.
Qed.
End TrendClaim.

(** * The properties on concrete sheets *)

Section Examples.
#[local] Existing Instance pandas_stable.
#[local] Existing Instance numpy64.

(** Scenario E: the trend follows the dates, not the order of the sheet. *)
Example trend_of_ledger_sheet :
  trend_points (load_data ledger_sheet).1
  = [ (VTime 1704067200000000000, VNum 500);
      (VTime 1705276800000000000, VNum 500);
      (VTime 1706745600000000000, VNum 400) ].
Proof. by vm_compute. Qed.

(** Scenario C: the unreadable amount became 0 and the row is still there. *)
Example unreadable_amount_row :
  length (rows (load_data ledger_sheet).1) = 4%nat
  ∧ loc bonus_row "Jumlah (Rp)" = VNum 0
  ∧ date_of bonus_row = VNaN
  ∧ (load_data ledger_sheet).2 = [].
Proof. by vm_compute. Qed.

(** The unreadable amount makes its column one of floats, and the cast
    rounds the int above [2^53] next to it. *)
Example unreadable_amount_casts_column :
  amount <$> rows (load_data mixed_sheet).1 = [9007199254740992%Q; 0%Q].
Proof. by vm_compute. Qed.

(** The totals of a household with a record of each type. *)
Example household_totals :
  let df := (load_data household_sheet).1 in
  total_pemasukan df = 5000000%Q
  ∧ total_pengeluaran df = 1250000%Q
  ∧ total_tabungan_saham df = 2000000%Q
  ∧ total_gram_emas df = 2.5%Q
  ∧ saldo_cashflow df = 3750000%Q
  ∧ total_kekayaan df = 8000000%Q.
Proof. by vm_compute. Qed.

(** C1 fails as worded: the gold purchase entered with grams only is a row
    of a canonical type (and so is the row with the unreadable amount), and
    none of its four buckets is non-zero. *)
Lemma canonical_row_without_bucket :
  gold_row ∈ rows (load_data ledger_sheet).1
  ∧ canonical (type_of gold_row)
  ∧ nonzero_buckets gold_row = 0%nat
  ∧ nonzero_buckets gold_row ≠ 1%nat.
Proof.
  split; [apply default_lookup_elem; vm_compute; lia|].
  split; [by exists BeliEmas|].
  split; [by vm_compute|]. by vm_compute.
Qed.

Lemma bucket_follows_type_witness :
  gold_row ∈ rows (load_data ledger_sheet).1
  ∧ type_of gold_row = VStr (label BeliEmas)
  ∧ bucket_of BeliEmas gold_row = amount gold_row
  ∧ (∀ t', t' ≠ BeliEmas → bucket_of t' gold_row = 0%Q)
  ∧ (nonzero_buckets gold_row = 1%nat ↔ ¬ (amount gold_row == 0)%Q).
Proof.
  assert (Hin : gold_row ∈ rows (load_data ledger_sheet).1)
    by (apply default_lookup_elem; vm_compute; lia).
  assert (Hty : type_of gold_row = VStr (label BeliEmas)) by by vm_compute.
  split; [exact Hin|]. split; [exact Hty|].
  exact (proj1 (bucket_follows_type ledger_sheet gold_row Hin) BeliEmas Hty).
Defined.

Lemma bucket_zero_or_amount_witness :
  bonus_row ∈ rows (load_data ledger_sheet).1
  ∧ (∀ t, bucket_of t bonus_row = 0%Q ∨ bucket_of t bonus_row = amount bonus_row)
  ∧ (∀ t t', t ≠ t' → bucket_of t bonus_row = 0%Q ∨ bucket_of t' bonus_row = 0%Q)
  ∧ (canonical (type_of bonus_row) → (amount bonus_row == 0)%Q →
     ∀ t, (bucket_of t bonus_row == 0)%Q).
Proof.
  assert (Hin : bonus_row ∈ rows (load_data ledger_sheet).1)
    by (apply default_lookup_elem; vm_compute; lia).
  split; [exact Hin|]. exact (bucket_zero_or_amount ledger_sheet bonus_row Hin).
Defined.

Lemma no_records_no_error_witness :
  get_all_records blank_sheet = inr []
  ∧ empty (load_data blank_sheet).1 = true
  ∧ rows (load_data blank_sheet).1 = []
  ∧ (load_data blank_sheet).2 = []
  ∧ (∀ c, ColumnMissing c ∉ (load_data blank_sheet).2)
  ∧ (∀ e, FetchFailed e ∉ (load_data blank_sheet).2).
Proof.
  split; [reflexivity|]. apply (no_records_no_error blank_sheet). reflexivity.
Defined.

Lemma missing_column_reported_witness :
  get_all_records no_gram_sheet = inr no_gram_records
  ∧ no_gram_records ≠ []
  ∧ header_keyed (header no_gram_sheet) no_gram_records
  ∧ "Gram Emas" ∈ required_cols
  ∧ ("Gram Emas" ∉ header no_gram_sheet)
  ∧ ∃ present c rest,
      required_cols = present ++ c :: rest
      ∧ (∀ c', c' ∈ present → c' ∈ header no_gram_sheet)
      ∧ (c ∉ header no_gram_sheet)
      ∧ load_data no_gram_sheet = (pd_DataFrame_new, [ColumnMissing c])
      ∧ rows (load_data no_gram_sheet).1 = []
      ∧ empty (load_data no_gram_sheet).1 = true.
Proof.
  assert (Hget : get_all_records no_gram_sheet = inr no_gram_records)
    by reflexivity.
  assert (Hne : no_gram_records ≠ []) by discriminate.
  assert (Hk : header_keyed (header no_gram_sheet) no_gram_records).
  { split; [discriminate|]. constructor; [|constructor].
    unfold no_gram_sheet, header. by rewrite dom_list_to_map_L. }
  assert (Hreq : "Gram Emas" ∈ required_cols) by (unfold required_cols; listed).
  assert (Hmiss : "Gram Emas" ∉ header no_gram_sheet)
    by (unfold no_gram_sheet, header; not_listed).
  split; [exact Hget|]. split; [exact Hne|]. split; [exact Hk|].
  split; [exact Hreq|]. split; [exact Hmiss|].
  exact (missing_column_reported no_gram_sheet no_gram_records
           (header no_gram_sheet) "Gram Emas" Hget Hne Hk Hreq Hmiss).
Defined.


Lemma total_kekayaan_formula_witness :
  (empty (load_data household_sheet).1 = false
   ∧ exact_ledger (rows (load_data household_sheet).1)
   ∧ let df := (load_data household_sheet).1 in
     (total_pemasukan df == total_of amount (of_type "Pemasukan" (rows df)))%Q
     ∧ (total_pengeluaran df
        == total_of amount (of_type "Pengeluaran Harian" (rows df)))%Q
     ∧ (total_tabungan_saham df
        == total_of amount (of_type "Tabungan Saham" (rows df)))%Q
     ∧ (total_gram_emas df == total_of goldGrams (rows df))%Q
     ∧ (saldo_cashflow df == total_pemasukan df - total_pengeluaran df)%Q
     ∧ (total_kekayaan df
        == (total_pemasukan df - total_pengeluaran df)
           + total_tabungan_saham df + total_gram_emas df * 900000)%Q)
  ∧ (get_all_records salary_sheet = inr [salary_record]
     ∧ let df := (load_data salary_sheet).1 in
       empty df = false
       ∧ (total_pemasukan df == 5000000)%Q
       ∧ (saldo_cashflow df == 5000000)%Q
       ∧ (total_kekayaan df == 5000000)%Q).
Proof.
  assert (He : empty (load_data household_sheet).1 = false) by by vm_compute.
  assert (Hex : exact_ledger (rows (load_data household_sheet).1)).
  { split.
    - apply (exact_sum_b_true 0); [lia|by vm_compute].
    - apply (exact_sum_b_true 1); [lia|by vm_compute]. }
  split.
  - split; [exact He|]. split; [exact Hex|].
    exact (proj1 (@total_kekayaan_formula _ _ numpy64_laws _ _)
             household_sheet He Hex).
  - split; [reflexivity|].
    exact (proj2 (@total_kekayaan_formula _ _ numpy64_laws _ _)
             salary_sheet eq_refl).
Defined.

Lemma zero_draft_rejected_witness :
  (submit (input_form default_widgets) = true
   ∧ nothing_entered (input_form default_widgets)
   ∧ sheet (submit_handler (input_form default_widgets) ledger_session).2
     = sheet ledger_session
   ∧ cache (submit_handler (input_form default_widgets) ledger_session).2
     = cache ledger_session
   ∧ new_events ledger_session
       (submit_handler (input_form default_widgets) ledger_session).2
     = [Show NothingEntered]
   ∧ ∀ cells, AppendRow cells ∉
       new_events ledger_session
         (submit_handler (input_form default_widgets) ledger_session).2)
  ∧ (submit (input_form income_widgets) = true
     ∧ ¬ nothing_entered (input_form income_widgets)
     ∧ ∃ evs,
         new_events ledger_session
           (submit_handler (input_form income_widgets) ledger_session).2
         = AppendRow (row_data (input_form income_widgets)) :: evs
         ∧ Show NothingEntered ∉ evs).
Proof.
  assert (Hzero : nothing_entered (input_form default_widgets))
    by (split; reflexivity).
  assert (Hsome : ¬ nothing_entered (input_form income_widgets))
    by (intros [Hrp _]; discriminate Hrp).
  split.
  - split; [reflexivity|]. split; [exact Hzero|].
    exact (proj1 (zero_draft_rejected (input_form default_widgets)
                    ledger_session eq_refl) Hzero).
  - split; [reflexivity|]. split; [exact Hsome|].
    exact (proj2 (zero_draft_rejected (input_form income_widgets)
                    ledger_session eq_refl) Hsome).
Defined.

Lemma cache_cleared_iff_saved_witness :
  submit (input_form income_widgets) = true
  ∧ ¬ nothing_entered (input_form income_widgets)
  ∧ append_row (row_data (input_form income_widgets)) (sheet ledger_session)
    = inr ledger_sheet_saved
  ∧ append_row (row_data (input_form income_widgets)) (sheet offline_session)
    = inl "APIError"
  ∧ (submit_handler (input_form income_widgets) ledger_session
     = (Rerun, mkSession ledger_sheet_saved None
                 (trace ledger_session
                  ++ [AppendRow (row_data (input_form income_widgets));
                      Show (Saved (transaction_type (input_form income_widgets))
                              (jumlah_rp (input_form income_widgets)));
                      CacheClear]))
     ∧ (load_data_cached
          (submit_handler (input_form income_widgets) ledger_session).2).1
       = Done (load_data ledger_sheet_saved).1)
  ∧ submit_handler (input_form income_widgets) offline_session
    = (Done (), mkSession (sheet offline_session) (cache offline_session)
                  (trace offline_session
                   ++ [AppendRow (row_data (input_form income_widgets));
                       Show (SaveFailed "APIError")])).
Proof.
  assert (Hsome : ¬ nothing_entered (input_form income_widgets))
    by (intros [Hrp _]; discriminate Hrp).
  split; [reflexivity|]. split; [exact Hsome|].
  split; [reflexivity|]. split; [reflexivity|]. split.
  - exact (proj1 (proj2 (cache_cleared_iff_saved (input_form income_widgets)
                           ledger_session eq_refl))
             ledger_sheet_saved Hsome eq_refl).
  - exact (proj2 (proj2 (cache_cleared_iff_saved (input_form income_widgets)
                           offline_session eq_refl))
             "APIError" Hsome eq_refl).
Defined.

Lemma gram_only_with_beli_emas_witness :
  transaction_type (input_form income_widgets) ≠ "Beli Emas"
  ∧ gram_emas (input_form income_widgets) = 0%Q
  ∧ ∀ cells,
      AppendRow cells ∈
        new_events ledger_session
          (submit_handler (input_form income_widgets) ledger_session).2 →
      cells !! 1%nat = Some (VStr (transaction_type (input_form income_widgets)))
      ∧ cells !! 4%nat = Some (VNum 0).
Proof.
  assert (Hty : transaction_type (input_form income_widgets) ≠ "Beli Emas")
    by (intros Heq; discriminate Heq).
  split; [exact Hty|].
  exact (gram_only_with_beli_emas income_widgets ledger_session Hty).
Defined.

Lemma trend_is_running_sum_witness :
  empty (load_data ledger_sheet).1 = false
  ∧ exact_sum (amount <$> rows (load_data ledger_sheet).1)
  ∧ ∃ l, l ≡ₚ dated (rows (load_data ledger_sheet).1)
      ∧ StronglySorted date_le l
      ∧ trend_points (load_data ledger_sheet).1 = points_over l
      ∧ (∀ i p, trend_points (load_data ledger_sheet).1 !! i = Some p →
           ∃ r, l !! i = Some r ∧ p.1 = date_of r
                ∧ ∃ q, p.2 = VNum q
                       ∧ (q == foldr Qplus 0 (cashflow <$> take (S i) l))%Q)
      ∧ (final_value (trend_points (load_data ledger_sheet).1)
         == foldr Qplus 0 (cashflow <$> dated (rows (load_data ledger_sheet).1)))%Q
      ∧ (final_value (trend_points (load_data ledger_sheet).1)
         == saldo_cashflow (dropna "Tanggal" (load_data ledger_sheet).1))%Q.
Proof.
  assert (He : empty (load_data ledger_sheet).1 = false) by by vm_compute.
  assert (Hex : exact_sum (amount <$> rows (load_data ledger_sheet).1))
    by (apply (exact_sum_b_true 0); [lia|by vm_compute]).
  split; [exact He|]. split; [exact Hex|].
  exact (@trend_is_running_sum _ pandas_stable_laws _ numpy64_laws _ _
           ledger_sheet He Hex).
Defined.

(** After the save, the next cached read shows the new row last. *)
Example saved_row_is_loaded :
  match (load_data_cached
           (submit_handler (input_form income_widgets) ledger_session).2).1 with
  | Done df =>
      length (rows df) = 5%nat
      ∧ ((λ r, (date_of r, type_of r, amount r)) <$> last (rows df))
        = Some (VTime 1709251200000000000, VStr "Pemasukan", 7500000%Q)
  | _ => False
  end.
Proof. by vm_compute. Qed.
End Examples.

(** ** Where the figures leave the claims *)

(** C7 fails as worded: for a gold purchase of 20000000000000 grams the
    column "Gram Emas" is one of int64 and the product with 900000 of line
    140 wraps around: the estimate shown is negative, not
    grams * 900000. *)
Lemma wealth_wraps_around :
  let df := (@load_data pandas_quicksort numpy64 _ _ bullion_sheet).1 in
  empty df = false
  ∧ @total_pemasukan numpy64 df = 0%Q
  ∧ @total_pengeluaran numpy64 df = 0%Q
  ∧ @total_tabungan_saham numpy64 df = 0%Q
  ∧ @total_gram_emas numpy64 df = 20000000000000%Q
  ∧ @total_kekayaan numpy64 df = (-446744073709551616)%Q
  ∧ ¬ (@total_kekayaan numpy64 df
       == (@total_pemasukan numpy64 df - @total_pengeluaran numpy64 df)
          + @total_tabungan_saham numpy64 df
          + @total_gram_emas numpy64 df * 900000)%Q.
Proof.
  cbn zeta. do 6 (split; [by vm_compute|]). by vm_compute.
Qed.

(** ** Rows of equal date, and sums past the range of int64 *)

(** With the stable sort the two same-day rows stay in the order of the
    sheet, and so they do with numpy's quicksort, which sorts so short a
    range by insertion. *)
Example stable_tie_order :
  @trend_points pandas_stable numpy64
    (@load_data pandas_stable numpy64 _ _ same_day_sheet).1
  = [ (VTime 1704067200000000000, VNum 500);
      (VTime 1704067200000000000, VNum 400) ]
  ∧ @trend_points pandas_quicksort numpy64
      (@load_data pandas_quicksort numpy64 _ _ same_day_sheet).1
    = [ (VTime 1704067200000000000, VNum 500);
        (VTime 1704067200000000000, VNum 400) ].
Proof. split; by vm_compute. Qed.

(** C2 fails as worded, in two ways.  On the eighteen same-day rows of
    [busy_day_sheet] numpy's quicksort partitions the range and exchanges
    rows of equal date, so the trend, which has a point for each of the rows
    and ends in their total, is not the one drawn in ledger order.
    On the two incomes of [2^62] rupiah of [overflow_sheet] the cumulative
    sum of the int64 column wraps around: the second point is [-2^63], not
    the sum [2^63] of the two incomes. *)
Lemma trend_not_as_claimed :
  (let df := (@load_data pandas_quicksort numpy64 _ _ busy_day_sheet).1 in
   empty df = false
   ∧ length (@trend_points pandas_quicksort numpy64 df) = 18%nat
   ∧ final_value (@trend_points pandas_quicksort numpy64 df) = 171%Q
   ∧ (λ p : value * value, num p.2) <$> @spec_cumulativeTrend numpy64 df
     = [1; 3; 6; 10; 15; 21; 28; 36; 45; 55; 66; 78; 91; 105; 120; 136; 153;
        171]%Q
   ∧ @trend_points pandas_quicksort numpy64 df
     ≠ @spec_cumulativeTrend numpy64 df)
  ∧ (let df := (@load_data pandas_quicksort numpy64 _ _ overflow_sheet).1 in
     empty df = false
     ∧ (λ p : value * value, num p.2) <$> @trend_points pandas_quicksort numpy64 df
       = [4611686018427387904; -9223372036854775808]%Q
     ∧ prefix_sums (cashflow <$> dated (rows df))
       = [4611686018427387904; 9223372036854775808]%Q
     ∧ ¬ (@final_value (@trend_points pandas_quicksort numpy64 df)
          == foldr Qplus 0 (cashflow <$> dated (rows df)))%Q).
Proof.
  split; cbn zeta.
  - do 4 (split; [by vm_compute|]). vm_compute. intros [=].
  - do 3 (split; [by vm_compute|]). by vm_compute.
Qed.

(** With a sort that keeps ties in place, the trend of the script is the
    trend of the specification: the order of equal dates is the only point
    on which the two can differ. *)

Section StableTrend.
Context {A : Type} (key : A → option Z) (P : A → Prop) `{∀ x, Decision (P x)}.

Lemma insert_by_front (x : A) (l : list A) :
  Forall (λ z, key_leb (key x) (key z) = true) l →
  insert_by key_leb key x l = x :: l.
Proof. destruct 1 as [|z l Hz _]; cbn [insert_by]; [done|]. by rewrite Hz. Qed.

Lemma filter_insert_by_out (stop : option Z → option Z → bool) (x : A) (l : list A) :
  ¬ P x → filter P (insert_by stop key x l) = filter P l.
Proof.
  intros Hx. induction l as [|y l IH]; cbn [insert_by].
  - by rewrite filter_cons_False.
  - destruct (stop _ _).
    + by rewrite filter_cons_False.
    + rewrite !(filter_cons _ y). by rewrite IH.
Qed.

Lemma filter_insert_by_in (x : A) (l : list A) :
  P x → StronglySorted (λ a b, na_last_le (key a) (key b)) l →
  filter P (insert_by key_leb key x l) = insert_by key_leb key x (filter P l).
Proof.
  intros Hx. induction 1 as [|y l Hl IH Hy]; cbn [insert_by].
  - by rewrite filter_cons_True.
  - destruct (key_leb (key x) (key y)) eqn:Hxy.
    + rewrite filter_cons_True by done. symmetry. apply insert_by_front.
      apply Forall_forall. intros z [_ Hz]%list_elem_of_filter.
      apply key_leb_le. apply key_leb_le in Hxy.
      apply elem_of_cons in Hz as [->|Hz]; [done|].
      eapply na_last_le_trans; [exact Hxy|]. by eapply Forall_forall in Hy.
    + rewrite !(filter_cons _ y). case_decide.
      * cbn [insert_by]. by rewrite Hxy, IH.
      * done.
Qed.

Lemma filter_stable_sort (l : list A) :
  filter P (stable_sort key l) = stable_sort key (filter P l).
Proof.
  unfold stable_sort. induction l as [|x l IH]; [done|].
  change (insertion_sort key_leb key (x :: l))
    with (insert_by key_leb key x (insertion_sort key_leb key l)).
  rewrite (filter_cons _ x). case_decide.
  - change (insertion_sort key_leb key (x :: filter P l))
      with (insert_by key_leb key x (insertion_sort key_leb key (filter P l))).
    rewrite filter_insert_by_in; [by rewrite IH|done|].
    apply insertion_sort_sorted.
    + intros a b. apply key_leb_le.
    + intros a b Hab. destruct (na_last_le_total a b) as [Hle|]; [|done].
      apply key_leb_le in Hle. congruence.
  - by rewrite filter_insert_by_out.
Qed.
End StableTrend.

Lemma stable_sort_gives_spec_trend (pandas : Pandas) `{Numpy} (df : DataFrame) :
  PandasLaws pandas →
  (∀ A (key : A → option Z) (l : list A),
     @sort_by pandas A key l = stable_sort key l) →
  Forall cleaned (rows df) →
  @trend_points pandas _ df = spec_cumulativeTrend df.
Proof.
  intros laws Hsort Hdf. rewrite (trend_points_cleaned df Hdf), Hsort.
  unfold spec_cumulativeTrend, dated. by rewrite filter_stable_sort.
Qed.

(** * Further properties of the script *)

(** ** What [load_data] returns, as a whole *)

Section LoadedFrame.
Context `{Pandas} `{Numpy} `{Worksheet Sheet}.

(** A frame that is not empty can only come from the last line of
    [load_data]. *)
Lemma load_data_nonempty (sheet : Sheet) :
  empty (load_data sheet).1 = false →
  ∃ data, get_all_records sheet = inr data
    ∧ empty (pd_DataFrame data) = false
    ∧ (∀ c, c ∈ required_cols → c ∈ columns (pd_DataFrame data))
    ∧ load_data sheet = (clean (pd_DataFrame data), []).
Proof.
  unfold load_data. destruct (get_all_records sheet) as [e|data]; [done|].
  destruct (empty (pd_DataFrame data)) eqn:He; [cbn [fst]; congruence|].
  destruct (List.find _ _) eqn:Hfind; [done|].
  intros _. exists data. by rewrite find_missing_None in Hfind.
Qed.

Lemma clean_columns (df : DataFrame) :
  columns (clean df)
  = {["Beli Emas (Rp)"]} ∪ ({["Investasi Saham"]} ∪ ({["Pengeluaran"]}
      ∪ ({["Pemasukan"]} ∪ ({["Gram Emas"]} ∪ ({["Jumlah (Rp)"]}
      ∪ ({["Tanggal"]} ∪ columns df)))))).
Proof. reflexivity. Qed.

Lemma finish_row_numeric (fa fg : bool) (r : row) (c : string) :
  c ∈ ["Jumlah (Rp)"; "Gram Emas"; "Pemasukan"; "Pengeluaran";
       "Investasi Saham"; "Beli Emas (Rp)"] →
  ∃ q, loc (finish_row fa fg r) c = VNum q.
Proof.
  intros Hc.
  repeat (apply elem_of_cons in Hc as [->|Hc]);
    [..|by apply elem_of_nil in Hc];
    unfold finish_row, bucket; loc_simpl;
    try apply coerce_numeric;
    (destruct (eq_str _ _); [apply coerce_numeric|by eexists]).
Qed.

(** X1.  [load_data] shows at most one message, and when it shows one the
    frame it returns is the fresh [pd.DataFrame()]: rows never come together
    with an error. *)
Theorem message_means_no_rows (sheet : Sheet) :
  (load_data sheet).2 = []
  ∨ ∃ m, (load_data sheet).2 = [m]
       ∧ (load_data sheet).1 = pd_DataFrame_new
       ∧ rows (load_data sheet).1 = []
       ∧ ((∃ e, m = FetchFailed e)
          ∨ ∃ c, m = ColumnMissing c ∧ c ∈ required_cols).
Proof.
  unfold load_data. destruct (get_all_records sheet) as [e|data].
  { right. exists (FetchFailed e). repeat split; eauto. }
  destruct (empty (pd_DataFrame data)); [by left|].
  destruct (List.find _ _) as [c|] eqn:Hfind; [|by left].
  right. exists (ColumnMissing c). apply find_missing_Some in Hfind as [? _].
  repeat split; eauto.
Qed.

(** X2.  A frame [load_data] returns non-empty is cleaned throughout: no
    message was shown, the five required and the four derived columns are
    there, and in every row the date is a timestamp or NaT and the amount,
    the grams and the four buckets are numbers. *)
Theorem loaded_frame_is_clean (sheet : Sheet) :
  empty (load_data sheet).1 = false →
  (load_data sheet).2 = []
  ∧ (∀ c, c ∈ required_cols ++ ["Pemasukan"; "Pengeluaran"; "Investasi Saham";
                                  "Beli Emas (Rp)"] →
          c ∈ columns (load_data sheet).1)
  ∧ ∀ r, r ∈ rows (load_data sheet).1 →
      (∃ o, date_of r = of_time o)
      ∧ ∀ c, c ∈ ["Jumlah (Rp)"; "Gram Emas"; "Pemasukan"; "Pengeluaran";
                   "Investasi Saham"; "Beli Emas (Rp)"] →
             ∃ q, loc r c = VNum q.
Proof.
  intros (data & _ & _ & Hall & ->)%load_data_nonempty. cbn [fst snd].
  split; [done|]. split.
  - intros c [Hc|Hc]%elem_of_app; rewrite clean_columns.
    + apply Hall in Hc. set_unfold. tauto.
    + repeat (apply elem_of_cons in Hc as [->|Hc]);
        [..|by apply elem_of_nil in Hc]; set_unfold; tauto.
  - intros r Hr. split.
    + pose proof (clean_cleaned (pd_DataFrame data)) as Hc.
      eapply Forall_forall in Hc; [|done]. apply Hc.
    + rewrite clean_rows in Hr.
      apply list_elem_of_fmap in Hr as (r0 & -> & _).
      apply finish_row_numeric.
Qed.
End LoadedFrame.

(** ** [format_rp] *)

Lemma replace_char_app (old new : ascii) (s1 s2 : string) :
  replace_char old new (s1 +:+ s2)
  = replace_char old new s1 +:+ replace_char old new s2.
Proof. induction s1 as [|a s1 IH]; simpl; [done|]. by rewrite IH. Qed.

Lemma replace_char_list (old new : ascii) (l : list ascii) :
  replace_char old new (string_of_list_ascii l)
  = string_of_list_ascii ((λ a, if Ascii.eqb a old then new else a) <$> l).
Proof. induction l as [|a l IH]; simpl; [done|]. by rewrite IH. Qed.

Lemma replace_chain_list (l : list ascii) :
  replace_char "X" "." (replace_char "." "," (replace_char "," "X"
    (string_of_list_ascii l)))
  = string_of_list_ascii (dots_for_commas <$> l).
Proof.
  by rewrite !replace_char_list, <- !list_fmap_compose.
Qed.

(** Induction along the recursion of [group3_rev]. *)
Lemma group3_rev_ind (P : list ascii → Prop) :
  (∀ l, (length l ≤ 3)%nat → P l) →
  (∀ a b c d l, P (d :: l) → P (a :: b :: c :: d :: l)) →
  ∀ l, P l.
Proof.
  intros Hshort Hstep l.
  remember (length l) as n eqn:Hn. revert l Hn.
  induction (lt_wf n) as [n _ IH]. intros l ->.
  destruct l as [|a [|b [|c [|d l]]]]; try (apply Hshort; cbn; lia).
  apply Hstep. eapply IH; [|done]. cbn. lia.
Qed.

Lemma group3_rev_fmap (g : ascii → ascii) (sep : ascii) (l : list ascii) :
  g <$> group3_rev sep l = group3_rev (g sep) (g <$> l).
Proof.
  induction l as [l Hl|a b c d l IH] using group3_rev_ind.
  - by destruct l as [|a [|b [|c [|d l]]]]; [..|cbn in Hl; lia].
  - change (group3_rev sep (a :: b :: c :: d :: l))
      with (a :: b :: c :: sep :: group3_rev sep (d :: l)).
    rewrite !fmap_cons, IH. done.
Qed.

Lemma is_digit_plain (a : ascii) : is_digit a → plain a.
Proof.
  unfold is_digit. cbn. intros Ha.
  repeat (apply elem_of_cons in Ha as [->|Ha]; [reflexivity|]).
  by apply elem_of_nil in Ha.
Qed.

Lemma pretty_N_char_digit (x : N) : is_digit (pretty_N_char x).
Proof. unfold pretty_N_char, is_digit. cbn. repeat case_match; listed. Qed.

Lemma pretty_N_go_digits (x : N) (s : string) :
  Forall is_digit (list_ascii_of_string s) →
  Forall is_digit (list_ascii_of_string (pretty_N_go x s)).
Proof.
  revert s. induction (N.lt_wf_0 x) as [x _ IH]; intros s Hs.
  destruct (decide (x = 0%N)) as [->|Hx]; [by rewrite pretty_N_go_0|].
  rewrite pretty_N_go_step by lia. apply IH.
  - apply N.div_lt; lia.
  - cbn. constructor; [apply pretty_N_char_digit|done].
Qed.

Lemma pretty_N_digits (x : N) : Forall is_digit (list_ascii_of_string (pretty x)).
Proof.
  unfold pretty, pretty_N. case_decide.
  - repeat constructor.
  - apply pretty_N_go_digits. constructor.
Qed.

Lemma pretty_N_plain (x : N) : Forall plain (list_ascii_of_string (pretty x)).
Proof.
  eapply Forall_impl; [apply pretty_N_digits|]. apply is_digit_plain.
Qed.

Lemma group3_rev_filter (sep : ascii) (l : list ascii) :
  Forall (λ a, a ≠ sep) l →
  filter (λ a, a ≠ sep) (group3_rev sep l) = l.
Proof.
  induction l as [l Hl|a b c d l IH] using group3_rev_ind; intros Hne.
  - assert (group3_rev sep l = l) as ->
      by (by destruct l as [|a [|b [|c [|d l]]]]; [..|cbn in Hl; lia]).
    clear Hl. induction Hne as [|a l Ha _ IH]; [done|].
    by rewrite filter_cons_True, IH.
  - change (group3_rev sep (a :: b :: c :: d :: l))
      with (a :: b :: c :: sep :: group3_rev sep (d :: l)).
    apply Forall_cons in Hne as [Ha [Hb [Hc Hne]%Forall_cons]%Forall_cons].
    rewrite !filter_cons_True by done.
    rewrite filter_cons_False by (intros Hs; by apply Hs).
    by rewrite IH.
Qed.

Lemma plain_not_dot (a : ascii) : plain a → a ≠ "."%char.
Proof. by intros Ha ->. Qed.

Lemma fmap_plain (l : list ascii) :
  Forall plain l → dots_for_commas <$> l = l.
Proof.
  induction 1 as [|a l Ha _ IH]; [done|]. by rewrite fmap_cons, Ha, IH.
Qed.

(** The replacements turn the comma grouping of plain characters into the
    dot grouping. *)
Lemma replace_chain_group3 (digits : string) :
  Forall plain (list_ascii_of_string digits) →
  replace_char "X" "." (replace_char "." "," (replace_char "," "X"
    (group3 "," digits)))
  = group3 "." digits.
Proof.
  intros Hd. unfold group3.
  rewrite replace_chain_list, fmap_reverse, group3_rev_fmap, fmap_reverse.
  by rewrite (fmap_plain _ Hd).
Qed.

Lemma replace_chain_app (s1 s2 : string) :
  replace_char "X" "." (replace_char "." "," (replace_char "," "X" (s1 +:+ s2)))
  = replace_char "X" "." (replace_char "." "," (replace_char "," "X" s1))
    +:+ replace_char "X" "." (replace_char "." "," (replace_char "," "X" s2)).
Proof. by rewrite !replace_char_app. Qed.



Lemma elem_of_group3_rev (sep a : ascii) (l : list ascii) :
  a ∈ group3_rev sep l → a = sep ∨ a ∈ l.
Proof.
  induction l as [l Hl|x y z d l IH] using group3_rev_ind.
  - assert (group3_rev sep l = l) as ->
      by (by destruct l as [|x [|y [|z [|d l]]]]; [..|cbn in Hl; lia]).
    auto.
  - change (group3_rev sep (x :: y :: z :: d :: l))
      with (x :: y :: z :: sep :: group3_rev sep (d :: l)).
    rewrite !elem_of_cons. intros [->|[->|[->|[->|Ha]]]]; auto.
    apply IH in Ha as [->|Ha]; auto.
    right. do 3 right. by apply elem_of_cons.
Qed.


Lemma float_overflow_large : (inject_Z (2 ^ 53) < float_overflow)%Q.
Proof. unfold float_overflow. rewrite <- Zlt_Qlt. by vm_compute. Qed.

Lemma sign_of_Z (n : Z) : sign_of (inject_Z n) = if n <? 0 then "-" else "".
Proof.
  unfold sign_of. destruct (Qlt_le_dec (inject_Z n) 0) as [Hn|Hn];
    unfold Qlt, Qle in Hn; cbn in Hn; destruct (Z.ltb_spec n 0); lia || done.
Qed.

Lemma round_half_even_Z (n : Z) : round_half_even (inject_Z n) = n.
Proof.
  unfold round_half_even. rewrite Qfloor_Z.
  assert ((inject_Z n - inject_Z n ?= 1 # 2)%Q = Lt) as ->; [|done].
  apply (proj1 (Qlt_alt _ _)). unfold Qlt. cbn. lia.
Qed.

Lemma whole_of_Z (n : Z) : whole_of (inject_Z n) = Z.to_N (Z.abs n).
Proof.
  unfold whole_of.
  change (Qabs (inject_Z n)) with (inject_Z (Z.abs n)).
  by rewrite round_half_even_Z.
Qed.

(** Dropping the dots of a dot grouping gives the digits back. *)
Lemma group3_digits (digits : string) :
  Forall is_digit (list_ascii_of_string digits) →
  string_of_list_ascii
    (filter (λ a, a ≠ "."%char) (list_ascii_of_string (group3 "." digits)))
  = digits.
Proof.
  intros Hd. unfold group3.
  rewrite list_ascii_of_string_of_list_ascii, filter_reverse, group3_rev_filter.
  - by rewrite reverse_involutive, string_of_list_ascii_of_string.
  - apply Forall_reverse. eapply Forall_impl; [exact Hd|].
    intros a Ha ->. revert Ha. unfold is_digit. cbn.
    intros Ha. repeat (apply elem_of_cons in Ha as [Ha|Ha]; [discriminate|]).
    by apply elem_of_nil in Ha.
Qed.

Lemma group3_no_minus (digits : string) (s : string) :
  Forall is_digit (list_ascii_of_string digits) →
  group3 "." digits ≠ "-" +:+ s.
Proof.
  intros Hd Heq.
  assert (Hin : "-"%char ∈ list_ascii_of_string (group3 "." digits)).
  { rewrite Heq. cbn. apply list_elem_of_here. }
  unfold group3 in Hin.
  rewrite list_ascii_of_string_of_list_ascii, elem_of_reverse in Hin.
  apply elem_of_group3_rev in Hin as [?|Hin]; [discriminate|].
  rewrite elem_of_reverse in Hin. eapply Forall_forall in Hd; [|done].
  revert Hd. unfold is_digit. cbn. intros Ha.
  repeat (apply elem_of_cons in Ha as [Ha|Ha]; [discriminate|]).
  by apply elem_of_nil in Ha.
Qed.

Section FormatFacts.
Context {numpy : Numpy}.

(** The text for a number that can be converted to a float [x]. *)
Lemma format_rp_float (q x : Q) :
  py_float q = inr x →
  format_rp (Number q) = "Rp " +:+ sign_of x +:+ group3 "." (pretty (whole_of x)).
Proof.
  intros Hx. unfold format_rp, f_string_rp. rewrite Hx.
  unfold format_comma_0f. fold (sign_of x) (whole_of x).
  rewrite !replace_chain_app, replace_chain_group3 by apply pretty_N_plain.
  unfold sign_of. by destruct (Qlt_le_dec x 0).
Qed.


Context {laws : NumpyLaws numpy}.

Lemma py_float_fits (q : Q) : fits q → py_float q = inr q.
Proof.
  intros Hq. unfold py_float. rewrite float64_exact by done.
  destruct (Qle_bool float_overflow (Qabs q)) eqn:Hle; [|done].
  apply Qle_bool_iff in Hle. apply fits_bound in Hq.
  pose proof float_overflow_large. lra.
Qed.


(** ** Reading a printed amount back *)

Lemma format_rp_Z (n : Z) :
  Z.abs n ≤ 2 ^ 53 →
  format_rp (Number (inject_Z n))
  = "Rp " +:+ (if n <? 0 then "-" else "")
    +:+ group3 "." (pretty (Z.to_N (Z.abs n))).
Proof.
  intros Hn. rewrite (format_rp_float _ (inject_Z n)).
  - by rewrite sign_of_Z, whole_of_Z.
  - by apply py_float_fits, fits_Z.
Qed.

(** X4.  Two different whole amounts of at most 53 bits are never printed
    alike: the text [format_rp] shows determines the integer it was
    given. *)
Theorem format_rp_distinct (n m : Z) :
  Z.abs n ≤ 2 ^ 53 → Z.abs m ≤ 2 ^ 53 →
  n ≠ m → format_rp (Number (inject_Z n)) ≠ format_rp (Number (inject_Z m)).
Proof.
  intros Hn Hm Hne Heq. apply Hne. revert Heq.
  rewrite !format_rp_Z by done. intros Heq. simpl in Heq. injection Heq as Heq.
  assert (Hgroup : ∀ k l : Z,
            group3 "." (pretty (Z.to_N (Z.abs k)))
            = group3 "." (pretty (Z.to_N (Z.abs l))) → Z.abs k = Z.abs l).
  { intros k l Hkl. apply (f_equal (λ s, string_of_list_ascii
      (filter (λ a, a ≠ "."%char) (list_ascii_of_string s)))) in Hkl.
    rewrite !group3_digits in Hkl by apply pretty_N_digits.
    apply (inj pretty) in Hkl. lia. }
  destruct (Z.ltb_spec n 0), (Z.ltb_spec m 0); simpl in Heq.
  - injection Heq as Heq. apply Hgroup in Heq. lia.
  - symmetry in Heq. by apply group3_no_minus in Heq; [|apply pretty_N_digits].
  - by apply group3_no_minus in Heq; [|apply pretty_N_digits].
  - apply Hgroup in Heq. lia.
Qed.
End FormatFacts.

(** An amount the format rejects is shown as "Rp 0", the text of the number
    zero. *)
Example format_rp_fallback (e : exn) :
  @format_rp numpy64 (Unformattable e) = @format_rp numpy64 (Number 0).
Proof. reflexivity. Qed.

(** Past 53 bits two whole amounts can be printed alike, and an int too
    large for a float is printed as zero. *)
Example format_rp_large :
  @format_rp numpy64 (Number 9007199254740993) = "Rp 9.007.199.254.740.992"
  ∧ @format_rp numpy64 (Number 9007199254740992) = "Rp 9.007.199.254.740.992"
  ∧ @format_rp numpy64 (Number (inject_Z (10 ^ 400))) = "Rp 0".
Proof. repeat split; by vm_compute. Qed.

(** ** The handler *)

Section Handler.
Context `{Pandas} `{Numpy} `{Worksheet Sheet}.

(** X5.  Whatever [append_row] does, no exception leaves the handler, and
    the handler ends in a rerun of the script exactly when it has cleared
    the cache of [load_data]. *)
Theorem submit_handler_never_raises (d : Draft) (s : Session Sheet) (e : exn) :
  (submit_handler d s).1 ≠ Raised e
  ∧ ((submit_handler d s).1 = Rerun
     ↔ CacheClear ∈ new_events s (submit_handler d s).2).
Proof.
  destruct (submit d) eqn:Hs.
  2:{ unfold submit_handler, new_events. rewrite Hs. cbn.
      rewrite drop_all. split; [done|]. split; [done|by intros ?%elem_of_nil]. }
  destruct (decide ((jumlah_rp d =? 0) && Qeq_bool (gram_emas d) 0 = true))
    as [Hd|Hd]; rewrite nothing_entered_check in Hd.
  - rewrite submit_handler_rejects by done. cbn [fst snd].
    erewrite new_events_app by done. split; [done|]. split; [done|].
    intros [?|?%elem_of_nil]%elem_of_cons; done.
  - destruct (append_row (row_data d) (sheet s)) as [e'|sheet'] eqn:Happ.
    + rewrite (submit_handler_failed _ _ e') by done. cbn [fst snd].
      erewrite new_events_app by done. split; [done|]. split; [done|].
      intros [?|[?|?%elem_of_nil]%elem_of_cons]%elem_of_cons; done.
    + rewrite (submit_handler_saved _ _ sheet') by done. cbn [fst snd].
      erewrite new_events_app by done. split; [done|]. split; [|done].
      intros _. listed.
Qed.
End Handler.

(** ** The saved draft *)

Lemma fmap_imap_ext {A B C} (f : B → C) (g : nat → A → B) (h : A → C)
    (l : list A) :
  (∀ i a, f (g i a) = h a) → f <$> imap g l = h <$> l.
Proof.
  intros Hfg. apply list_eq; intros i.
  rewrite !list_lookup_fmap, list_lookup_imap.
  destruct (l !! i); cbn; [by rewrite Hfg|done].
Qed.

Section SavedDraft.
Context `{Pandas} {numpy : Numpy} `{Worksheet Sheet}.

Lemma date_row_loc (dates : list (option Z)) (i : nat) (r : row) (c : string) :
  c ≠ "Tanggal" → loc (date_row dates i r) c = loc r c.
Proof. intros Hc. unfold date_row. by rewrite loc_insert_ne. Qed.

Lemma coerce_number (fl : bool) (q : Q) :
  coerce fl (VNum q) = VNum (if fl then float64 q else q).
Proof. by destruct fl. Qed.

(** The cells of a cleaned row, read off its record. *)
Lemma cleaned_bucket (fa fg : bool) (dates : list (option Z)) (i : nat)
    (r : row) (t : TransactionType) :
  bucket_of t (finish_row fa fg (date_row dates i r))
  = if eq_str (type_of r) (label t)
    then num (coerce fa (loc r "Jumlah (Rp)")) else 0%Q.
Proof.
  rewrite finish_row_bucket. unfold amount, type_of.
  by rewrite finish_row_amount, !date_row_loc.
Qed.

Lemma cleaned_gram (fa fg : bool) (dates : list (option Z)) (i : nat) (r : row) :
  goldGrams (finish_row fa fg (date_row dates i r))
  = num (coerce fg (loc r "Gram Emas")).
Proof.
  unfold goldGrams. by rewrite finish_row_gram, date_row_loc.
Qed.

Lemma cleaned_amount (fa fg : bool) (dates : list (option Z)) (i : nat) (r : row) :
  amount (finish_row fa fg (date_row dates i r))
  = num (coerce fa (loc r "Jumlah (Rp)")).
Proof.
  unfold amount. by rewrite finish_row_amount, date_row_loc.
Qed.

Lemma record_of_lookup (d : Draft) :
  loc (record_of d) "Tanggal" = VStr (strftime (tanggal d))
  ∧ loc (record_of d) "Tipe Transaksi" = VStr (transaction_type d)
  ∧ loc (record_of d) "Keterangan" = VStr (keterangan d)
  ∧ loc (record_of d) "Jumlah (Rp)" = VNum (inject_Z (jumlah_rp d))
  ∧ loc (record_of d) "Gram Emas" = VNum (gram_emas d).
Proof.
  unfold record_of, row_data, required_cols.
  cbn [zip zip_with list_to_map foldr fst snd]. repeat split; by loc_simpl.
Qed.

Lemma record_of_dom (d : Draft) (c : string) :
  c ∈ required_cols → c ∈ dom (record_of d).
Proof.
  intros Hc. apply elem_of_dom. unfold record_of, row_data, required_cols in *.
  cbn [zip zip_with list_to_map foldr fst snd].
  repeat (apply elem_of_cons in Hc as [->|Hc];
          [rewrite ?lookup_insert_ne by done; rewrite lookup_insert_eq; eauto|]).
  by apply elem_of_nil in Hc.
Qed.

(** Records that end with the record of a draft pass both checks of
    [load_data]. *)
Lemma saved_records_load (sheet : Sheet) (data : list row) (d : Draft) :
  get_all_records sheet = inr (data ++ [record_of d]) →
  load_data sheet = (clean (pd_DataFrame (data ++ [record_of d])), []).
Proof.
  intros Hget.
  assert (Hcols : ∀ c, c ∈ required_cols →
            c ∈ columns (pd_DataFrame (data ++ [record_of d]))).
  { intros c Hc. cbn [columns pd_DataFrame]. apply elem_of_union_list.
    exists (dom (record_of d)). split; [|by apply record_of_dom].
    apply list_elem_of_fmap. exists (record_of d). split; [done|].
    apply elem_of_app. right. apply list_elem_of_here. }
  apply load_data_clean; [done| |done].
  unfold empty. apply orb_false_iff. split; apply bool_decide_eq_false.
  - intros Hempty.
    assert (Hin : "Tanggal" ∈ columns (pd_DataFrame (data ++ [record_of d])))
      by (apply Hcols; unfold required_cols; listed).
    rewrite Hempty in Hin. by apply not_elem_of_empty in Hin.
  - cbn [rows pd_DataFrame]. rewrite length_app. cbn. lia.
Qed.

(** X7.  When the sheet hands back its old records followed by the cells of
    a saved draft under the five headers, and the amount and the grams of
    the draft are numbers a float64 holds (as the numbers of the form are),
    [load_data] shows no message, keeps every record, and its last row
    carries the draft: its type and description as text, its amount and
    grams as numbers, and the amount in the bucket of its type. *)
Theorem saved_draft_reloaded (sheet : Sheet) (data : list row) (d : Draft) :
  get_all_records sheet = inr (data ++ [record_of d]) →
  float64 (inject_Z (jumlah_rp d)) = inject_Z (jumlah_rp d) →
  float64 (gram_emas d) = gram_emas d →
  (load_data sheet).2 = []
  ∧ empty (load_data sheet).1 = false
  ∧ length (rows (load_data sheet).1) = S (length data)
  ∧ ∃ r, last (rows (load_data sheet).1) = Some r
      ∧ type_of r = VStr (transaction_type d)
      ∧ loc r "Keterangan" = VStr (keterangan d)
      ∧ loc r "Jumlah (Rp)" = VNum (inject_Z (jumlah_rp d))
      ∧ loc r "Gram Emas" = VNum (gram_emas d)
      ∧ ∀ t, transaction_type d = label t →
             bucket_of t r = inject_Z (jumlah_rp d)
             ∧ ∀ t', t' ≠ t → bucket_of t' r = 0%Q.
Proof.
  intros Hget Hrp Hgram.
  rewrite (saved_records_load sheet data d Hget). cbn [fst snd].
  split; [done|]. split.
  { unfold empty. apply orb_false_iff. split; apply bool_decide_eq_false.
    - rewrite clean_columns. intros Hc.
      assert (Hin : "Tanggal" ∈@{gset string} ∅)
        by (rewrite <- Hc; set_unfold; tauto).
      by apply not_elem_of_empty in Hin.
    - rewrite clean_rows, length_fmap, length_imap. cbn [rows pd_DataFrame].
      rewrite length_app. cbn. lia. }
  rewrite clean_rows. cbn [rows pd_DataFrame]. split.
  { rewrite length_fmap, length_imap, length_app. cbn. lia. }
  set (dates := to_datetime _). set (fa := is_float _). set (fg := is_float _).
  exists (finish_row fa fg (date_row dates (length data) (record_of d))).
  destruct (record_of_lookup d) as (_ & Hty & Hket & Ha & Hg).
  split.
  { rewrite fmap_last, imap_app. cbn [imap]. rewrite last_snoc. cbn.
    by rewrite Nat.add_0_r. }
  rewrite finish_row_type, finish_row_amount, finish_row_gram.
  rewrite finish_row_loc_other by not_listed.
  unfold type_of. rewrite !date_row_loc by done.
  rewrite Hty, Hket, Ha, Hg, !coerce_number, Hrp, Hgram.
  split; [done|]. split; [done|].
  split; [by destruct fa|]. split; [by destruct fg|].
  intros t Ht. split.
  - rewrite cleaned_bucket. unfold type_of.
    rewrite Hty, Ha, Ht, eq_str_label, coerce_number, Hrp.
    rewrite bool_decide_eq_true_2 by done. by destruct fa.
  - intros t' Hne. rewrite cleaned_bucket. unfold type_of.
    rewrite Hty, Ht, eq_str_label. by rewrite bool_decide_eq_false_2.
Qed.
End SavedDraft.

Section SavedEffect.
Context `{Pandas} {numpy : Numpy} {laws : NumpyLaws numpy} `{Worksheet Sheet}.

Lemma is_float_app (vs ws : list value) :
  is_float (vs ++ ws) = is_float vs || is_float ws.
Proof.
  unfold is_float. rewrite fmap_app, forallb_app. by destruct (forallb _ _).
Qed.

Lemma col_app (data more : list row) (c : string) :
  col (pd_DataFrame (data ++ more)) c
  = col (pd_DataFrame data) c ++ col (pd_DataFrame more) c.
Proof. unfold col. cbn [rows pd_DataFrame]. by rewrite fmap_app. Qed.

(** A cell whose reading fits is not changed by the cast of its column. *)
Lemma coerce_fits (fl : bool) (v : value) :
  fits (num (coerce false v)) → coerce fl v = coerce false v.
Proof.
  destruct fl; [|done]. unfold coerce.
  destruct (read_cell v) as [s|q|t|]; cbn; try done.
  intros Hq. by rewrite float64_exact.
Qed.

(** The columns of the frame loaded after a save: those of the frame loaded
    before it, and the cells of the draft. *)
Lemma saved_columns (sheet sheet' : Sheet) (data : list row) (d : Draft) :
  get_all_records sheet = inr data →
  empty (load_data sheet).1 = false →
  get_all_records sheet' = inr (data ++ [record_of d]) →
  float64 (inject_Z (jumlah_rp d)) = inject_Z (jumlah_rp d) →
  float64 (gram_emas d) = gram_emas d →
  exact_sum (goldGrams <$> rows (load_data sheet).1) →
  (∀ t, bucket_of t <$> rows (load_data sheet').1
        = (bucket_of t <$> rows (load_data sheet).1)
          ++ [if String.eqb (transaction_type d) (label t)
              then inject_Z (jumlah_rp d) else 0%Q])
  ∧ amount <$> rows (load_data sheet').1
    = (amount <$> rows (load_data sheet).1) ++ [inject_Z (jumlah_rp d)]
  ∧ goldGrams <$> rows (load_data sheet').1
    = (goldGrams <$> rows (load_data sheet).1) ++ [gram_emas d].
Proof.
  intros Hget (data' & Hget' & _ & _ & Hload)%load_data_nonempty Hget2 Hrp Hgram.
  assert (data' = data) as -> by congruence.
  rewrite Hload, (saved_records_load sheet' data d Hget2). cbn [fst].
  rewrite !clean_rows. cbn [rows pd_DataFrame].
  rewrite !col_app.
  set (dates := to_datetime (col (pd_DataFrame data) "Tanggal")).
  set (dates' := to_datetime _).
  set (fa := is_float (col (pd_DataFrame data) "Jumlah (Rp)")).
  set (fg := is_float (col (pd_DataFrame data) "Gram Emas")).
  destruct (record_of_lookup d) as (_ & Hty & _ & Ha & Hg).
  assert (Hfa : is_float (col (pd_DataFrame data) "Jumlah (Rp)"
                          ++ col (pd_DataFrame [record_of d]) "Jumlah (Rp)")
                = fa).
  { rewrite is_float_app. fold fa. unfold col. cbn [rows pd_DataFrame fmap list_fmap].
    rewrite Ha. unfold is_float. cbn [fmap list_fmap forallb read_cell int_cell].
    rewrite (is_whole_Z _ (jumlah_rp d)) by reflexivity.
    by rewrite orb_false_r. }
  rewrite Hfa. set (fg' := is_float (_ ++ _)).
  intros Hex.
  rewrite <- !list_fmap_compose in Hex.
  rewrite (fmap_imap_ext _ _ (λ r, num (coerce fg (loc r "Gram Emas")))) in Hex
    by (intros i r; apply cleaned_gram).
  assert (Hold : ∀ r, r ∈ data →
            coerce fg' (loc r "Gram Emas") = coerce fg (loc r "Gram Emas")).
  { intros r Hr. destruct fg eqn:Hfg.
    - assert (fg' = true) as ->; [|done].
      unfold fg'. rewrite is_float_app. fold fg. by rewrite Hfg.
    - apply coerce_fits. apply (exact_sum_elem _ _ Hex).
      apply list_elem_of_fmap. by exists r. }
  split; [|split].
  - intros t. rewrite <- !list_fmap_compose.
    rewrite (fmap_imap_ext _ _
               (λ r, if eq_str (type_of r) (label t)
                     then num (coerce fa (loc r "Jumlah (Rp)")) else 0%Q))
      by (intros i r; apply cleaned_bucket).
    rewrite (fmap_imap_ext _ _
               (λ r, if eq_str (type_of r) (label t)
                     then num (coerce fa (loc r "Jumlah (Rp)")) else 0%Q))
      by (intros i r; apply cleaned_bucket).
    rewrite fmap_app. cbn [fmap list_fmap]. unfold type_of at 2.
    rewrite Hty, Ha, coerce_number, Hrp. cbn [eq_str num].
    by destruct fa.
  - rewrite <- !list_fmap_compose.
    rewrite !(fmap_imap_ext _ _ (λ r, num (coerce fa (loc r "Jumlah (Rp)"))))
      by (intros i r; apply cleaned_amount).
    rewrite fmap_app. cbn [fmap list_fmap].
    rewrite Ha, coerce_number, Hrp. by destruct fa.
  - rewrite <- !list_fmap_compose.
    rewrite (fmap_imap_ext _ _ (λ r, num (coerce fg' (loc r "Gram Emas"))))
      by (intros i r; apply cleaned_gram).
    rewrite (fmap_imap_ext _ _ (λ r, num (coerce fg (loc r "Gram Emas"))))
      by (intros i r; apply cleaned_gram).
    rewrite fmap_app. cbn [fmap list_fmap].
    rewrite Hg, coerce_number, Hgram. f_equal.
    + apply list_fmap_ext. intros i r Hr. cbn.
      rewrite Hold; [done|]. by eapply list_elem_of_lookup_2.
    + by destruct fg'.
Qed.

(** X8.  What a saved draft does to the figures of the dashboard, as long
    as the ledger stays in the range where 64-bit arithmetic is exact: the
    net cash flow grows by an income and shrinks by a daily expense and is
    left alone by stock savings and gold purchases; the estimated wealth
    moves with the cash flow, grows by stock savings and by 900000 per gram
    of gold, and ignores the rupiah paid for gold. *)
Theorem saved_draft_effect (sheet sheet' : Sheet) (data : list row) (d : Draft) :
  get_all_records sheet = inr data →
  empty (load_data sheet).1 = false →
  get_all_records sheet' = inr (data ++ [record_of d]) →
  float64 (inject_Z (jumlah_rp d)) = inject_Z (jumlah_rp d) →
  float64 (gram_emas d) = gram_emas d →
  exact_ledger (rows (load_data sheet).1) →
  exact_ledger (rows (load_data sheet').1) →
  (saldo_cashflow (load_data sheet').1
   == saldo_cashflow (load_data sheet).1 + cash_effect d)%Q
  ∧ (total_kekayaan (load_data sheet').1
     == total_kekayaan (load_data sheet).1
        + cash_effect d + stock_effect d + gram_emas d * 900000)%Q.
Proof.
  intros Hget He Hget2 Hrp Hgram Hex Hex'.
  destruct (saved_columns sheet sheet' data d Hget He Hget2 Hrp Hgram
              (proj2 Hex)) as (Hb & _ & Hg).
  destruct (exact_metrics sheet Hex) as (Hin & Hout & Hst & Hgr & Hsaldo & Hw).
  destruct (exact_metrics sheet' Hex')
    as (Hin' & Hout' & Hst' & Hgr' & Hsaldo' & Hw').
  cbn zeta in *.
  assert (Hsnoc : ∀ (xs : list Q) x,
            (foldr Qplus 0 (xs ++ [x]) == foldr Qplus 0 xs + x)%Q).
  { intros xs x. induction xs as [|y xs IH]; cbn; [ring|]. rewrite IH. ring. }
  unfold total_of in *.
  pose proof (Hb Pemasukan) as Hbi. pose proof (Hb PengeluaranHarian) as Hbe.
  pose proof (Hb TabunganSaham) as Hbs. cbn [label] in Hbi, Hbe, Hbs.
  change (bucket_of Pemasukan) with incomeAmount in Hbi.
  change (bucket_of PengeluaranHarian) with expenseAmount in Hbe.
  change (bucket_of TabunganSaham) with stockInvestmentAmount in Hbs.
  rewrite Hbi, Hsnoc, <- Hin in Hin'.
  rewrite Hbe, Hsnoc, <- Hout in Hout'.
  rewrite Hbs, Hsnoc, <- Hst in Hst'.
  rewrite Hg, Hsnoc, <- Hgr in Hgr'.
  rewrite Hw', Hw, Hsaldo', Hsaldo, Hin', Hout', Hst', Hgr'.
  unfold cash_effect, stock_effect.
  destruct (String.eqb_spec (transaction_type d) "Pemasukan") as [->|];
    [cbn; split; ring|].
  destruct (String.eqb_spec (transaction_type d) "Pengeluaran Harian") as [->|];
    [cbn; split; ring|].
  destruct (String.eqb (transaction_type d) "Tabungan Saham"); split; ring.
Qed.
End SavedEffect.

(** ** More on the trend *)

Lemma NoDup_fmap_eq {A B} (f : A → B) (l : list A) (x y : A) :
  NoDup (f <$> l) → x ∈ l → y ∈ l → f x = f y → x = y.
Proof.
  induction l as [|a l IH]; [by intros _ ?%elem_of_nil|].
  rewrite fmap_cons. intros [Ha Hl]%NoDup_cons.
  intros [->|Hx]%elem_of_cons [->|Hy]%elem_of_cons Hxy; auto.
  - destruct Ha. rewrite Hxy. apply list_elem_of_fmap. eauto.
  - destruct Ha. rewrite <- Hxy. apply list_elem_of_fmap. eauto.
Qed.

Lemma cleaned_date_of_key (r : row) :
  cleaned r → date_of r = of_time (date_key r).
Proof.
  intros ([o Ho] & _). unfold date_key. fold (date_of r). rewrite Ho.
  by destruct o.
Qed.

Lemma na_last_le_antisym (a b : option Z) :
  na_last_le a b → na_last_le b a → a = b.
Proof. destruct a, b; cbn; try done. intros. f_equal. lia. Qed.

Section TrendMore.
Context {pandas : Pandas} {laws : PandasLaws pandas} {numpy : Numpy}
        `{Worksheet Sheet}.

(** X9.  When no two dated rows of a loaded frame carry the same timestamp,
    the trend is settled by the dates alone: every [sort_values] that sorts
    gives the trend of the specification (rows dropped if undated, sorted
    stably, summed). *)
Theorem trend_without_ties (sheet : Sheet) :
  empty (load_data sheet).1 = false →
  NoDup (date_of <$> dated (rows (load_data sheet).1)) →
  trend_points (load_data sheet).1 = spec_cumulativeTrend (load_data sheet).1.
Proof.
  intros (data & _ & _ & _ & ->)%load_data_nonempty. cbn [fst].
  set (df := clean (pd_DataFrame data)). intros Hnodup.
  pose proof (clean_cleaned (pd_DataFrame data)) as Hc. fold df in Hc.
  rewrite (trend_points_cleaned df Hc). unfold spec_cumulativeTrend. f_equal.
  assert (Hperm1 : dated (sort_by date_key (rows df)) ≡ₚ dated (rows df)).
  { unfold dated. by rewrite sort_by_perm. }
  assert (Hperm2 : stable_sort date_key (dated (rows df)) ≡ₚ dated (rows df)).
  { apply (@sort_by_perm pandas_stable pandas_stable_laws). }
  apply (StronglySorted_unique_strong
           (λ a b, na_last_le (date_key a) (date_key b))).
  - intros x1 x2 Hx1 Hx2 H12 H21.
    rewrite Hperm1 in Hx1. rewrite Hperm2 in Hx2.
    apply (NoDup_fmap_eq date_of (dated (rows df))); try done.
    assert (Hcl : ∀ x, x ∈ dated (rows df) → cleaned x).
    { intros x [_ Hx]%list_elem_of_filter. by eapply Forall_forall in Hc. }
    rewrite !cleaned_date_of_key by auto.
    f_equal. by apply na_last_le_antisym.
  - apply filter_StronglySorted, sort_by_sorted.
  - apply (@sort_by_sorted pandas_stable pandas_stable_laws).
  - by rewrite Hperm1, Hperm2.
Qed.

Context {nlaws : NumpyLaws numpy}.

(** X10.  The chart has one point for each dated row, and, in the range
    where 64-bit arithmetic is exact, the net cash flow of the metric card is
    the value of the chart's last point plus the net cash flow of the rows
    that have no date: such rows count in the card and are missing from the
    chart. *)
Theorem card_and_chart (sheet : Sheet) :
  empty (load_data sheet).1 = false →
  length (trend_points (load_data sheet).1)
  = length (dated (rows (load_data sheet).1))
  ∧ (exact_sum (amount <$> rows (load_data sheet).1) →
     (saldo_cashflow (load_data sheet).1
      == final_value (trend_points (load_data sheet).1)
         + total_of cashflow (undated (rows (load_data sheet).1)))%Q).
Proof.
  intros He. pose proof (loaded_cleaned sheet He) as Hc. split.
  - rewrite (trend_points_cleaned _ Hc), points_over_length.
    unfold dated. by rewrite sort_by_perm.
  - intros Hex. rewrite (trend_final sheet He Hex).
    set (df := (load_data sheet).1) in *.
    destruct Hex as (k & Hk & Hg & Hb).
    destruct (cash_totals_exact sheet df k)
      as (I & E & S & _ & _ & _ & _ & Hin & _ & Hout & _ & _ & _ & Hsaldo);
      [done..|].
    rewrite Hsaldo, Hin, Hout.
    change (foldr Qplus 0%Q (cashflow <$> dated (rows df)))
      with (total_of cashflow (dated (rows df))).
    rewrite <- total_of_app.
    assert (Hsplit : dated (rows df) ++ undated (rows df) ≡ₚ rows df).
    { assert (undated (rows df)
              = filter (λ r, ¬ isna (date_of r) = false) (rows df)) as ->.
      { apply list_filter_iff. intros r. by destruct (isna (date_of r)). }
      apply filter_app_complement. }
    rewrite (total_of_perm _ _ _ Hsplit). symmetry.
    apply (sum_minus incomeAmount expenseAmount).
Qed.
End TrendMore.

(** ** The pie chart *)

Lemma insert_key_perm (k : value) (l : list value) : insert_key k l ≡ₚ k :: l.
Proof.
  induction l as [|y l IH]; cbn [insert_key]; [done|].
  destruct (key_before k y); [done|]. rewrite IH. apply Permutation_swap.
Qed.

Lemma sort_keys_perm (l : list value) : sort_keys l ≡ₚ l.
Proof.
  induction l as [|k l IH]; [done|].
  change (sort_keys (k :: l)) with (insert_key k (sort_keys l)).
  by rewrite insert_key_perm, IH.
Qed.

Lemma same_key_label (v : value) (l : string) :
  same_key v (VStr l) = eq_str v l.
Proof. by destruct v. Qed.

Lemma same_key_refl (v : value) : isna v = false → same_key v v = true.
Proof.
  destruct v; cbn; try done; intros _.
  - apply String.eqb_refl.
  - apply Qeq_bool_refl.
  - apply Z.eqb_refl.
Qed.

Lemma elem_of_unique_keys (k : value) (vs : list value) :
  k ∈ unique_keys vs → k ∈ vs.
Proof.
  induction vs as [|v vs IH]; cbn [unique_keys]; [done|].
  destruct (isna v).
  - intros Hk. apply list_elem_of_further. auto.
  - intros [->|[_ Hk]%list_elem_of_filter]%elem_of_cons.
    + apply list_elem_of_here.
    + apply list_elem_of_further. auto.
Qed.

Lemma unique_keys_NoDup (vs : list value) : NoDup (unique_keys vs).
Proof.
  induction vs as [|v vs IH]; cbn [unique_keys]; [constructor|].
  destruct (isna v) eqn:Hv; [done|]. apply NoDup_cons. split.
  - intros [Hk _]%list_elem_of_filter. by rewrite same_key_refl in Hk.
  - by apply NoDup_filter.
Qed.

Lemma group_total_label (f : row → Q) (df : DataFrame) (l : string) :
  group_total f df (VStr l) = total_of f (of_type l (rows df)).
Proof. done. Qed.

Lemma group_row_lookup `{Numpy} (df : DataFrame) (k : value) :
  loc (group_row df k) "Tipe Transaksi" = k
  ∧ loc (group_row df k) "Jumlah (Rp)" = VNum (key_total df k).
Proof.
  unfold group_row, loc. split.
  - rewrite lookup_insert_ne by done. by rewrite lookup_singleton_eq.
  - by rewrite lookup_insert_eq.
Qed.

Lemma filter_fmap_comm {A B} (f : A → B) (P : B → Prop)
    `{∀ x, Decision (P x)} (l : list A) :
  filter P (f <$> l) = f <$> filter (λ a, P (f a)) l.
Proof.
  induction l as [|a l IH]; [done|].
  rewrite fmap_cons, !filter_cons, IH. by case_decide.
Qed.

Lemma flow_df_rows `{Numpy} (df : DataFrame) :
  rows (flow_df df)
  = group_row df
      <$> filter (λ k, isin ["Pengeluaran Harian"; "Tabungan Saham"; "Beli Emas"] k
                       = true)
                 (sort_keys (unique_keys (col df "Tipe Transaksi"))).
Proof.
  unfold flow_df, groupby_sum. cbn [rows]. by rewrite filter_fmap_comm.
Qed.

Lemma isin_label (labels : list string) (v : value) :
  isin labels v = true ↔ ∃ l, l ∈ labels ∧ v = VStr l.
Proof.
  unfold isin. rewrite existsb_exists. split.
  - intros (l & Hl & Hv). exists l. split; [by apply list_elem_of_In|].
    destruct v; try done. cbn in Hv. by apply String.eqb_eq in Hv as ->.
  - intros (l & Hl & ->). exists l. split; [by apply list_elem_of_In|].
    cbn. apply String.eqb_refl.
Qed.

Lemma sum_if_filter {A} (f : A → Q) (P : A → bool) (l : list A) :
  (foldr Qplus 0 ((λ a, if P a then f a else 0) <$> l)
   == foldr Qplus 0 (f <$> filter (λ a, P a = true) l))%Q.
Proof.
  induction l as [|a l IH]; [reflexivity|].
  rewrite filter_cons, fmap_cons. cbn [foldr].
  destruct (P a); case_decide; try done.
  - rewrite fmap_cons. cbn [foldr]. by rewrite IH.
  - rewrite IH. ring.
Qed.

Lemma sum_plus {A} (f g : A → Q) (l : list A) :
  (foldr Qplus 0 ((λ a, f a + g a) <$> l)
   == foldr Qplus 0 (f <$> l) + foldr Qplus 0 (g <$> l))%Q.
Proof. induction l as [|a l IH]; cbn; [ring|]. rewrite IH. ring. Qed.

Lemma sum_zero {A} (f : A → Q) (l : list A) :
  (∀ a, a ∈ l → f a = 0%Q) → (foldr Qplus 0 (f <$> l) == 0)%Q.
Proof.
  induction l as [|a l IH]; intros Hf; cbn; [reflexivity|].
  rewrite (Hf a) by apply list_elem_of_here.
  rewrite IH; [ring|]. intros b Hb. apply Hf. by apply list_elem_of_further.
Qed.

(** Among the distinct keys of a column a label is met once if a cell holds
    it and not at all otherwise. *)
Lemma unique_keys_label_sum (vs : list value) (l : string) (c : Q) :
  (foldr Qplus 0 ((λ k, if eq_str k l then c else 0) <$> unique_keys vs)
   == if existsb (λ v, eq_str v l) vs then c else 0)%Q.
Proof.
  induction vs as [|v vs IH]; cbn [unique_keys existsb]; [reflexivity|].
  destruct (isna v) eqn:Hna.
  { assert (eq_str v l = false) as -> by by destruct v. exact IH. }
  rewrite fmap_cons. cbn [foldr]. destruct (eq_str v l) eqn:Hv; cbn [orb].
  - rewrite sum_zero; [ring|].
    intros k [Hk _]%list_elem_of_filter.
    destruct (eq_str k l) eqn:Hkl; [|done].
    destruct v as [s| | |], k as [s'| | |]; try done. cbn in *.
    apply String.eqb_eq in Hv as ->. apply String.eqb_eq in Hkl as ->.
    by rewrite String.eqb_refl in Hk.
  - rewrite <- IH, Qplus_0_l.
    assert (filter (λ k, same_key k v = false) (unique_keys vs)
            = filter (λ k, negb (same_key k v) = true) (unique_keys vs)) as ->.
    { apply list_filter_iff. intros k. by destruct (same_key k v). }
    rewrite <- (sum_if_filter (λ k, if eq_str k l then c else 0%Q)
                  (λ k, negb (same_key k v))).
    apply sum_ext. intros k _. destruct (same_key k v) eqn:Hkv; [|reflexivity].
    cbn. destruct (eq_str k l) eqn:Hkl; [|reflexivity].
    destruct v as [s| | |], k as [s'| | |]; try done. cbn in *.
    apply String.eqb_eq in Hkv as ->. congruence.
Qed.
Lemma group_total_present (f : row → Q) (df : DataFrame) (l : string) :
  (group_total f df (VStr l)
   == if existsb (λ v, eq_str v l) (col df "Tipe Transaksi")
      then group_total f df (VStr l) else 0)%Q.
Proof.
  destruct (existsb _ _) eqn:Hex; [reflexivity|].
  rewrite group_total_label. unfold of_type, col in *.
  assert (filter (λ r, eq_str (type_of r) l = true) (rows df) = []) as ->;
    [|reflexivity].
  induction (rows df) as [|r rs IH]; [done|].
  rewrite fmap_cons in Hex. cbn [existsb] in Hex.
  apply orb_false_iff in Hex as [Hr Hrs].
  rewrite filter_cons_False; [by apply IH|]. unfold type_of. by rewrite Hr.
Qed.

Lemma label_total (f : row → Q) (df : DataFrame) (l : string) :
  (foldr Qplus 0
     ((λ k, if eq_str k l then group_total f df k else 0)
        <$> sort_keys (unique_keys (col df "Tipe Transaksi")))
   == group_total f df (VStr l))%Q.
Proof.
  rewrite (sum_perm _ ((λ k, if eq_str k l then group_total f df k else 0%Q)
                         <$> unique_keys (col df "Tipe Transaksi")))
    by (by rewrite sort_keys_perm).
  rewrite (sum_ext _ (λ k, if eq_str k l then group_total f df (VStr l) else 0%Q)).
  - rewrite unique_keys_label_sum. symmetry. apply group_total_present.
  - intros k _. destruct k as [s| | |]; try reflexivity. cbn.
    destruct (String.eqb_spec s l) as [->|]; reflexivity.
Qed.

(** The keys that [flow_df] keeps. *)
Lemma flow_total (f : row → Q) (df : DataFrame) :
  (foldr Qplus 0
     (group_total f df
        <$> filter (λ k, isin ["Pengeluaran Harian"; "Tabungan Saham"; "Beli Emas"] k
                         = true)
                   (sort_keys (unique_keys (col df "Tipe Transaksi"))))
   == group_total f df (VStr "Pengeluaran Harian")
      + group_total f df (VStr "Tabungan Saham")
      + group_total f df (VStr "Beli Emas"))%Q.
Proof.
  set (K := sort_keys _).
  rewrite <- (sum_if_filter (group_total f df)
                (isin ["Pengeluaran Harian"; "Tabungan Saham"; "Beli Emas"])).
  rewrite <- !label_total. fold K. rewrite <- !sum_plus.
  apply sum_ext. intros k _. destruct k as [s| | |]; cbn; try ring.
  destruct (String.eqb_spec s "Pengeluaran Harian") as [->|]; [cbn; ring|].
  destruct (String.eqb_spec s "Tabungan Saham") as [->|]; [cbn; ring|].
  destruct (String.eqb s "Beli Emas"); cbn; ring.
Qed.

Lemma abs_sum_le_sum {A} (f g : A → Q) (l : list A) :
  (∀ a, a ∈ l → (Qabs (f a) <= g a)%Q) →
  (abs_sum (f <$> l) <= foldr Qplus 0 (g <$> l))%Q.
Proof.
  unfold abs_sum. induction l as [|a l IH]; intros Hl;
    cbn [fmap list_fmap foldr]; [lra|].
  assert (Ha := Hl a (list_elem_of_here _ _)).
  assert (IH' := IH (λ b Hb, Hl b (list_elem_of_further _ _ _ Hb))). lra.
Qed.

(** Three of the groups together hold no more than all rows. *)
Lemma three_groups_bound (df : DataFrame) :
  (group_total (Qabs ∘ amount) df (VStr "Pengeluaran Harian")
   + group_total (Qabs ∘ amount) df (VStr "Tabungan Saham")
   + group_total (Qabs ∘ amount) df (VStr "Beli Emas")
   <= abs_sum (amount <$> rows df))%Q.
Proof.
  rewrite !group_total_label. unfold of_type.
  rewrite <- !total_of_filter. unfold total_of, abs_sum.
  rewrite <- !sum_plus, <- list_fmap_compose.
  induction (rows df) as [|r l IH]; cbn [fmap list_fmap foldr]; [lra|].
  assert (Hr : ((if eq_str (type_of r) "Pengeluaran Harian"
                 then (Qabs ∘ amount) r else 0)
                + (if eq_str (type_of r) "Tabungan Saham"
                   then (Qabs ∘ amount) r else 0)
                + (if eq_str (type_of r) "Beli Emas"
                   then (Qabs ∘ amount) r else 0)
                <= (Qabs ∘ amount) r)%Q).
  { pose proof (Qabs_nonneg (amount r)). cbn [compose].
    destruct (type_of r) as [s| | |]; cbn [eq_str]; try lra.
    destruct (String.eqb_spec s "Pengeluaran Harian"),
      (String.eqb_spec s "Tabungan Saham"),
      (String.eqb_spec s "Beli Emas"); try congruence; lra. }
  lra.
Qed.

Section ExactPie.
Context {numpy : Numpy} {laws : NumpyLaws numpy}.

Lemma group_total_on_grid (k0 : nat) (df : DataFrame) (k : value) :
  Forall (on_grid k0) (amount <$> rows df) →
  on_grid k0 (group_total amount df k).
Proof.
  intros Hg. apply on_grid_sum. rewrite Forall_fmap in *.
  apply Forall_forall. intros r [_ Hr]%list_elem_of_filter.
  by eapply Forall_forall in Hg.
Qed.

(** In the exact range the sums of [groupby] are the sums of the groups. *)
Lemma key_total_exact (df : DataFrame) (k : value) :
  exact_sum (amount <$> rows df) →
  (key_total df k == group_total amount df k)%Q.
Proof.
  intros Hex. unfold key_total, group_total, total_of.
  rewrite <- list_fmap_compose. apply group_sum_exact.
  by apply (exact_sum_filter amount).
Qed.

Lemma flow_exact (df : DataFrame) :
  exact_sum (amount <$> rows df) →
  exact_sum
    (key_total df
       <$> filter (λ k, isin ["Pengeluaran Harian"; "Tabungan Saham"; "Beli Emas"] k
                        = true)
                  (sort_keys (unique_keys (col df "Tipe Transaksi")))).
Proof.
  intros Hex. pose proof Hex as (k0 & Hk & Hg & Hb).
  exists k0. split; [done|]. split.
  - apply Forall_fmap, Forall_forall. intros k _. cbn.
    apply (on_grid_proper k0 _ _ (key_total_exact df k Hex)).
    by apply group_total_on_grid.
  - eapply Qle_trans; [|exact Hb].
    eapply Qle_trans; [|apply three_groups_bound].
    rewrite <- flow_total. apply abs_sum_le_sum. intros k _.
    rewrite (key_total_exact df k Hex). unfold group_total, total_of.
    rewrite (list_fmap_compose amount Qabs). apply abs_sum_bound.
Qed.

Lemma flow_sum_exact (df : DataFrame) :
  exact_sum (amount <$> rows df) →
  (series_sum (col (flow_df df) "Jumlah (Rp)")
   == group_total amount df (VStr "Pengeluaran Harian")
      + group_total amount df (VStr "Tabungan Saham")
      + group_total amount df (VStr "Beli Emas"))%Q.
Proof.
  intros Hex. unfold series_sum, col.
  rewrite flow_df_rows, <- !list_fmap_compose.
  set (K := filter _ _).
  assert (Hlist : (num ∘ (λ r : row, loc r "Jumlah (Rp)")) ∘ group_row df <$> K
                  = key_total df <$> K).
  { apply list_fmap_ext. intros i k _. cbn.
    by rewrite (proj2 (group_row_lookup df k)). }
  rewrite Hlist, np_sum_exact by by apply flow_exact.
  rewrite <- flow_total. fold K. apply sum_ext.
  intros k _. by apply key_total_exact.
Qed.
End ExactPie.

Section Pie.
Context `{Pandas} {numpy : Numpy} {laws : NumpyLaws numpy} `{Worksheet Sheet}.

(** In the exact range the sum of a group is the total of its bucket
    column. *)
Lemma loaded_key_total (sheet : Sheet) (t : TransactionType) :
  exact_sum (amount <$> rows (load_data sheet).1) →
  (group_total amount (load_data sheet).1 (VStr (label t))
   == bucket_total (load_data sheet).1 t)%Q.
Proof.
  intros (k & Hk & Hg & Hb).
  destruct (bucket_column_sum sheet (load_data sheet).1 t k) as [Hsum _];
    [done..|].
  rewrite group_total_label, <- bucket_column_total.
  rewrite <- Hsum. by destruct t.
Qed.

(** X11.  In the range where 64-bit arithmetic is exact, the pie of a loaded
    frame is drawn exactly when the expenses, the stock savings and the
    rupiah paid for gold add up to more than zero; otherwise the note is
    shown in its place. *)
Theorem pie_shown_iff (sheet : Sheet) :
  empty (load_data sheet).1 = false →
  exact_sum (amount <$> rows (load_data sheet).1) →
  is_Some (pie_chart (load_data sheet).1)
  ↔ (0 < total_pengeluaran (load_data sheet).1
         + total_tabungan_saham (load_data sheet).1
         + series_sum (col (load_data sheet).1 "Beli Emas (Rp)"))%Q.
Proof.
  intros He Hex. set (df := (load_data sheet).1) in *.
  assert (Hsum : (series_sum (col (flow_df df) "Jumlah (Rp)")
                  == total_pengeluaran df + total_tabungan_saham df
                     + series_sum (col df "Beli Emas (Rp)"))%Q).
  { rewrite (flow_sum_exact df Hex).
    apply Qplus_comp; [apply Qplus_comp|].
    - apply (loaded_key_total sheet PengeluaranHarian Hex).
    - apply (loaded_key_total sheet TabunganSaham Hex).
    - apply (loaded_key_total sheet BeliEmas Hex). }
  rewrite <- Hsum. unfold pie_chart. cbn zeta.
  destruct (Qle_bool (series_sum (col (flow_df df) "Jumlah (Rp)")) 0) eqn:Hle.
  - rewrite andb_false_r. apply Qle_bool_iff in Hle. split.
    + by intros [? ?].
    + intros Hlt. by apply Qlt_not_le in Hlt.
  - assert (Hlt : (0 < series_sum (col (flow_df df) "Jumlah (Rp)"))%Q).
    { apply Qnot_le_lt. intros Hle'%Qle_bool_iff. congruence. }
    assert (empty (flow_df df) = false) as ->.
    { unfold empty. apply orb_false_iff. split; apply bool_decide_eq_false.
      - cbn. intros Hc.
        assert (Hin : "Jumlah (Rp)" ∈@{gset string} ∅)
          by (rewrite <- Hc; set_unfold; tauto).
        by apply not_elem_of_empty in Hin.
      - intros Hlen. apply nil_length_inv in Hlen.
        rewrite (flow_sum_exact df Hex) in Hlt.
        rewrite <- flow_total in Hlt. rewrite flow_df_rows in Hlen.
        apply fmap_nil_inv in Hlen. rewrite Hlen in Hlt. by cbn in Hlt. }
    cbn. split; [done|]. intros _. eauto.
Qed.

(** X12.  Every slice of the pie of a loaded frame is named by one of the
    labels "Pengeluaran Harian", "Tabungan Saham" and "Beli Emas" that some
    row carries as its type, no label names two slices, and income is never
    a slice; in the range where 64-bit arithmetic is exact the value of the
    slice is the total of the bucket column of its type, so the slices
    repeat the totals of the metric cards. *)
Theorem pie_slices (sheet : Sheet) (slices : list (value * value)) :
  empty (load_data sheet).1 = false →
  pie_chart (load_data sheet).1 = Some slices →
  NoDup slices.*1
  ∧ ∀ name v, (name, v) ∈ slices →
      ∃ t, t ≠ Pemasukan
        ∧ name = VStr (label t)
        ∧ (∃ r, r ∈ rows (load_data sheet).1 ∧ type_of r = name)
        ∧ ∃ q, v = VNum q
            ∧ (exact_sum (amount <$> rows (load_data sheet).1) →
               (q == bucket_total (load_data sheet).1 t)%Q).
Proof.
  intros He. set (df := (load_data sheet).1) in *.
  unfold pie_chart. cbn zeta. rewrite flow_df_rows.
  destruct (_ && _); [|done]. intros <-%(inj Some).
  set (K := filter _ _).
  assert (HK : NoDup K).
  { apply NoDup_filter. rewrite sort_keys_perm. apply unique_keys_NoDup. }
  split.
  - rewrite <- !list_fmap_compose.
    rewrite (list_fmap_ext _ id K); [by rewrite list_fmap_id|].
    intros i k _. cbn. apply (proj1 (group_row_lookup df k)).
  - intros name v (? & [= -> ->] & (k & -> & Hk)%list_elem_of_fmap)%list_elem_of_fmap.
    destruct (group_row_lookup df k) as [-> ->].
    apply list_elem_of_filter in Hk as [Hin Hk].
    apply isin_label in Hin as (l & Hl & ->).
    rewrite sort_keys_perm in Hk. apply elem_of_unique_keys in Hk.
    apply list_elem_of_fmap in Hk as (r & Hr & Hrin).
    assert (∃ t, t ≠ Pemasukan ∧ l = label t) as (t & Ht & ->).
    { repeat (apply elem_of_cons in Hl as [->|Hl]);
        [by exists PengeluaranHarian|by exists TabunganSaham|by exists BeliEmas|].
      by apply elem_of_nil in Hl. }
    exists t. split; [done|]. split; [done|]. split; [by exists r|].
    eexists. split; [done|]. intros Hex.
    rewrite (key_total_exact df _ Hex). by apply loaded_key_total.
Qed.
End Pie.

(** ** When the dashboard is shown *)

Section Dashboard.
Context `{Pandas} `{Numpy} `{Worksheet Sheet}.

(** X13.  The metric cards and the two tabs (shown when the loaded frame is
    not empty) appear exactly when the sheet could be read and its records
    make a non-empty frame with all five required columns; in every other
    case the frame is empty and the closing warning is shown instead.
    Cleaning never empties a frame. *)
Theorem dashboard_shown_iff (sheet : Sheet) :
  empty (load_data sheet).1 = false
  ↔ ∃ data, get_all_records sheet = inr data
      ∧ empty (pd_DataFrame data) = false
      ∧ ∀ c, c ∈ required_cols → c ∈ columns (pd_DataFrame data).
Proof.
  split.
  - intros (data & Hget & He & Hall & _)%load_data_nonempty. eauto.
  - intros (data & Hget & He & Hall).
    rewrite (load_data_clean sheet data Hget He Hall). cbn [fst].
    unfold empty in *. apply orb_false_iff in He as [_ Hrows].
    apply orb_false_iff. split; apply bool_decide_eq_false.
    + rewrite clean_columns. intros Hc.
      assert (Hin : "Tanggal" ∈@{gset string} ∅)
        by (rewrite <- Hc; set_unfold; tauto).
      by apply not_elem_of_empty in Hin.
    + apply bool_decide_eq_false in Hrows.
      by rewrite clean_rows, length_fmap, length_imap.
Qed.
End Dashboard.

(** ** The further properties on concrete sheets *)

Section FurtherExamples.
#[local] Existing Instance pandas_stable.
#[local] Existing Instance numpy64.

(** The pie of [ledger_sheet]: the gold purchase was entered with its grams
    only, so its slice is empty; the income is no slice. *)
Example pie_of_ledger_sheet :
  pie_chart (load_data ledger_sheet).1 = Some ledger_slices
  ∧ pie_chart (load_data salary_sheet).1 = None.
Proof. by vm_compute. Qed.

(** Amounts as the cards show them. *)
Example format_rp_examples :
  format_rp (Number 5000000) = "Rp 5.000.000"
  ∧ format_rp (Number (2469135 # 2)) = "Rp 1.234.568"
  ∧ format_rp (Number (-1500)) = "Rp -1.500"
  ∧ format_rp (Number (5 # 2)) = "Rp 2"
  ∧ format_rp (Number 0) = "Rp 0".
Proof. by vm_compute. Qed.

Lemma loaded_frame_is_clean_witness :
  empty (load_data ledger_sheet).1 = false
  ∧ (load_data ledger_sheet).2 = []
  ∧ (∀ c, c ∈ required_cols ++ ["Pemasukan"; "Pengeluaran"; "Investasi Saham";
                                  "Beli Emas (Rp)"] →
          c ∈ columns (load_data ledger_sheet).1)
  ∧ ∀ r, r ∈ rows (load_data ledger_sheet).1 →
      (∃ o, date_of r = of_time o)
      ∧ ∀ c, c ∈ ["Jumlah (Rp)"; "Gram Emas"; "Pemasukan"; "Pengeluaran";
                   "Investasi Saham"; "Beli Emas (Rp)"] →
             ∃ q, loc r c = VNum q.
Proof.
  assert (He : empty (load_data ledger_sheet).1 = false) by by vm_compute.
  split; [exact He|]. exact (loaded_frame_is_clean ledger_sheet He).
Defined.


Lemma format_rp_distinct_witness :
  Z.abs 1000 ≤ 2 ^ 53 ∧ Z.abs 1000000 ≤ 2 ^ 53 ∧ 1000 ≠ 1000000
  ∧ format_rp (Number (inject_Z 1000)) ≠ format_rp (Number (inject_Z 1000000)).
Proof.
  assert (Hn : Z.abs 1000 ≤ 2 ^ 53) by by vm_compute.
  assert (Hm : Z.abs 1000000 ≤ 2 ^ 53) by by vm_compute.
  assert (Hne : 1000 ≠ 1000000) by lia.
  split; [exact Hn|]. split; [exact Hm|]. split; [exact Hne|].
  exact (@format_rp_distinct _ numpy64_laws 1000 1000000 Hn Hm Hne).
Defined.

Lemma saved_draft_reloaded_witness :
  get_all_records ledger_sheet_saved
  = inr (ledger_records ++ [record_of (input_form income_widgets)])
  ∧ float64 (inject_Z (jumlah_rp (input_form income_widgets)))
    = inject_Z (jumlah_rp (input_form income_widgets))
  ∧ float64 (gram_emas (input_form income_widgets))
    = gram_emas (input_form income_widgets)
  ∧ (load_data ledger_sheet_saved).2 = []
  ∧ empty (load_data ledger_sheet_saved).1 = false
  ∧ length (rows (load_data ledger_sheet_saved).1) = S (length ledger_records)
  ∧ ∃ r, last (rows (load_data ledger_sheet_saved).1) = Some r
      ∧ type_of r = VStr (transaction_type (input_form income_widgets))
      ∧ loc r "Keterangan" = VStr (keterangan (input_form income_widgets))
      ∧ loc r "Jumlah (Rp)"
        = VNum (inject_Z (jumlah_rp (input_form income_widgets)))
      ∧ loc r "Gram Emas" = VNum (gram_emas (input_form income_widgets))
      ∧ ∀ t, transaction_type (input_form income_widgets) = label t →
             bucket_of t r = inject_Z (jumlah_rp (input_form income_widgets))
             ∧ ∀ t', t' ≠ t → bucket_of t' r = 0%Q.
Proof.
  assert (Hget : get_all_records ledger_sheet_saved
                 = inr (ledger_records ++ [record_of (input_form income_widgets)]))
    by reflexivity.
  assert (Hrp : float64 (inject_Z (jumlah_rp (input_form income_widgets)))
                = inject_Z (jumlah_rp (input_form income_widgets)))
    by by vm_compute.
  assert (Hgram : float64 (gram_emas (input_form income_widgets))
                  = gram_emas (input_form income_widgets)) by by vm_compute.
  split; [exact Hget|]. split; [exact Hrp|]. split; [exact Hgram|].
  exact (saved_draft_reloaded ledger_sheet_saved ledger_records
           (input_form income_widgets) Hget Hrp Hgram).
Defined.

Lemma saved_draft_effect_witness :
  get_all_records ledger_sheet = inr ledger_records
  ∧ empty (load_data ledger_sheet).1 = false
  ∧ get_all_records ledger_sheet_saved
    = inr (ledger_records ++ [record_of (input_form income_widgets)])
  ∧ float64 (inject_Z (jumlah_rp (input_form income_widgets)))
    = inject_Z (jumlah_rp (input_form income_widgets))
  ∧ float64 (gram_emas (input_form income_widgets))
    = gram_emas (input_form income_widgets)
  ∧ exact_ledger (rows (load_data ledger_sheet).1)
  ∧ exact_ledger (rows (load_data ledger_sheet_saved).1)
  ∧ (saldo_cashflow (load_data ledger_sheet_saved).1
     == saldo_cashflow (load_data ledger_sheet).1
        + cash_effect (input_form income_widgets))%Q
  ∧ (total_kekayaan (load_data ledger_sheet_saved).1
     == total_kekayaan (load_data ledger_sheet).1
        + cash_effect (input_form income_widgets)
        + stock_effect (input_form income_widgets)
        + gram_emas (input_form income_widgets) * 900000)%Q.
Proof.
  assert (Hget : get_all_records ledger_sheet = inr ledger_records)
    by reflexivity.
  assert (He : empty (load_data ledger_sheet).1 = false) by by vm_compute.
  assert (Hget' : get_all_records ledger_sheet_saved
                  = inr (ledger_records ++ [record_of (input_form income_widgets)]))
    by reflexivity.
  assert (Hrp : float64 (inject_Z (jumlah_rp (input_form income_widgets)))
                = inject_Z (jumlah_rp (input_form income_widgets)))
    by by vm_compute.
  assert (Hgram : float64 (gram_emas (input_form income_widgets))
                  = gram_emas (input_form income_widgets)) by by vm_compute.
  assert (Hex : exact_ledger (rows (load_data ledger_sheet).1)).
  { split.
    - apply (exact_sum_b_true 0); [lia|by vm_compute].
    - apply (exact_sum_b_true 1); [lia|by vm_compute]. }
  assert (Hex' : exact_ledger (rows (load_data ledger_sheet_saved).1)).
  { split.
    - apply (exact_sum_b_true 0); [lia|by vm_compute].
    - apply (exact_sum_b_true 1); [lia|by vm_compute]. }
  split; [exact Hget|]. split; [exact He|]. split; [exact Hget'|].
  split; [exact Hrp|]. split; [exact Hgram|].
  split; [exact Hex|]. split; [exact Hex'|].
  exact (@saved_draft_effect _ _ numpy64_laws _ _ ledger_sheet
           ledger_sheet_saved ledger_records
           (input_form income_widgets) Hget He Hget' Hrp Hgram Hex Hex').
Defined.

Lemma trend_without_ties_witness :
  empty (load_data ledger_sheet).1 = false
  ∧ NoDup (date_of <$> dated (rows (load_data ledger_sheet).1))
  ∧ trend_points (load_data ledger_sheet).1
    = spec_cumulativeTrend (load_data ledger_sheet).1.
Proof.
  assert (He : empty (load_data ledger_sheet).1 = false) by by vm_compute.
  assert (Hdates : date_of <$> dated (rows (load_data ledger_sheet).1)
                   = [VTime 1706745600000000000; VTime 1704067200000000000;
                      VTime 1705276800000000000]) by by vm_compute.
  assert (Hnodup : NoDup (date_of <$> dated (rows (load_data ledger_sheet).1))).
  { rewrite Hdates. repeat (apply NoDup_cons; split; [not_listed|]).
    apply NoDup_nil_2. }
  split; [exact He|]. split; [exact Hnodup|].
  exact (@trend_without_ties _ pandas_stable_laws _ _ _ ledger_sheet He Hnodup).
Defined.

Lemma card_and_chart_witness :
  empty (load_data ledger_sheet).1 = false
  ∧ exact_sum (amount <$> rows (load_data ledger_sheet).1)
  ∧ length (trend_points (load_data ledger_sheet).1)
    = length (dated (rows (load_data ledger_sheet).1))
  ∧ (saldo_cashflow (load_data ledger_sheet).1
     == final_value (trend_points (load_data ledger_sheet).1)
        + total_of cashflow (undated (rows (load_data ledger_sheet).1)))%Q.
Proof.
  assert (He : empty (load_data ledger_sheet).1 = false) by by vm_compute.
  assert (Hex : exact_sum (amount <$> rows (load_data ledger_sheet).1))
    by (apply (exact_sum_b_true 0); [lia|by vm_compute]).
  split; [exact He|]. split; [exact Hex|]. split.
  - exact (proj1 (@card_and_chart _ pandas_stable_laws _ _ _ numpy64_laws
                    ledger_sheet He)).
  - exact (proj2 (@card_and_chart _ pandas_stable_laws _ _ _ numpy64_laws
                    ledger_sheet He) Hex).
Defined.

Lemma pie_shown_iff_witness :
  empty (load_data ledger_sheet).1 = false
  ∧ exact_sum (amount <$> rows (load_data ledger_sheet).1)
  ∧ (is_Some (pie_chart (load_data ledger_sheet).1)
     ↔ (0 < total_pengeluaran (load_data ledger_sheet).1
            + total_tabungan_saham (load_data ledger_sheet).1
            + series_sum (col (load_data ledger_sheet).1 "Beli Emas (Rp)"))%Q).
Proof.
  assert (He : empty (load_data ledger_sheet).1 = false) by by vm_compute.
  assert (Hex : exact_sum (amount <$> rows (load_data ledger_sheet).1))
    by (apply (exact_sum_b_true 0); [lia|by vm_compute]).
  split; [exact He|]. split; [exact Hex|].
  exact (@pie_shown_iff _ _ numpy64_laws _ _ ledger_sheet He Hex).
Defined.

Lemma pie_slices_witness :
  empty (load_data ledger_sheet).1 = false
  ∧ pie_chart (load_data ledger_sheet).1 = Some ledger_slices
  ∧ exact_sum (amount <$> rows (load_data ledger_sheet).1)
  ∧ NoDup ledger_slices.*1
  ∧ ∀ name v, (name, v) ∈ ledger_slices →
      ∃ t, t ≠ Pemasukan
        ∧ name = VStr (label t)
        ∧ (∃ r, r ∈ rows (load_data ledger_sheet).1 ∧ type_of r = name)
        ∧ ∃ q, v = VNum q
            ∧ (exact_sum (amount <$> rows (load_data ledger_sheet).1) →
               (q == bucket_total (load_data ledger_sheet).1 t)%Q).
Proof.
  assert (He : empty (load_data ledger_sheet).1 = false) by by vm_compute.
  assert (Hpie : pie_chart (load_data ledger_sheet).1 = Some ledger_slices)
    by by vm_compute.
  assert (Hex : exact_sum (amount <$> rows (load_data ledger_sheet).1))
    by (apply (exact_sum_b_true 0); [lia|by vm_compute]).
  split; [exact He|]. split; [exact Hpie|]. split; [exact Hex|].
  exact (@pie_slices _ _ numpy64_laws _ _ ledger_sheet ledger_slices He Hpie).
Defined.
End FurtherExamples.
